(** * go-sse: the broadcast core of the Server-Sent Events server

    A shallow embedding of [client.go], [channel.go] and [server.go].
    Go code that mutates objects behind pointers is written in a small
    state-and-failure monad; a goroutine either runs to the end of the
    modelled code, panics, or parks forever on a channel operation. *)

From stdpp Require Import gmap strings list fin_maps.
From Stdlib Require Import ZArith.

(** ** Go runtime: results, the monad, channels *)

Module Go.

Inductive result (A : Type) : Type :=
| Ok (a : A)            (* the code ran to its end *)
| Panic (msg : string)  (* a runtime panic *)
| Block.                (* the goroutine is parked and nothing wakes it *)
Global Arguments Ok {A} a.
Global Arguments Panic {A} msg.
Global Arguments Block {A}.

(** A computation over a mutable state [S].  The state is returned in
    every case: it is what the other goroutines see after a panic or
    while this one is parked. *)
Definition M (S A : Type) : Type := S → result A * S.

Definition ret {S A} (a : A) : M S A := λ s, (Ok a, s).

Definition bind {S A B} (m : M S A) (k : A → M S B) : M S B :=
  λ s, match m s with
       | (Ok a, s') => k a s'
       | (Panic msg, s') => (Panic msg, s')
       | (Block, s') => (Block, s')
       end.

Definition gets {S A} (f : S → A) : M S A := λ s, (Ok (f s), s).
Definition modify {S} (f : S → S) : M S unit := λ s, (Ok tt, f s).

Definition block {S A} : M S A := λ s, (Block, s).
Definition panic {S A} (msg : string) : M S A := λ s, (Panic msg, s).

(** [defer d()]: [d] runs when the body returns or panics. *)
Definition defer {S A} (d : M S unit) (m : M S A) : M S A :=
  λ s, match m s with
       | (Ok a, s') =>
           match d s' with
           | (Ok _, s'') => (Ok a, s'')
           | (Panic msg, s'') => (Panic msg, s'')
           | (Block, s'') => (Block, s'')
           end
       | (Panic msg, s') => (Panic msg, (d s').2)
       | (Block, s') => (Block, s')
       end.

(** Run [m] on a part of the state. *)
Definition zoom {S T A} (proj : S → T) (upd : T → S → S) (m : M T A) : M S A :=
  λ s, let '(r, t) := m (proj s) in (r, upd t s).

(** [chan A]: the queue, its capacity ([make(chan A, cap)]) and the
    closed flag. *)
Record chan (A : Type) : Type := Chan { buf : list A; cap : nat; closed : bool }.
Global Arguments Chan {A} buf cap closed.
Global Arguments buf {A} c.
Global Arguments cap {A} c.
Global Arguments closed {A} c.

Definition make {A} (n : nat) : chan A := Chan [] n false.

Definition full {A} (c : chan A) : bool := negb (length (buf c) <? cap c).

(** [close(c)] *)
Definition close {A} : M (chan A) unit := λ c,
  if closed c then (Panic "close of closed channel", c)
  else (Ok tt, Chan (buf c) (cap c) true).

(** [c <- v].  [rcv] tells whether a receiver takes a value off the
    channel while the sender waits; the value the receiver got is
    returned ([None]: the send only filled a free slot). *)
Definition send {A} (rcv : bool) (v : A) : M (chan A) (option A) := λ c,
  if closed c then (Panic "send on closed channel", c)
  else if full c then
    if rcv then
      match buf c with
      | [] => (Ok (Some v), c)
      | x :: q => (Ok (Some x), Chan (q ++ [v]) (cap c) false)
      end
    else (Block, c)
  else (Ok None, Chan (buf c ++ [v]) (cap c) false).

(** [v, ok := <-c] with no sender waiting. *)
Definition recv {A} : M (chan A) (option A) := λ c,
  match buf c with
  | x :: q => (Ok (Some x), Chan q (cap c) (closed c))
  | [] => if closed c then (Ok None, c) else (Block, c)
  end.

End Go.

Global Instance go_ret {S} : MRet (Go.M S) := λ A, Go.ret.
Global Instance go_bind {S} : MBind (Go.M S) := λ A B k m, Go.bind m k.

(** [time.Duration] counts nanoseconds. *)
Definition Millisecond : Z := 1000000.
Definition Second : Z := 1000 * Millisecond.

(** ** Message *)

(** Modelled from the spec: the [Message] struct of message.go, which is
    not among the sources, with its fields [id], [data] and [retry].
    The outboxes and the [SendMessage] methods hold [*Message]: a value
    of [Message.t] is such a pointer, given by the address of the object
    and by its [id] and [data], which the code under study reads through
    the pointer and assigns nowhere.  The [retry] field is assigned
    through the pointer by the streaming loop of [ServeHTTP]; it is kept
    apart, in [Server.retries], where every holder of the pointer sees
    it. *)
Module Message.
Record t : Type := Build { addr : nat; id : string; data : string }.
End Message.
Abbreviation Message := Message.t.

(** ** Client (client.go) *)

Abbreviation loc := nat.

Module Client.

Record t : Type := Build { lastEventID : string; channel : string; send : Go.chan Message }.

Definition set_lastEventID (x : string) (c : t) : t := Build x (channel c) (send c).
Definition set_send (ch : Go.chan Message) (c : t) : t := Build (lastEventID c) (channel c) ch.

Definition newClient (lastEventID channel : string) : t :=
  Build lastEventID channel (Go.make 1024).

(** [c.lastEventID = message.id; c.send <- message] *)
Definition SendMessage (rcv : bool) (message : Message) : Go.M t unit :=
  Go.modify (set_lastEventID (Message.id message)) ;;
  Go.zoom send set_send (Go.send rcv message) ;;
  mret tt.

Definition Channel (c : t) : string := channel c.
Definition LastEventID (c : t) : string := lastEventID c.

End Client.

(** The [*Client] pointers: clients live in a heap. *)
Abbreviation heap := (gmap loc Client.t).

(** [&Client{...}] *)
Definition alloc (c : Client.t) : Go.M heap loc := λ h,
  let a := fresh (dom h) in (Go.Ok a, <[a := c]> h).

(** Run a method on the object behind a pointer. *)
Definition deref {A} (a : loc) (m : Go.M Client.t A) : Go.M heap A := λ h,
  match h !! a with
  | Some c => let '(r, c') := m c in (r, <[a := c']> h)
  | None => (Go.Panic "invalid memory address or nil pointer dereference", h)
  end.

(** [for k, v := range m { body }] over a map that the body may shrink:
    [ks] are the keys of the map when the loop starts, [cur] reads the map
    as it is now; an entry deleted before it is reached is not produced. *)
Fixpoint rangeMap {S K V} `{Countable K} (cur : S → gmap K V) (ks : list K)
    (body : K → V → Go.M S unit) : Go.M S unit :=
  match ks with
  | [] => mret tt
  | k :: ks =>
      v ← Go.gets (λ s, cur s !! k) ;
      match v with
      | Some v => body k v
      | None => mret tt
      end ;;
      rangeMap cur ks body
  end.

(** ** Channel (channel.go) *)

Definition sendMessageToClientTimeout : Z := 200 * Millisecond.

Module Channel.

Record t : Type := Build { lastEventID : string; name : string; clients : gmap loc bool }.

Definition set_lastEventID (x : string) (c : t) : t := Build x (name c) (clients c).
Definition set_clients (m : gmap loc bool) (c : t) : t := Build (lastEventID c) (name c) m.

Definition newChannel (name : string) : t := Build "" name ∅.

(** The methods run on the heap and on the channel object itself. *)
Definition on_heap {A} (m : Go.M heap A) : Go.M (heap * t) A :=
  Go.zoom fst (λ h s, (h, s.2)) m.
Definition on_self {A} (m : Go.M t A) : Go.M (heap * t) A :=
  Go.zoom snd (λ c s, (s.1, c)) m.

(** [select { case c.send <- message: case <-timer.C: }] with the timer
    freshly armed.  [freed] is what the reader of the outbox does while
    the select waits: [Some d], it takes a message off after [d]
    nanoseconds; [None], it takes none.  The time spent in the select is
    returned. *)
Definition selectSend (freed : option Z) (message : Message) : Go.M (Go.chan Message) Z := λ c,
  let rcv := match freed with
             | Some d => (0 <=? d)%Z && (d <? sendMessageToClientTimeout)%Z
             | None => false
             end in
  match Go.send rcv message c with
  | (Go.Ok None, c') => (Go.Ok 0%Z, c')
  | (Go.Ok (Some _), c') => (Go.Ok (default 0%Z freed), c')
  | (Go.Block, c') => (Go.Ok sendMessageToClientTimeout, c')   (* case <-timer.C *)
  | (Go.Panic msg, c') => (Go.Panic msg, c')
  end.

(** The body of the loop of [SendMessage] for one entry of [c.clients]. *)
Definition sendTo (env : loc → option Z) (message : Message) (c : loc) (open : bool)
  : Go.M heap Z :=
  if open then deref c (Go.zoom Client.send Client.set_send (selectSend (env c) message))
  else mret 0%Z.

(** The loop of [SendMessage], run under the read lock: the entries are
    those of the map when the loop starts.  Returns the time spent
    waiting. *)
Fixpoint fanOut (env : loc → option Z) (message : Message) (l : list (loc * bool))
  : Go.M heap Z :=
  match l with
  | [] => mret 0%Z
  | (c, open) :: l =>
      d ← sendTo env message c open ;
      ds ← fanOut env message l ;
      mret (d + ds)%Z
  end.

Definition SendMessage (env : loc → option Z) (message : Message) : Go.M (heap * t) Z :=
  on_self (Go.modify (set_lastEventID (Message.id message))) ;;
  cs ← Go.gets (λ s, clients s.2) ;
  on_heap (fanOut env message (map_to_list cs)).

Definition addClient (client : loc) : Go.M (heap * t) unit :=
  on_self (Go.modify (λ c, set_clients (<[client := true]> (clients c)) c)).

Definition removeClient (client : loc) : Go.M (heap * t) unit :=
  on_self (Go.modify (λ c, set_clients (<[client := false]> (clients c)) c)) ;;
  on_self (Go.modify (λ c, set_clients (delete client (clients c)) c)) ;;
  on_heap (deref client (Go.zoom Client.send Client.set_send Go.close)).

Definition Close : Go.M (heap * t) unit :=
  cs ← Go.gets (λ s, clients s.2) ;
  rangeMap (λ s, clients s.2) (map_to_list cs).*1 (λ client _, removeClient client).

Definition ClientCount (c : t) : nat := size (clients c).
Definition LastEventID (c : t) : string := lastEventID c.

End Channel.

(** ** net/http, as far as [ServeHTTP] uses it *)

Module Http.

(** What the handler reads of [*http.Request]: [r.Method], [r.URL.Path],
    [r.Header.Get("Last-Event-ID")], and whether [r.Context()] is done. *)
Record Request : Type :=
  { Method : string; Path : string; LastEventID : string; cancelled : bool }.

(** What is written to the response: [msg.Bytes()] is kept as the
    message and the value its [retry] field has when it is formatted,
    since the formatter is not among the sources. *)
Inductive chunk : Type := Text (s : string) | Event (m : Message) (retry : Z).

(** [http.ResponseWriter]: the header map ([Set] keeps one value per
    key), the status once written, the body, and whether the writer is
    an [http.Flusher]. *)
Record ResponseWriter : Type :=
  { header : gmap string string; status : option Z; body : list chunk; flusher : bool }.

(** The line feed. *)
Definition LF : string := String (Ascii.ascii_of_nat 10) EmptyString.

Definition StatusOK : Z := 200.
Definition StatusMethodNotAllowed : Z := 405.
Definition StatusInternalServerError : Z := 500.

Section Canonical.
(** [textproto.CanonicalMIMEHeaderKey], applied by [Header.Set]. *)
Variable canon : string → string.

Definition Header_Set (k v : string) : Go.M ResponseWriter unit :=
  Go.modify (λ w, Build_ResponseWriter (<[canon k := v]> (header w)) (status w) (body w) (flusher w)).

Definition WriteHeader (code : Z) : Go.M ResponseWriter unit :=
  Go.modify (λ w, Build_ResponseWriter (header w)
                    (Some (default code (status w))) (body w) (flusher w)).

Definition Write (c : chunk) : Go.M ResponseWriter unit :=
  WriteHeader StatusOK ;;
  Go.modify (λ w, Build_ResponseWriter (header w) (status w) (body w ++ [c]) (flusher w)).

Definition Flush : Go.M ResponseWriter unit := WriteHeader StatusOK.

(** [http.Error(w, error, code)]; its last statement is
    [fmt.Fprintln(w, error)], which ends the text with a line feed. *)
Definition Error (error : string) (code : Z) : Go.M ResponseWriter unit :=
  Go.modify (λ w, Build_ResponseWriter (delete (canon "Content-Length") (header w))
                    (status w) (body w) (flusher w)) ;;
  Header_Set "Content-Type" "text/plain; charset=utf-8" ;;
  Header_Set "X-Content-Type-Options" "nosniff" ;;
  WriteHeader code ;;
  Write (Text (error ++ LF)).

(** [for k, v := range headers { h.Set(k, v) }] *)
Fixpoint SetAll (l : list (string * string)) : Go.M ResponseWriter unit :=
  match l with
  | [] => mret tt
  | (k, v) :: l => Header_Set k v ;; SetAll l
  end.
End Canonical.

End Http.

(** ** Options *)

(** Modelled from the spec: the [Options] struct of options.go, which is
    not among the sources: extra response headers, the retry hint, the
    topic resolver and the flag that keeps [NewServer] from starting the
    server.  The logger is left out: log lines change no state. *)
Record Options : Type :=
  { Headers : gmap string string;
    RetryInterval : Z;
    ChannelNameFunc : option (Http.Request → string);
    DontStartServer : bool }.

(** ** Server (server.go) *)

Inductive error : Type := ErrServerNotStarted | ErrServerStarted.

Module Server.

(** The fields of the struct, then three components of the state that
    are not fields: [mem], the [Client] objects behind the pointers;
    [dispatching], whether the goroutine running [dispatch] is in its
    loop; and [retries], the [retry] field of the [Message] objects the
    handlers have assigned to, by the address of the object (a message no
    handler has streamed is not in the map: its field is what its maker
    put there). *)
Record t : Type := Build
  { options : Options;
    channels : gmap string Channel.t;
    addClient : Go.chan loc;
    removeClient : Go.chan loc;
    shutdown : Go.chan bool;
    closeChannel : Go.chan string;
    isStarted : bool;
    mem : heap;
    dispatching : bool;
    retries : gmap nat Z }.

Definition set_channels (x : gmap string Channel.t) (s : t) : t :=
  Build (options s) x (addClient s) (removeClient s) (shutdown s) (closeChannel s)
        (isStarted s) (mem s) (dispatching s) (retries s).
Definition set_addClient (x : Go.chan loc) (s : t) : t :=
  Build (options s) (channels s) x (removeClient s) (shutdown s) (closeChannel s)
        (isStarted s) (mem s) (dispatching s) (retries s).
Definition set_removeClient (x : Go.chan loc) (s : t) : t :=
  Build (options s) (channels s) (addClient s) x (shutdown s) (closeChannel s)
        (isStarted s) (mem s) (dispatching s) (retries s).
Definition set_shutdown (x : Go.chan bool) (s : t) : t :=
  Build (options s) (channels s) (addClient s) (removeClient s) x (closeChannel s)
        (isStarted s) (mem s) (dispatching s) (retries s).
Definition set_closeChannel (x : Go.chan string) (s : t) : t :=
  Build (options s) (channels s) (addClient s) (removeClient s) (shutdown s) x
        (isStarted s) (mem s) (dispatching s) (retries s).
Definition set_isStarted (x : bool) (s : t) : t :=
  Build (options s) (channels s) (addClient s) (removeClient s) (shutdown s) (closeChannel s)
        x (mem s) (dispatching s) (retries s).
Definition set_mem (x : heap) (s : t) : t :=
  Build (options s) (channels s) (addClient s) (removeClient s) (shutdown s) (closeChannel s)
        (isStarted s) x (dispatching s) (retries s).
Definition set_dispatching (x : bool) (s : t) : t :=
  Build (options s) (channels s) (addClient s) (removeClient s) (shutdown s) (closeChannel s)
        (isStarted s) (mem s) x (retries s).
Definition set_retries (x : gmap nat Z) (s : t) : t :=
  Build (options s) (channels s) (addClient s) (removeClient s) (shutdown s) (closeChannel s)
        (isStarted s) (mem s) (dispatching s) x.

Definition on_mem {A} (m : Go.M heap A) : Go.M t A := Go.zoom mem set_mem m.

(** A method call through the [*Channel] stored under [name]. *)
Definition on_channel {A} (name : string) (m : Go.M (heap * Channel.t) A) : Go.M t A := λ s,
  match channels s !! name with
  | Some ch =>
      let '(r, (h, ch')) := m (mem s, ch) in
      (r, set_mem h (set_channels (<[name := ch']> (channels s)) s))
  | None => (Go.Panic "invalid memory address or nil pointer dereference", s)
  end.

(** A method call on a channel object that is no longer in the map. *)
Definition on_detached {A} (ch : Channel.t) (m : Go.M (heap * Channel.t) A) : Go.M t A :=
  Go.zoom (λ s, (mem s, ch)) (λ hc s, set_mem hc.1 s) m.

Definition hasStarted : Go.M t bool := Go.gets isStarted.

Definition getChannel (name : string) : Go.M t (option Channel.t) :=
  Go.gets (λ s, channels s !! name).

Definition addChannel (name : string) : Go.M t Channel.t :=
  let ch := Channel.newChannel name in
  Go.modify (λ s, set_channels (<[Channel.name ch := ch]> (channels s)) s) ;;
  mret ch.

Definition removeChannel (ch : Channel.t) : Go.M t unit :=
  Go.modify (λ s, set_channels (delete (Channel.name ch) (channels s)) s) ;;
  on_detached ch Channel.Close.

Definition close : Go.M t unit :=
  chs ← Go.gets channels ;
  rangeMap channels (map_to_list chs).*1 (λ _ ch, removeChannel ch).

(** *** The control loop

    The bodies of the four cases of the [select] in [dispatch]. *)

Definition dispatch_addClient (c : loc) : Go.M t unit :=
  name ← on_mem (deref c (Go.gets Client.channel)) ;
  ch ← getChannel name ;
  match ch with
  | Some _ => mret tt
  | None => addChannel name ;; mret tt
  end ;;
  on_channel name (Channel.addClient c).

Definition dispatch_removeClient (c : loc) : Go.M t unit :=
  name ← on_mem (deref c (Go.gets Client.channel)) ;
  ch ← getChannel name ;
  match ch with
  | Some _ =>
      on_channel name (Channel.removeClient c) ;;
      ch ← on_channel name (Go.gets snd) ;
      if bool_decide (Channel.ClientCount ch = 0) then removeChannel ch else mret tt
  | None => mret tt
  end.

Definition dispatch_closeChannel (channel : string) : Go.M t unit :=
  ch ← getChannel channel ;
  match ch with
  | Some ch => removeChannel ch
  | None => mret tt
  end.

Definition dispatch_shutdown : Go.M t unit :=
  close ;;
  Go.zoom addClient set_addClient Go.close ;;
  Go.zoom removeClient set_removeClient Go.close ;;
  Go.zoom closeChannel set_closeChannel Go.close ;;
  Go.zoom shutdown set_shutdown Go.close ;;
  Go.modify (set_dispatching false).        (* return *)

(** One turn of the loop on one of the two buffered control channels:
    the [select] takes the case of a queue that holds a value.  A
    receive from a closed queue yields the nil pointer, which the case
    dereferences. *)
Inductive queue : Type := AddClient | RemoveClient.

Definition dispatch (q : queue) : Go.M t unit :=
  match q with
  | AddClient =>
      c ← Go.zoom addClient set_addClient Go.recv ;
      match c with
      | Some c => dispatch_addClient c
      | None => Go.panic "invalid memory address or nil pointer dereference"
      end
  | RemoveClient =>
      c ← Go.zoom removeClient set_removeClient Go.recv ;
      match c with
      | Some c => dispatch_removeClient c
      | None => Go.panic "invalid memory address or nil pointer dereference"
      end
  end.

(** *** Public methods *)

(** [env] is what the readers of the outboxes do during the call (see
    [Channel.selectSend]). *)
Definition SendMessage (env : loc → option Z) (channelName : string) (message : Message)
  : Go.M t (option error) :=
  started ← hasStarted ;
  if negb started then mret (Some ErrServerNotStarted)
  else
    (if bool_decide (String.length channelName = 0) then
       chs ← Go.gets channels ;
       rangeMap channels (map_to_list chs).*1
         (λ name _, on_channel name (Channel.SendMessage env message) ;; mret tt)
     else
       ch ← getChannel channelName ;
       match ch with
       | Some _ => on_channel channelName (Channel.SendMessage env message) ;; mret tt
       | None => mret tt
       end) ;;
    mret None.

Definition Start : Go.M t (option error) :=
  started ← hasStarted ;
  if (started : bool) then mret (Some ErrServerStarted)
  else
    Go.modify (set_dispatching true) ;;      (* go s.dispatch() *)
    Go.modify (set_isStarted true) ;;
    mret None.

Definition Restart : Go.M t (option error) :=
  started ← hasStarted ;
  if negb started then mret (Some ErrServerNotStarted)
  else close ;; mret None.

(** [s.shutdown] and [s.closeChannel] are unbuffered: a send completes
    when the loop of [dispatch] takes the value, and the case of the
    loop is run here, right after the hand-over. *)
Definition Shutdown : Go.M t (option error) :=
  started ← hasStarted ;
  if negb started then mret (Some ErrServerNotStarted)
  else
    d ← Go.gets dispatching ;
    got ← Go.zoom shutdown set_shutdown (Go.send d true) ;
    match got with Some _ => dispatch_shutdown | None => mret tt end ;;
    mret None.

Definition CloseChannel (name : string) : Go.M t unit :=
  d ← Go.gets dispatching ;
  got ← Go.zoom closeChannel set_closeChannel (Go.send d name) ;
  match got with Some name => dispatch_closeChannel name | None => mret tt end.

Definition ClientCount (s : t) : nat :=
  foldr (λ ch i, i + Channel.ClientCount ch) 0 (map_to_list (channels s)).*2.

Definition HasChannel (name : string) (s : t) : bool :=
  bool_decide (is_Some (channels s !! name)).

Definition GetChannel (name : string) (s : t) : option Channel.t := channels s !! name.

Definition Channels (s : t) : list string := (map_to_list (channels s)).*1.

Definition NewServer (options : option Options) : t :=
  let options := default (Build_Options ∅ 0 None false) options in
  let s := Build options ∅ (Go.make 256) (Go.make 256) (Go.make 0) (Go.make 0) false ∅ false ∅ in
  if negb (DontStartServer options) then (Start s).2 else s.

(** *** The HTTP handler *)

Definition on_srv {A} (m : Go.M t A) : Go.M (t * Http.ResponseWriter) A :=
  Go.zoom fst (λ x st, (x, st.2)) m.
Definition on_w {A} (m : Go.M Http.ResponseWriter A) : Go.M (t * Http.ResponseWriter) A :=
  Go.zoom snd (λ x st, (st.1, x)) m.

(** [select { case s.addClient <- c: case <-closeNotify: return }];
    tells whether [c] was sent.  [pick] is the choice of the select
    when both cases are ready: [true] takes [closeNotify]. *)
Definition selectAdd (pick cancelled : bool) (c : loc) : Go.M t bool :=
  d ← Go.gets dispatching ;
  q ← Go.gets addClient ;
  let ready := Go.closed q || negb (Go.full q) || d in
  if cancelled && (negb ready || pick) then mret false
  else
    got ← Go.zoom addClient set_addClient (Go.send d c) ;
    match got with Some x => dispatch_addClient x | None => mret tt end ;;
    mret true.

(** The deferred function:
    [select { case s.removeClient <- c: case <-time.After(1 * time.Second): }] *)
Definition deferredRemove (c : loc) : Go.M t unit :=
  d ← Go.gets dispatching ;
  ((λ s, match Go.zoom removeClient set_removeClient (Go.send d c) s with
         | (Go.Ok (Some x), s') => dispatch_removeClient x s'
         | (Go.Ok None, s') => (Go.Ok tt, s')
         | (Go.Block, s') => (Go.Ok tt, s')       (* case <-time.After(...) *)
         | (Go.Panic msg, s') => (Go.Panic msg, s')
         end) : Go.M t unit).

(** The streaming loop.  Nothing is sent to the outbox while it runs
    here, so each turn takes one buffered message; [fuel] is one more
    than their number and is never used up.  [msg.retry = ...] assigns
    through the pointer: the object is shared with every other outbox
    the message was sent to and with its publisher. *)
Fixpoint streamLoop (fuel : nat) (cancelled : bool) (c : loc)
  : Go.M (t * Http.ResponseWriter) unit :=
  match fuel with
  | 0 => Go.block
  | S fuel =>
      if cancelled then mret tt                  (* case <-closeNotify *)
      else
        got ← on_srv (on_mem (deref c (Go.zoom Client.send Client.set_send Go.recv))) ;
        match got with
        | None => mret tt                        (* !ok *)
        | Some msg =>
            retryInterval ← Go.gets (λ st, RetryInterval (options st.1)) ;
            on_srv (Go.modify (λ s, set_retries
                                      (<[Message.addr msg := retryInterval]> (retries s)) s)) ;;
            retry ← Go.gets (λ st, default 0%Z (retries st.1 !! Message.addr msg)) ;
            on_w (Http.Write (Http.Event msg retry)) ;;
            on_w Http.Flush ;;
            streamLoop fuel cancelled c
        end
  end.

Definition outboxLen (c : loc) (s : t) : nat :=
  match mem s !! c with Some cl => length (Go.buf (Client.send cl)) | None => 0 end.

(** [hasHeaders] is [Options.hasHeaders], which is not among the
    sources; [canon] is the key canonicalisation of [http.Header]. *)
Definition ServeHTTP (hasHeaders : Options → bool) (canon : string → string) (pick : bool)
    (r : Http.Request) : Go.M (t * Http.ResponseWriter) unit :=
  started ← Go.gets (λ st, isStarted st.1) ;
  if negb started then
    on_w (Http.Error canon "Server is not started" Http.StatusInternalServerError)
  else
    ok ← Go.gets (λ st, Http.flusher st.2) ;
    if negb ok then
      on_w (Http.Error canon "Streaming unsupported." Http.StatusInternalServerError)
    else
      opts ← Go.gets (λ st, options st.1) ;
      (if hasHeaders opts : bool then on_w (Http.SetAll canon (map_to_list (Headers opts)))
       else mret tt) ;;
      if bool_decide (Http.Method r = "GET") then
        on_w (Http.Header_Set canon "Content-Type" "text/event-stream") ;;
        on_w (Http.Header_Set canon "Cache-Control" "no-cache") ;;
        on_w (Http.Header_Set canon "Connection" "keep-alive") ;;
        on_w (Http.Header_Set canon "X-Accel-Buffering" "no") ;;
        let channelName :=
          match ChannelNameFunc opts with
          | None => Http.Path r
          | Some f => f r
          end in
        c ← on_srv (on_mem (alloc (Client.newClient (Http.LastEventID r) channelName))) ;
        sent ← on_srv (selectAdd pick (Http.cancelled r) c) ;
        if negb sent then mret tt
        else
          Go.defer (on_srv (deferredRemove c))
            (on_w (Http.WriteHeader Http.StatusOK) ;;
             on_w Http.Flush ;;
             n ← Go.gets (λ st, outboxLen c st.1) ;
             streamLoop (S n) (Http.cancelled r) c)
      else if negb (bool_decide (Http.Method r = "OPTIONS")) then
        on_w (Http.WriteHeader Http.StatusMethodNotAllowed)
      else mret tt.

End Server.

(** ** Vocabulary of the statements *)

(** The three states of the registry's life cycle, read off the fields:
    the flag, the goroutine of [dispatch], and the control channels as
    [NewServer] made them or as the shutdown case left them. *)
Definition ctl_open (s : Server.t) : Prop :=
  Go.closed (Server.addClient s) = false ∧ Go.closed (Server.removeClient s) = false ∧
  Server.shutdown s = Go.make 0 ∧ Server.closeChannel s = Go.make 0.

Definition ctl_closed (s : Server.t) : Prop :=
  Go.closed (Server.addClient s) = true ∧ Go.closed (Server.removeClient s) = true ∧
  Go.closed (Server.shutdown s) = true ∧ Go.closed (Server.closeChannel s) = true.

Definition unstarted (s : Server.t) : Prop :=
  Server.isStarted s = false ∧ Server.dispatching s = false ∧ ctl_open s.

Definition running (s : Server.t) : Prop :=
  Server.isStarted s = true ∧ Server.dispatching s = true ∧ ctl_open s.

Definition stopped (s : Server.t) : Prop :=
  Server.isStarted s = true ∧ Server.dispatching s = false ∧ ctl_closed s.

(** The options, the control channels and the two flags: everything in
    the server state but the channel map, the client objects and the
    [retry] fields of the messages. *)
Definition ctl (s : Server.t) :=
  (Server.options s, Server.addClient s, Server.removeClient s, Server.shutdown s,
   Server.closeChannel s, Server.isStarted s, Server.dispatching s).

(** A connection is live in a heap when its object exists and its outbox
    has not been closed. *)
Definition live (h : heap) (c : loc) : Prop :=
  ∃ cl, h !! c = Some cl ∧ Go.closed (Client.send cl) = false.

(** The members of a channel are live, and their entries are [true]. *)
Definition members_ok (h : heap) (ch : Channel.t) : Prop :=
  ∀ c b, Channel.clients ch !! c = Some b → b = true ∧ live h c.

(** The registry invariant the control loop maintains: a channel is
    stored under its own name, its members are live, and a member's topic
    is the channel's name (so a connection is in at most one channel). *)
Definition registry_ok (s : Server.t) : Prop :=
  ∀ name ch, Server.channels s !! name = Some ch →
    Channel.name ch = name ∧
    ∀ c b, Channel.clients ch !! c = Some b →
      b = true ∧ ∃ cl, Server.mem s !! c = Some cl ∧
                       Go.closed (Client.send cl) = false ∧ Client.channel cl = name.

(** The two invariants as checks that compute. *)
Definition member_okb (h : heap) (c : loc) (b : bool) : bool :=
  b && match h !! c with
       | Some cl => negb (Go.closed (Client.send cl))
       | None => false
       end.

Definition members_okb (h : heap) (ch : Channel.t) : bool :=
  bool_decide (map_Forall (λ c b, member_okb h c b = true) (Channel.clients ch)).

Definition topic_okb (h : heap) (name : string) (c : loc) : bool :=
  match h !! c with
  | Some cl => bool_decide (Client.channel cl = name)
  | None => false
  end.

Definition registry_okb (s : Server.t) : bool :=
  bool_decide (map_Forall (λ name ch,
      Channel.name ch = name ∧
      map_Forall (λ c b, member_okb (Server.mem s) c b && topic_okb (Server.mem s) name c = true)
                 (Channel.clients ch))
    (Server.channels s)).

(** Every entry of every channel is [true] and points to a client
    object. *)
Definition members_present (s : Server.t) : Prop :=
  ∀ name ch c b, Server.channels s !! name = Some ch → Channel.clients ch !! c = Some b →
                 b = true ∧ is_Some (Server.mem s !! c).

Definition members_presentb (s : Server.t) : bool :=
  bool_decide (map_Forall (λ _ ch,
      map_Forall (λ c b, b = true ∧ is_Some (Server.mem s !! c)) (Channel.clients ch))
    (Server.channels s)).




(** [c] is a member of some channel of the registry. *)
Definition member (s : Server.t) (c : loc) : Prop :=
  ∃ name ch, Server.channels s !! name = Some ch ∧ is_Some (Channel.clients ch !! c).

(** What one [select] of the fan-out does to a connection object, and
    the time it takes. *)
Definition offer (env : loc → option Z) (message : Message) (c : loc) (cl : Client.t) : Client.t :=
  Client.set_send (Channel.selectSend (env c) message (Client.send cl)).2 cl.

Definition wait (env : loc → option Z) (message : Message) (c : loc) (cl : Client.t) : Z :=
  match (Channel.selectSend (env c) message (Client.send cl)).1 with
  | Go.Ok d => d
  | _ => 0
  end.

(** The reader of [c]'s outbox frees no slot before the timer fires. *)
Definition unresponsive (env : loc → option Z) (c : loc) : Prop :=
  match env c with
  | Some d => ¬ (0 ≤ d < sendMessageToClientTimeout)%Z
  | None => True
  end.

(** The number of members whose outbox is full when the publish starts. *)
Definition is_full (h : heap) (c : loc) : bool :=
  match h !! c with
  | Some cl => Go.full (Client.send cl)
  | None => false
  end.

Definition saturated (h : heap) (l : list (loc * bool)) : nat :=
  length (filter (λ e, is_full h e.1 = true) l).

(** The outbox after [close(client.send)]. *)
Definition closed_outbox (cl : Client.t) : Client.t :=
  Client.set_send (Go.Chan (Go.buf (Client.send cl)) (Go.cap (Client.send cl)) true) cl.

(** *** The steps of a publish

    [Channel.SendMessage] as the list of its atomic steps, and the states
    a run of such a list goes through. *)
Definition SendMessage_steps (env : loc → option Z) (message : Message) (cs : list (loc * bool))
  : list (Go.M (heap * Channel.t) Z) :=
  (Channel.on_self (Go.modify (Channel.set_lastEventID (Message.id message))) ;; mret 0%Z)
  :: map (λ e, Channel.on_heap (Channel.sendTo env message e.1 e.2)) cs.

Fixpoint trace {S A} (steps : list (Go.M S A)) (s : S) : list S :=
  s :: match steps with
       | [] => []
       | m :: steps =>
           match m s with
           | (Go.Ok _, s') => trace steps s'
           | (_, s') => [s']
           end
       end.

(** The response writer once the handler has copied the configured
    headers into it. *)
Definition with_headers (hasHeaders : Options → bool) (canon : string → string)
    (s : Server.t) (w : Http.ResponseWriter) : Http.ResponseWriter :=
  if hasHeaders (Server.options s)
  then (Http.SetAll canon (map_to_list (Headers (Server.options s))) w).2
  else w.

(** The topic [ServeHTTP] resolves for a request. *)
Definition topic_of (s : Server.t) (r : Http.Request) : string :=
  match ChannelNameFunc (Server.options s) with
  | None => Http.Path r
  | Some f => f r
  end.

(** An outbox with one more message at its end. *)
Definition enqueued (message : Message) (cl : Client.t) : Client.t :=
  Client.set_send
    (Go.Chan (Go.buf (Client.send cl) ++ [message]) (Go.cap (Client.send cl)) false) cl.

(** The control channels after the four [close] calls of the shutdown
    case, and the loop gone. *)
Definition shut_down (s : Server.t) : Server.t :=
  let closed {A} (c : Go.chan A) := Go.Chan (Go.buf c) (Go.cap c) true in
  Server.Build (Server.options s) (Server.channels s)
    (closed (Server.addClient s)) (closed (Server.removeClient s))
    (closed (Server.shutdown s)) (closed (Server.closeChannel s))
    (Server.isStarted s) (Server.mem s) false (Server.retries s).

(** *** Small states *)

Definition msg1 : Message := Message.Build 1 "1" "hello".
Definition msg2 : Message := Message.Build 2 "2" "world".

(** A client with a one-slot outbox, as the spec's saturation test sets up. *)
Definition tiny (topic : string) (q : list Message) : Client.t :=
  Client.Build "" topic (Go.Chan q 1 false).


Definition never : loc → option Z := λ _, None.

Definition unstarted0 : Server.t := Server.NewServer (Some (Build_Options ∅ 0 None true)).
Definition running0 : Server.t := Server.NewServer None.

(** Two channels, one with a saturated and a free connection. *)
Definition demo : Server.t :=
  Server.set_mem {[ 0 := tiny "CH-1" [msg1]; 1 := tiny "CH-1" []; 2 := tiny "CH-2" [] ]}
    (Server.set_channels
       {[ "CH-1" := Channel.Build "" "CH-1" {[ 0 := true; 1 := true ]};
          "CH-2" := Channel.Build "" "CH-2" {[ 2 := true ]} ]}
       running0).

(** Two connections of one channel that both hold the message [msg1],
    on a server with a retry interval of 3000. *)
Definition shared : Server.t :=
  Server.set_mem {[ 0 := tiny "CH-1" [msg1]; 1 := tiny "CH-1" [msg1] ]}
    (Server.set_channels {[ "CH-1" := Channel.Build "1" "CH-1" {[ 0 := true; 1 := true ]} ]}
       (Server.NewServer (Some (Build_Options ∅ 3000 None false)))).

(** A running server configured with one extra response header. *)
Definition with_cors : Server.t :=
  Server.NewServer (Some (Build_Options {[ "Access-Control-Allow-Origin" := "*" ]} 0 None false)).

(** [demo] with the removal of connection 2 queued for the control loop. *)
Definition demo_leaving : Server.t :=
  Server.set_removeClient (Go.Chan [2] 256 false) demo.

(** A response writer that can stream, with nothing written yet. *)
Definition w0 : Http.ResponseWriter := Http.Build_ResponseWriter ∅ None [] true.

(** The server after one request for [/a] came and went before the
    control loop took a turn: its connection waits in both queues. *)
Definition gone_early : Server.t :=
  (Server.ServeHTTP (λ _, false) (λ k, k) false (Http.Build_Request "GET" "/a" "" true)
     (running0, w0)).2.1.

(** The server after a first request for [/a] was admitted, a second one
    came and went, and the loop took the removal of the second
    connection before its admission. *)
Definition raced : Server.t :=
  let serve r s := (Server.ServeHTTP (λ _, false) (λ k, k) false r (s, w0)).2.1 in
  let turn q s := (Server.dispatch q s).2 in
  turn Server.AddClient
    (turn Server.RemoveClient
       (serve (Http.Build_Request "GET" "/a" "" true)
          (turn Server.AddClient (serve (Http.Build_Request "GET" "/a" "" false) running0)))).

(** *** The tests of server_test.go *)

(** [SimpleMessage("hello")]: a message without identifier. *)
Definition hello : Message := Message.Build 0 "" "hello".

(** The inner loop of [TestServer]: one new client in every channel. *)
Fixpoint addToAll (names : list string) : Go.M Server.t unit :=
  match names with
  | [] => mret tt
  | name :: names =>
      c ← Server.on_mem (alloc (Client.newClient "" name)) ;
      Server.on_channel name (Channel.addClient c) ;;
      addToAll names
  end.

Fixpoint addClients (clientCount : nat) : Go.M Server.t unit :=
  match clientCount with
  | 0 => mret tt
  | S n =>
      names ← Go.gets Server.Channels ;
      addToAll names ;;
      addClients n
  end.

(** [TestServer]: two channels, five clients in each, one broadcast; the
    result is the number of clients that hold the message. *)
Definition TestServer : Go.M Server.t nat :=
  Server.addChannel "CH-1" ;;
  Server.addChannel "CH-2" ;;
  addClients 5 ;;
  Server.SendMessage never "" hello ;;
  h ← Go.gets Server.mem ;
  mret (length (filter (λ e, Message.data <$> Go.buf (Client.send e.2) = ["hello"])
                       (map_to_list h))).

(** *** Repeated calls, and further states and vocabulary *)

(** Publishing the messages [ms] one after the other. *)
Fixpoint publishAll (env : loc → option Z) (ms : list Message) : Go.M (heap * Channel.t) Z :=
  match ms with
  | [] => mret 0%Z
  | m :: ms =>
      d ← Channel.SendMessage env m ;
      ds ← publishAll env ms ;
      mret (d + ds)%Z
  end.

(** Calling [Client.SendMessage] for each of [ms] in turn. *)
Fixpoint sendAll (rcv : bool) (ms : list Message) : Go.M Client.t unit :=
  match ms with
  | [] => mret tt
  | m :: ms => Client.SendMessage rcv m ;; sendAll rcv ms
  end.

(** No channel of the registry is without members. *)
Definition no_empty_channel (s : Server.t) : Prop :=
  ∀ name ch, Server.channels s !! name = Some ch → Channel.clients ch ≠ ∅.

Definition no_empty_channelb (s : Server.t) : bool :=
  bool_decide (map_Forall (λ _ ch, Channel.clients ch ≠ ∅) (Server.channels s)).

(** [demo] with a new connection of [topic] whose request has already
    gone: it waits in both queues of the control loop. *)
Definition demo_racing (topic : string) : Server.t :=
  Server.set_removeClient (Go.Chan [7] 256 false)
    (Server.set_addClient (Go.Chan [7] 256 false)
       (Server.set_mem (<[7 := Client.newClient "" topic]> (Server.mem demo)) demo)).

(** ** Proofs *)

Ltac go_unfold :=
  unfold mbind, mret, go_bind, go_ret, Go.bind, Go.ret, Go.gets, Go.modify, Go.block,
    Go.panic, Go.zoom in *.

(** *** Loops over a map *)

Section RangeMap.
Context {S K V : Type} `{Countable K}.
Variable cur : S → gmap K V.
Variable body : K → V → Go.M S unit.

Lemma rangeMap_cons k ks s :
  rangeMap cur (k :: ks) body s =
  match cur s !! k with
  | Some v =>
      match body k v s with
      | (Go.Ok _, s') => rangeMap cur ks body s'
      | (Go.Panic msg, s') => (Go.Panic msg, s')
      | (Go.Block, s') => (Go.Block, s')
      end
  | None => rangeMap cur ks body s
  end.
Proof.
  simpl. go_unfold. destruct (cur s !! k) as [v|]; [|done].
  by destruct (body k v s) as [[]?].
Qed.

(** A loop whose body keeps [f] of the state keeps it. *)
Lemma rangeMap_frame {B} (f : S → B) ks s :
  (∀ k v s, f (body k v s).2 = f s) → f (rangeMap cur ks body s).2 = f s.
Proof.
  intros Hb. revert s. induction ks as [|k ks IH]; intros s; [done|].
  rewrite rangeMap_cons. destruct (cur s !! k) as [v|]; [|apply IH].
  specialize (Hb k v s). destruct (body k v s) as [[]s']; simpl in *; [|done..].
  by rewrite IH.
Qed.

(** Hoare rule: [P ks] holds of the state when the keys [ks] remain. *)
Lemma rangeMap_ok (P : list K → S → Prop) ks s :
  (∀ k ks s, P (k :: ks) s →
     match cur s !! k with
     | Some v => ∃ s', body k v s = (Go.Ok tt, s') ∧ P ks s'
     | None => P ks s
     end) →
  P ks s → ∃ s', rangeMap cur ks body s = (Go.Ok tt, s') ∧ P [] s'.
Proof.
  intros Hb. revert s. induction ks as [|k ks IH]; intros s HP; [by exists s|].
  rewrite rangeMap_cons. specialize (Hb k ks s HP).
  destruct (cur s !! k) as [v|]; [|by apply IH].
  destruct Hb as (s' & -> & HP'). by apply IH.
Qed.
End RangeMap.

Lemma elem_of_map_keys `{Countable K} {V} (m : gmap K V) (k : K) :
  k ∈ (map_to_list m).*1 ↔ is_Some (m !! k).
Proof.
  rewrite list_elem_of_fmap. split.
  - intros ([k' v] & -> & Hv). apply elem_of_map_to_list in Hv. by exists v.
  - intros [v Hv]. exists (k, v). split; [done|]. by apply elem_of_map_to_list.
Qed.

(** *** Closing a channel *)

Lemma removeClient_live h ch c cl :
  h !! c = Some cl → Go.closed (Client.send cl) = false →
  Channel.removeClient c (h, ch) =
  (Go.Ok tt, (<[c := closed_outbox cl]> h,
              Channel.set_clients (delete c (Channel.clients ch)) ch)).
Proof.
  intros Hc Hopen. unfold Channel.removeClient, Channel.on_self, Channel.on_heap, deref.
  go_unfold. simpl. rewrite Hc. unfold Go.close. rewrite Hopen. simpl.
  unfold Channel.set_clients. simpl. by rewrite delete_insert_eq.
Qed.

Lemma Close_ok h ch :
  members_ok h ch →
  ∃ h', Channel.Close (h, ch) = (Go.Ok tt, (h', Channel.set_clients ∅ ch)) ∧
        (∀ c, is_Some (Channel.clients ch !! c) → h' !! c = closed_outbox <$> h !! c) ∧
        (∀ c, Channel.clients ch !! c = None → h' !! c = h !! c).
Proof.
  intros Hm. unfold Channel.Close. go_unfold. simpl.
  set (P := λ (ks : list loc) (st : heap * Channel.t),
    NoDup ks ∧ (∀ c, c ∈ ks → is_Some (Channel.clients ch !! c)) ∧
    Channel.lastEventID st.2 = Channel.lastEventID ch ∧ Channel.name st.2 = Channel.name ch ∧
    (∀ c, c ∈ ks → Channel.clients st.2 !! c = Channel.clients ch !! c) ∧
    (∀ c, c ∉ ks → Channel.clients st.2 !! c = None) ∧
    (∀ c, is_Some (Channel.clients ch !! c) → c ∉ ks → st.1 !! c = closed_outbox <$> h !! c) ∧
    (∀ c, (Channel.clients ch !! c = None ∨ c ∈ ks) → st.1 !! c = h !! c)).
  destruct (rangeMap_ok (λ s : heap * Channel.t, Channel.clients s.2)
              (λ client (_ : bool), Channel.removeClient client) P
              (map_to_list (Channel.clients ch)).*1 (h, ch)) as (st & Hrun & HP).
  - intros k ks [h' ch'] (Hnd & Hks & Hl & Hn & Hin & Hout & Hcl & Hsame). simpl in *.
    apply NoDup_cons in Hnd as [Hk Hnd].
    rewrite Hin by left. destruct (Hks k) as [b Hb]; [left|]. rewrite Hb.
    destruct (Hm k b Hb) as (_ & cl & Hcl' & Hopen).
    exists (<[k := closed_outbox cl]> h',
            Channel.set_clients (delete k (Channel.clients ch')) ch').
    split.
    { apply removeClient_live; [|done]. rewrite Hsame; [done|]. right; left. }
    repeat split; simpl; try done.
    + intros c Hc. apply Hks. by right.
    + intros c Hc. rewrite lookup_delete_ne by (intros ->; done). apply Hin. by right.
    + intros c Hc. destruct (decide (c = k)) as [->|Hne]; [apply lookup_delete_eq|].
      rewrite lookup_delete_ne by done. apply Hout. by intros [->|?]%elem_of_cons.
    + intros c Hs Hc. destruct (decide (c = k)) as [->|Hne].
      * by rewrite lookup_insert_eq, Hcl'.
      * rewrite lookup_insert_ne by done. apply Hcl; [done|]. by intros [->|?]%elem_of_cons.
    + intros c Hc. rewrite lookup_insert_ne.
      * apply Hsame. destruct Hc; [by left|by right; right].
      * intros <-. destruct Hc as [Hc|Hc]; [|done]. rewrite Hb in Hc. done.
  - repeat split; simpl; try done.
    + apply NoDup_fst_map_to_list.
    + intros c Hc. by apply elem_of_map_keys.
    + intros c Hc. rewrite elem_of_map_keys in Hc. by apply eq_None_not_Some.
    + intros c Hs Hc. by rewrite elem_of_map_keys in Hc.
  - destruct st as [h' ch']. destruct HP as (_ & _ & Hl & Hn & _ & Hout & Hcl & Hsame).
    simpl in *. exists h'. split; [|split].
    + rewrite Hrun. do 2 f_equal. destruct ch' as [l n cs]. simpl in *. subst.
      unfold Channel.set_clients. simpl. f_equal. apply map_eq. intros c.
      rewrite lookup_empty. apply Hout. apply not_elem_of_nil.
    + intros c Hc. apply Hcl; [done|apply not_elem_of_nil].
    + intros c Hc. apply Hsame. by left.
Qed.

Lemma removeChannel_ok s ch :
  members_ok (Server.mem s) ch →
  ∃ h', Server.removeChannel ch s =
          (Go.Ok tt, Server.set_mem h'
                       (Server.set_channels (delete (Channel.name ch) (Server.channels s)) s)) ∧
        (∀ c, is_Some (Channel.clients ch !! c) → h' !! c = closed_outbox <$> Server.mem s !! c) ∧
        (∀ c, Channel.clients ch !! c = None → h' !! c = Server.mem s !! c).
Proof.
  intros Hm. destruct (Close_ok _ _ Hm) as (h' & Hrun & Hcl & Hsame).
  exists h'. split; [|done].
  unfold Server.removeChannel, Server.on_detached. go_unfold. simpl. by rewrite Hrun.
Qed.

Lemma registry_ok_unique s c n1 ch1 n2 ch2 :
  registry_ok s →
  Server.channels s !! n1 = Some ch1 → is_Some (Channel.clients ch1 !! c) →
  Server.channels s !! n2 = Some ch2 → is_Some (Channel.clients ch2 !! c) →
  n1 = n2.
Proof.
  intros Hok H1 [b1 Hb1] H2 [b2 Hb2].
  destruct (Hok _ _ H1) as [_ Hm1]. destruct (Hok _ _ H2) as [_ Hm2].
  destruct (Hm1 _ _ Hb1) as (_ & cl1 & Hc1 & _ & <-).
  destruct (Hm2 _ _ Hb2) as (_ & cl2 & Hc2 & _ & <-). congruence.
Qed.

Lemma registry_ok_members s name ch :
  registry_ok s → Server.channels s !! name = Some ch → members_ok (Server.mem s) ch.
Proof.
  intros Hok Hch c b Hb. destruct (Hok _ _ Hch) as [_ Hm].
  destruct (Hm _ _ Hb) as (-> & cl & Hc & Hopen & _). split; [done|]. by exists cl.
Qed.

Lemma close_ok s :
  registry_ok s →
  ∃ s', Server.close s = (Go.Ok tt, s') ∧ ctl s' = ctl s ∧ Server.channels s' = ∅ ∧
        (∀ c, member s c → Server.mem s' !! c = closed_outbox <$> Server.mem s !! c) ∧
        (∀ c, ¬ member s c → Server.mem s' !! c = Server.mem s !! c).
Proof.
  intros Hok. unfold Server.close. go_unfold. simpl.
  set (P := λ (ks : list string) (s' : Server.t),
    NoDup ks ∧ (∀ n, n ∈ ks → is_Some (Server.channels s !! n)) ∧ ctl s' = ctl s ∧
    (∀ n, n ∈ ks → Server.channels s' !! n = Server.channels s !! n) ∧
    (∀ n, n ∉ ks → Server.channels s' !! n = None) ∧
    (∀ c n ch, Server.channels s !! n = Some ch → is_Some (Channel.clients ch !! c) → n ∉ ks →
               Server.mem s' !! c = closed_outbox <$> Server.mem s !! c) ∧
    (∀ c, (∀ n ch, Server.channels s !! n = Some ch → is_Some (Channel.clients ch !! c) → n ∈ ks) →
          Server.mem s' !! c = Server.mem s !! c)).
  destruct (rangeMap_ok Server.channels (λ (_ : string) ch, Server.removeChannel ch) P
              (map_to_list (Server.channels s)).*1 s) as (s' & Hrun & HP).
  - intros k ks s1 (Hnd & Hks & Hctl & Hin & Hout & Hcl & Hsame).
    apply NoDup_cons in Hnd as [Hk Hnd].
    rewrite Hin by left. destruct (Hks k) as [ch Hch]; [left|]. rewrite Hch.
    destruct (Hok _ _ Hch) as [Hname _].
    assert (Hmem : ∀ c, is_Some (Channel.clients ch !! c) →
                        Server.mem s1 !! c = Server.mem s !! c).
    { intros c Hc. apply Hsame. intros n ch' Hch' Hc'.
      rewrite (registry_ok_unique s c n ch' k ch) by done. left. }
    destruct (removeChannel_ok s1 ch) as (h' & Hrm & Hcl' & Hsame').
    { intros c b Hb. destruct (registry_ok_members _ _ _ Hok Hch c b Hb) as [-> Hlive].
      split; [done|]. unfold live. rewrite Hmem by (by eexists). done. }
    eexists. split; [exact Hrm|]. rewrite Hname.
    repeat split; simpl; try done.
    + intros n Hn. apply Hks. by right.
    + intros n Hn. rewrite lookup_delete_ne by (intros ->; done). apply Hin. by right.
    + intros n Hn. destruct (decide (n = k)) as [->|Hne]; [apply lookup_delete_eq|].
      rewrite lookup_delete_ne by done. apply Hout. by intros [->|?]%elem_of_cons.
    + intros c n ch' Hch' Hc' Hn. destruct (decide (n = k)) as [->|Hne].
      * assert (ch' = ch) as -> by congruence. rewrite Hcl' by done. by rewrite Hmem.
      * rewrite Hsame'.
        -- eapply Hcl; [done..|]. by intros [->|?]%elem_of_cons.
        -- apply eq_None_not_Some. intros Hc. apply Hne.
           by apply (registry_ok_unique s c n ch' k ch).
    + intros c Hc. rewrite Hsame'.
      * apply Hsame. intros n ch' Hch' Hc'. right. by eapply Hc.
      * apply eq_None_not_Some. intros Hc'. by apply Hk, (Hc k ch).
  - repeat split; simpl; try done.
    + apply NoDup_fst_map_to_list.
    + intros n Hn. by apply elem_of_map_keys.
    + intros n Hn. rewrite elem_of_map_keys in Hn. by apply eq_None_not_Some.
    + intros c n ch Hch Hc Hn. rewrite elem_of_map_keys in Hn. destruct Hn. by eexists.
  - destruct HP as (_ & _ & Hctl & _ & Hout & Hcl & Hsame).
    exists s'. repeat split; try done.
    + apply map_eq. intros n. rewrite lookup_empty. apply Hout, not_elem_of_nil.
    + intros c (n & ch & Hch & Hc). eapply Hcl; [done..|apply not_elem_of_nil].
    + intros c Hc. apply Hsame. intros n ch Hch Hc'. destruct Hc. by exists n, ch.
Qed.

(** *** The life cycle *)

Lemma removeChannel_ctl ch s : ctl (Server.removeChannel ch s).2 = ctl s.
Proof.
  unfold Server.removeChannel, Server.on_detached. go_unfold. simpl.
  by destruct (Channel.Close _) as [[]?].
Qed.

Lemma close_ctl s : ctl (Server.close s).2 = ctl s.
Proof.
  unfold Server.close. go_unfold. simpl.
  apply (rangeMap_frame _ _ ctl). intros _ ch s'. apply removeChannel_ctl.
Qed.

Lemma NewServer_unstarted o :
  DontStartServer o = true → unstarted (Server.NewServer (Some o)).
Proof. intros Ho. unfold Server.NewServer. simpl. rewrite Ho. by repeat split. Qed.

Lemma NewServer_running o :
  DontStartServer o = false → running (Server.NewServer (Some o)).
Proof. intros Ho. unfold Server.NewServer. simpl. rewrite Ho. by repeat split. Qed.

Lemma Start_unstarted s :
  unstarted s → ∃ s', Server.Start s = (Go.Ok None, s') ∧ running s' ∧
                      Server.channels s' = Server.channels s.
Proof.
  intros (Hs & Hd & ? & ? & ? & ?). unfold Server.Start, Server.hasStarted. go_unfold. simpl.
  rewrite Hs. eexists; split; [done|]. by repeat split.
Qed.

Lemma Start_started s :
  Server.isStarted s = true → Server.Start s = (Go.Ok (Some ErrServerStarted), s).
Proof. intros Hs. unfold Server.Start, Server.hasStarted. go_unfold. simpl. by rewrite Hs. Qed.

Lemma SendMessage_not_started env name message s :
  Server.isStarted s = false →
  Server.SendMessage env name message s = (Go.Ok (Some ErrServerNotStarted), s).
Proof.
  intros Hs. unfold Server.SendMessage, Server.hasStarted. go_unfold. simpl. by rewrite Hs.
Qed.

(** The shutdown case of the loop. *)
Lemma dispatch_shutdown_eq s :
  ctl_open s →
  Server.dispatch_shutdown s =
  match Server.close s with
  | (Go.Ok _, s1) => (Go.Ok tt, shut_down s1)
  | (Go.Panic msg, s1) => (Go.Panic msg, s1)
  | (Go.Block, s1) => (Go.Block, s1)
  end.
Proof.
  intros (Ha & Hr & Hsd & Hcc).
  pose proof (close_ctl s) as Hctl.
  unfold Server.dispatch_shutdown. go_unfold.
  destruct (Server.close s) as [[] s1]; [|done..]. simpl in *.
  unfold ctl in Hctl. injection Hctl as Eo Ea Er Es Ec Ei Ed.
  unfold Go.close. simpl.
  rewrite Ea, Ha. simpl. rewrite Er, Hr. simpl.
  rewrite Ec, Hcc. simpl. rewrite Es, Hsd. simpl.
  unfold shut_down. by rewrite Ea, Er, Ec, Es, Hcc, Hsd.
Qed.

Lemma set_shutdown_id s : Server.set_shutdown (Server.shutdown s) s = s.
Proof. by destruct s. Qed.

Lemma set_closeChannel_id s : Server.set_closeChannel (Server.closeChannel s) s = s.
Proof. by destruct s. Qed.

(** [Shutdown] on a running server hands the signal to the loop. *)
Lemma Shutdown_running s :
  running s →
  Server.Shutdown s =
  match Server.close s with
  | (Go.Ok _, s1) => (Go.Ok None, shut_down s1)
  | (Go.Panic msg, s1) => (Go.Panic msg, s1)
  | (Go.Block, s1) => (Go.Block, s1)
  end.
Proof.
  intros (Hs & Hd & Hc). pose proof Hc as (Ha & Hr & Hsd & Hcc).
  unfold Server.Shutdown, Server.hasStarted. go_unfold. simpl.
  rewrite Hs. simpl. rewrite Hd, Hsd. simpl. rewrite <- Hsd, set_shutdown_id.
  rewrite dispatch_shutdown_eq by done.
  by destruct (Server.close s) as [[] s1].
Qed.

Lemma shut_down_stopped s :
  Server.isStarted s = true → stopped (shut_down s).
Proof. intros Hs. by repeat split. Qed.

Lemma Shutdown_stopped s :
  stopped s → Server.Shutdown s = (Go.Panic "send on closed channel", s).
Proof.
  intros (Hs & Hd & Ha & Hr & Hsd & Hcc).
  unfold Server.Shutdown, Server.hasStarted. go_unfold. simpl. rewrite Hs. simpl.
  unfold Go.send. rewrite Hsd. by rewrite set_shutdown_id.
Qed.

Lemma CloseChannel_stopped name s :
  stopped s → Server.CloseChannel name s = (Go.Panic "send on closed channel", s).
Proof.
  intros (Hs & Hd & Ha & Hr & Hsd & Hcc).
  unfold Server.CloseChannel. go_unfold. simpl.
  unfold Go.send. rewrite Hcc. by rewrite set_closeChannel_id.
Qed.

Lemma CloseChannel_unstarted name s :
  unstarted s → Server.CloseChannel name s = (Go.Block, s).
Proof.
  intros (Hs & Hd & Ha & Hr & Hsd & Hcc).
  unfold Server.CloseChannel. go_unfold. simpl.
  rewrite Hd, Hcc. simpl. by rewrite <- Hcc, set_closeChannel_id.
Qed.

(** With the flag set, [SendMessage] never answers [ErrServerNotStarted]. *)
Lemma SendMessage_started env name message s :
  Server.isStarted s = true →
  (Server.SendMessage env name message s).1 ≠ Go.Ok (Some ErrServerNotStarted).
Proof.
  intros Hs. unfold Server.SendMessage, Server.hasStarted. go_unfold. simpl. rewrite Hs. simpl.
  case_bool_decide.
  - by destruct (rangeMap _ _ _ s) as [[]?].
  - destruct (Server.channels s !! name); [|done].
    by destruct (Server.on_channel _ _ s) as [[]?].
Qed.

Lemma Restart_started s :
  Server.isStarted s = true →
  Server.Restart s =
  match Server.close s with
  | (Go.Ok _, s1) => (Go.Ok None, s1)
  | (Go.Panic msg, s1) => (Go.Panic msg, s1)
  | (Go.Block, s1) => (Go.Block, s1)
  end.
Proof.
  intros Hs. unfold Server.Restart, Server.hasStarted. go_unfold. simpl. rewrite Hs. simpl.
  by destruct (Server.close s) as [[] s1].
Qed.

Lemma Restart_not_started s :
  Server.isStarted s = false → Server.Restart s = (Go.Ok (Some ErrServerNotStarted), s).
Proof. intros Hs. unfold Server.Restart, Server.hasStarted. go_unfold. simpl. by rewrite Hs. Qed.

Lemma server_eq s s' :
  ctl s = ctl s' → Server.channels s = Server.channels s' → Server.mem s = Server.mem s' →
  Server.retries s = Server.retries s' →
  s = s'.
Proof. destruct s, s'. unfold ctl. simpl. intros [= -> -> -> -> -> -> ->] -> -> ->. done. Qed.

Lemma set_send_id cl : Client.set_send (Client.send cl) cl = cl.
Proof. by destruct cl. Qed.

(** *** Draining an outbox *)

Lemma streamLoop_drains n c s w cl :
  Server.mem s !! c = Some cl → length (Go.buf (Client.send cl)) < n →
  ∃ st, Server.streamLoop n false c (s, w) =
          (if Go.closed (Client.send cl) then Go.Ok tt else Go.Block, st) ∧
        Http.body st.2 =
          Http.body w ++ ((λ m, Http.Event m (RetryInterval (Server.options s)))
                            <$> Go.buf (Client.send cl)).
Proof.
  revert s w cl. induction n as [|n IH]; intros s w cl Hc Hlen; [lia|].
  simpl. unfold Server.on_srv, Server.on_mem, Server.on_w, deref. go_unfold. simpl.
  rewrite Hc. unfold Go.recv. destruct cl as [l t [q k cls]]. simpl in *.
  destruct q as [|x q]; simpl.
  - destruct cls; eexists; (split; [done|]); simpl; by rewrite app_nil_r.
  - rewrite lookup_insert_eq. simpl.
    edestruct (IH (Server.set_retries
                     (<[Message.addr x := RetryInterval (Server.options s)]> (Server.retries s))
                     (Server.set_mem
                        (<[c := Client.set_send (Go.Chan q k cls)
                                  (Client.Build l t (Go.Chan (x :: q) k cls))]>
                           (Server.mem s)) s))) as (st & Hrun & Hbody);
      [apply lookup_insert_eq | simpl in *; lia |].
    simpl in Hrun. unfold Http.Flush, Http.Write, Http.WriteHeader. go_unfold. simpl.
    exists st. split; [exact Hrun|]. rewrite Hbody. simpl. by rewrite <- app_assoc.
Qed.

(** *** The cases of the control loop *)

Lemma dispatch_addClient_ok s c cl :
  Server.mem s !! c = Some cl →
  let topic := Client.channel cl in
  let ch := default (Channel.newChannel topic) (Server.channels s !! topic) in
  ∃ s', Server.dispatch_addClient c s = (Go.Ok tt, s') ∧ ctl s' = ctl s ∧
        Server.mem s' = Server.mem s ∧
        Server.channels s' =
          <[topic := Channel.set_clients (<[c := true]> (Channel.clients ch)) ch]>
            (Server.channels s).
Proof.
  intros Hc topic ch. unfold Server.dispatch_addClient, Server.on_mem, deref, Server.getChannel.
  go_unfold. simpl. rewrite Hc. simpl. rewrite insert_id by done.
  subst ch. fold topic. destruct (Server.channels s !! topic) as [ch|] eqn:Hch; simpl.
  - unfold Server.on_channel. simpl. rewrite Hch. simpl.
    eexists. split; [done|]. simpl. by repeat split.
  - unfold Server.addChannel, Server.on_channel. go_unfold. simpl.
    rewrite lookup_insert_eq. simpl.
    eexists. split; [done|]. simpl. repeat split. by rewrite insert_insert_eq.
Qed.

Lemma dispatch_removeClient_absent s c cl :
  Server.mem s !! c = Some cl → Server.channels s !! Client.channel cl = None →
  Server.dispatch_removeClient c s = (Go.Ok tt, s).
Proof.
  intros Hc Hch. unfold Server.dispatch_removeClient, Server.on_mem, deref, Server.getChannel.
  go_unfold. simpl. rewrite Hc. simpl. rewrite insert_id by done. rewrite Hch.
  f_equal. by apply server_eq.
Qed.

Lemma dispatch_removeClient_ok s c cl ch :
  registry_ok s →
  Server.mem s !! c = Some cl → Server.channels s !! Client.channel cl = Some ch →
  is_Some (Channel.clients ch !! c) →
  let topic := Client.channel cl in
  let rest := delete c (Channel.clients ch) in
  ∃ s', Server.dispatch_removeClient c s = (Go.Ok tt, s') ∧ ctl s' = ctl s ∧
        Server.mem s' = <[c := closed_outbox cl]> (Server.mem s) ∧
        Server.channels s' =
          if decide (rest = ∅) then delete topic (Server.channels s)
          else <[topic := Channel.set_clients rest ch]> (Server.channels s).
Proof.
  intros Hok Hc Hch [b Hb] topic rest.
  destruct (Hok _ _ Hch) as [Hname Hm].
  destruct (Hm _ _ Hb) as (-> & cl' & Hc' & Hopen & _). simplify_eq.
  unfold Server.dispatch_removeClient, Server.on_mem, deref, Server.getChannel.
  go_unfold. simpl. rewrite Hc. simpl. rewrite insert_id by done. rewrite Hch.
  unfold Server.on_channel at 1. simpl. rewrite Hch.
  rewrite (removeClient_live _ _ _ _ Hc Hopen).
  unfold Server.on_channel at 1. simpl. rewrite lookup_insert_eq. simpl.
  rewrite insert_insert_eq. fold topic rest.
  unfold Channel.ClientCount. simpl. fold rest.
  case_bool_decide as Hsize.
  - apply map_size_empty_iff in Hsize. rewrite decide_True by done.
    match goal with
    | |- context [Server.removeChannel ?ch1 ?s1] =>
        destruct (removeChannel_ok s1 ch1) as (h' & Hrun & _ & Hsame)
    end.
    { intros c' b'. simpl. rewrite Hsize, lookup_empty. done. }
    rewrite Hrun. eexists. split; [done|]. simpl. repeat split.
    + apply map_eq. intros c'. apply Hsame. simpl. by rewrite Hsize, lookup_empty.
    + rewrite Hname. fold topic. by rewrite delete_insert_eq.
  - rewrite decide_False by (by rewrite <- map_size_empty_iff).
    eexists. split; [done|]. by repeat split.
Qed.

(** *** The fan-out of a publish *)

Lemma selectSend_open freed message q :
  Go.closed q = false →
  ∃ d q', Channel.selectSend freed message q = (Go.Ok d, q') ∧ Go.closed q' = false ∧
          (0 ≤ d ≤ sendMessageToClientTimeout)%Z ∧
          (Go.full q = false → d = 0%Z ∧ q' = Go.Chan (Go.buf q ++ [message]) (Go.cap q) false).
Proof.
  intros Hopen. unfold Channel.selectSend, Go.send. rewrite Hopen.
  assert (0 < sendMessageToClientTimeout)%Z by done.
  destruct (Go.full q) eqn:Hfull.
  - destruct freed as [d|]; simpl.
    + destruct (0 <=? d)%Z eqn:H0; simpl.
      * destruct (d <? sendMessageToClientTimeout)%Z eqn:H1.
        -- destruct q as [[|x b] k cls]; simpl in *; eexists _, _;
             (split; [done|]); repeat split; try done; lia.
        -- eexists _, _. split; [done|]. repeat split; try done; lia.
      * eexists _, _. split; [done|]. repeat split; try done; lia.
    + eexists _, _. split; [done|]. repeat split; try done; lia.
  - eexists _, _. split; [done|]. repeat split; try done; lia.
Qed.

Lemma selectSend_timeout freed message q :
  Go.closed q = false → Go.full q = true →
  match freed with
  | Some d => ¬ (0 ≤ d < sendMessageToClientTimeout)%Z
  | None => True
  end →
  Channel.selectSend freed message q = (Go.Ok sendMessageToClientTimeout, q).
Proof.
  intros Hopen Hfull Hfreed. unfold Channel.selectSend, Go.send. rewrite Hopen, Hfull.
  destruct freed as [d|]; [|done].
  destruct (0 <=? d)%Z eqn:H0; [|done]. simpl.
  destruct (d <? sendMessageToClientTimeout)%Z eqn:H1; [|done]. lia.
Qed.

Lemma sendTo_live env message c h cl :
  h !! c = Some cl → Go.closed (Client.send cl) = false →
  Channel.sendTo env message c true h =
    (Go.Ok (wait env message c cl), <[c := offer env message c cl]> h) ∧
  Go.closed (Client.send (offer env message c cl)) = false ∧
  (0 ≤ wait env message c cl ≤ sendMessageToClientTimeout)%Z ∧
  (Go.full (Client.send cl) = false → wait env message c cl = 0%Z).
Proof.
  intros Hc Hopen. unfold Channel.sendTo, deref, wait, offer. go_unfold. rewrite Hc.
  destruct (selectSend_open (env c) message _ Hopen) as (d & q' & -> & Hq' & Hd & Hroom).
  simpl. repeat split; try done; try lia. intros Hf. by destruct (Hroom Hf).
Qed.

Lemma saturated_cons h c b l :
  saturated h ((c, b) :: l) = (if is_full h c then 1 else 0) + saturated h l.
Proof.
  unfold saturated. rewrite filter_cons. simpl. by destruct (is_full h c).
Qed.

Lemma saturated_insert h c cl l :
  c ∉ l.*1 → saturated (<[c := cl]> h) l = saturated h l.
Proof.
  induction l as [|[c' b] l IH]; [done|]. intros Hc. rewrite !saturated_cons.
  rewrite fmap_cons, not_elem_of_cons in Hc. destruct Hc as [Hne Hc]. simpl in Hne.
  rewrite IH by done. unfold is_full. by rewrite lookup_insert_ne.
Qed.

Lemma fanOut_ok env message l h :
  NoDup l.*1 → (∀ c b, (c, b) ∈ l → b = true ∧ live h c) →
  ∃ d h', Channel.fanOut env message l h = (Go.Ok d, h') ∧
          (∀ c, c ∈ l.*1 → h' !! c = offer env message c <$> h !! c) ∧
          (∀ c, c ∉ l.*1 → h' !! c = h !! c) ∧
          (0 ≤ d ≤ sendMessageToClientTimeout * Z.of_nat (saturated h l))%Z.
Proof.
  revert h. induction l as [|[c b] l IH]; intros h Hnd Hl.
  - exists 0%Z, h. repeat split; try done. intros c Hc. by apply not_elem_of_nil in Hc.
  - rewrite fmap_cons in Hnd. apply NoDup_cons in Hnd as [Hc Hnd]. simpl in Hc.
    destruct (Hl c b) as (-> & cl & Hcl & Hopen); [left|].
    destruct (sendTo_live env message c h cl Hcl Hopen) as (Hrun & Hopen' & Hw & Hroom).
    destruct (IH (<[c := offer env message c cl]> h) Hnd) as (ds & h' & Hrest & Hin & Hout & Hd).
    { intros c' b' Hc'. destruct (Hl c' b') as (-> & cl' & Hcl' & Hopen''); [by right|].
      split; [done|]. exists cl'. split; [|done]. rewrite lookup_insert_ne; [done|].
      intros ->. apply Hc. apply list_elem_of_fmap. by exists (c', true). }
    cbn [Channel.fanOut]. go_unfold. rewrite Hrun, Hrest. eexists _, h'. split; [done|].
    rewrite saturated_insert in Hd by done. rewrite saturated_cons.
    rewrite fmap_cons. cbn [fst].
    repeat split.
    + intros c' [->|Hc']%elem_of_cons.
      * rewrite Hout by done. by rewrite lookup_insert_eq, Hcl.
      * rewrite Hin by done. rewrite lookup_insert_ne; [done|]. by intros ->.
    + intros c' [Hne Hc']%not_elem_of_cons. rewrite Hout by done.
      by rewrite lookup_insert_ne.
    + lia.
    + unfold is_full. rewrite Hcl. assert (0 < sendMessageToClientTimeout)%Z by done.
      destruct (Go.full (Client.send cl)); [lia|]. rewrite Hroom by done. lia.
Qed.

Lemma SendMessage_ok env message h ch :
  members_ok h ch →
  ∃ d h', Channel.SendMessage env message (h, ch) =
            (Go.Ok d, (h', Channel.set_lastEventID (Message.id message) ch)) ∧
          (∀ c, is_Some (Channel.clients ch !! c) → h' !! c = offer env message c <$> h !! c) ∧
          (∀ c, Channel.clients ch !! c = None → h' !! c = h !! c) ∧
          (0 ≤ d ≤ sendMessageToClientTimeout *
                   Z.of_nat (saturated h (map_to_list (Channel.clients ch))))%Z.
Proof.
  intros Hm.
  destruct (fanOut_ok env message (map_to_list (Channel.clients ch)) h)
    as (d & h' & Hrun & Hin & Hout & Hd).
  { apply NoDup_fst_map_to_list. }
  { intros c b Hc%elem_of_map_to_list. by apply Hm. }
  exists d, h'. unfold Channel.SendMessage, Channel.on_self, Channel.on_heap. go_unfold.
  simpl. rewrite Hrun. split; [done|]. repeat split; try lia.
  - intros c Hc. apply Hin. by apply elem_of_map_keys.
  - intros c Hc. apply Hout. rewrite elem_of_map_keys, Hc. by intros [].
Qed.

(** Whatever happens, the fan-out writes no connection's [lastEventID]. *)
Lemma sendTo_lastEventID env message c open h c' :
  Client.lastEventID <$> (Channel.sendTo env message c open h).2 !! c' =
  Client.lastEventID <$> h !! c'.
Proof.
  unfold Channel.sendTo, deref. go_unfold. destruct open; [|done].
  destruct (h !! c) as [cl|] eqn:Hc; [|done].
  destruct (Channel.selectSend _ _ _) as [r q]. simpl.
  destruct (decide (c = c')) as [->|Hne].
  - by rewrite lookup_insert_eq, Hc.
  - by rewrite lookup_insert_ne.
Qed.

Lemma fanOut_lastEventID env message l h c :
  Client.lastEventID <$> (Channel.fanOut env message l h).2 !! c =
  Client.lastEventID <$> h !! c.
Proof.
  revert h. induction l as [|[c' b] l IH]; intros h; [done|]. cbn [Channel.fanOut]. go_unfold.
  pose proof (sendTo_lastEventID env message c' b h c) as H1.
  destruct (Channel.sendTo env message c' b h) as [[] h1]; simpl in *; [|done..].
  specialize (IH h1). destruct (Channel.fanOut env message l h1) as [[] h2]; simpl in *;
    congruence.
Qed.

(** *** The steps of a publish *)

Lemma trace_head {S A} (steps : list (Go.M S A)) (s : S) :
  ∃ rest, trace steps s = s :: rest.
Proof. destruct steps; by eexists. Qed.

(** The run of the loop ends in the last state of the trace of its steps. *)
Lemma fanOut_trace env message l st :
  last (trace (map (λ e, Channel.on_heap (Channel.sendTo env message e.1 e.2)) l) st) =
  Some (Channel.on_heap (Channel.fanOut env message l) st).2.
Proof.
  revert st. induction l as [|[c b] l IH]; intros [h ch]; [done|].
  cbn [map trace fst snd Channel.fanOut]. unfold Channel.on_heap in *. go_unfold. simpl.
  destruct (Channel.sendTo env message c b h) as [[d| |] h1]; simpl; [|done..].
  specialize (IH (h1, ch)). simpl in IH.
  destruct (trace_head (map (λ e, Channel.on_heap (Channel.sendTo env message e.1 e.2)) l) (h1, ch))
    as [rest Hrest].
  unfold Channel.on_heap in *. go_unfold. rewrite Hrest in *. rewrite last_cons_cons, IH.
  by destruct (Channel.fanOut env message l h1) as [[] ?].
Qed.

Lemma SendMessage_trace env message h ch :
  last (trace (SendMessage_steps env message (map_to_list (Channel.clients ch))) (h, ch)) =
  Some (Channel.SendMessage env message (h, ch)).2.
Proof.
  unfold SendMessage_steps, Channel.SendMessage. cbn [trace].
  unfold Channel.on_self. go_unfold. simpl.
  pose proof (fanOut_trace env message (map_to_list (Channel.clients ch))
                (h, Channel.set_lastEventID (Message.id message) ch)) as Hl.
  destruct (trace_head
    (map (λ e, Channel.on_heap (Channel.sendTo env message e.1 e.2))
       (map_to_list (Channel.clients ch)))
    (h, Channel.set_lastEventID (Message.id message) ch)) as [rest Hrest].
  rewrite Hrest in *. rewrite last_cons_cons, Hl. done.
Qed.

(** Once the identifier is written, no step of the loop changes it. *)
Lemma fanOut_trace_lastEventID env message l st :
  Forall (λ st', Channel.lastEventID st'.2 = Channel.lastEventID st.2)
         (trace (map (λ e, Channel.on_heap (Channel.sendTo env message e.1 e.2)) l) st).
Proof.
  revert st. induction l as [|[c b] l IH]; intros [h ch].
  - by repeat constructor.
  - cbn [map trace fst snd]. constructor; [done|].
    unfold Channel.on_heap at 1. go_unfold. simpl.
    destruct (Channel.sendTo env message c b h) as [[d| |] h1]; simpl.
    + apply (IH (h1, ch)).
    + by repeat constructor.
    + by repeat constructor.
Qed.

(** *** Broadcast *)

Lemma on_channel_SendMessage env message s name ch :
  Server.channels s !! name = Some ch → members_ok (Server.mem s) ch →
  ∃ d h', Server.on_channel name (Channel.SendMessage env message) s =
            (Go.Ok d, Server.set_mem h'
                        (Server.set_channels
                           (<[name := Channel.set_lastEventID (Message.id message) ch]>
                              (Server.channels s)) s)) ∧
          (∀ c, is_Some (Channel.clients ch !! c) →
                h' !! c = offer env message c <$> Server.mem s !! c) ∧
          (∀ c, Channel.clients ch !! c = None → h' !! c = Server.mem s !! c).
Proof.
  intros Hch Hm. destruct (SendMessage_ok env message _ _ Hm) as (d & h' & Hrun & Hin & Hout & _).
  exists d, h'. unfold Server.on_channel. by rewrite Hch, Hrun.
Qed.

Lemma offer_open env message c cl :
  Go.closed (Client.send cl) = false →
  Go.closed (Client.send (offer env message c cl)) = false ∧
  Client.channel (offer env message c cl) = Client.channel cl.
Proof.
  intros Hopen. unfold offer.
  by destruct (selectSend_open (env c) message _ Hopen) as (d & q' & -> & Hq' & _).
Qed.

Lemma SendMessage_all_ok env message s :
  registry_ok s →
  ∃ s', rangeMap Server.channels (map_to_list (Server.channels s)).*1
          (λ name (_ : Channel.t),
             Server.on_channel name (Channel.SendMessage env message) ;; mret tt) s
        = (Go.Ok tt, s') ∧ ctl s' = ctl s ∧
        Server.channels s' = Channel.set_lastEventID (Message.id message) <$> Server.channels s ∧
        (∀ c, member s c → Server.mem s' !! c = offer env message c <$> Server.mem s !! c) ∧
        (∀ c, ¬ member s c → Server.mem s' !! c = Server.mem s !! c).
Proof.
  intros Hok.
  set (P := λ (ks : list string) (s' : Server.t),
    NoDup ks ∧ (∀ n, n ∈ ks → is_Some (Server.channels s !! n)) ∧ ctl s' = ctl s ∧
    (∀ n, n ∈ ks → Server.channels s' !! n = Server.channels s !! n) ∧
    (∀ n, n ∉ ks → Server.channels s' !! n =
                   Channel.set_lastEventID (Message.id message) <$> Server.channels s !! n) ∧
    (∀ c n ch, Server.channels s !! n = Some ch → is_Some (Channel.clients ch !! c) → n ∉ ks →
               Server.mem s' !! c = offer env message c <$> Server.mem s !! c) ∧
    (∀ c, (∀ n ch, Server.channels s !! n = Some ch → is_Some (Channel.clients ch !! c) → n ∈ ks) →
          Server.mem s' !! c = Server.mem s !! c)).
  destruct (rangeMap_ok Server.channels
              (λ name (_ : Channel.t),
                 Server.on_channel name (Channel.SendMessage env message) ;; mret tt) P
              (map_to_list (Server.channels s)).*1 s) as (s' & Hrun & HP).
  - intros k ks s1 (Hnd & Hks & Hctl & Hin & Hout & Hcl & Hsame).
    apply NoDup_cons in Hnd as [Hk Hnd].
    rewrite Hin by left. destruct (Hks k) as [ch Hch]; [left|]. rewrite Hch.
    assert (Hch1 : Server.channels s1 !! k = Some ch) by (rewrite Hin; [done|left]).
    assert (Hmem : ∀ c, is_Some (Channel.clients ch !! c) →
                        Server.mem s1 !! c = Server.mem s !! c).
    { intros c Hc. apply Hsame. intros n ch' Hch' Hc'.
      rewrite (registry_ok_unique s c n ch' k ch) by done. left. }
    destruct (on_channel_SendMessage env message s1 k ch Hch1) as (d & h' & Hrm & Hcl' & Hsame').
    { intros c b Hb. destruct (registry_ok_members _ _ _ Hok Hch c b Hb) as [-> Hlive].
      split; [done|]. unfold live. rewrite Hmem by (by eexists). done. }
    eexists. split; [go_unfold; by rewrite Hrm|].
    repeat split; simpl; try done.
    + intros n Hn. apply Hks. by right.
    + intros n Hn. rewrite lookup_insert_ne by (intros ->; done). apply Hin. by right.
    + intros n Hn. destruct (decide (n = k)) as [->|Hne].
      * by rewrite lookup_insert_eq, Hch.
      * rewrite lookup_insert_ne by done. apply Hout. by intros [->|?]%elem_of_cons.
    + intros c n ch' Hch' Hc' Hn. destruct (decide (n = k)) as [->|Hne].
      * assert (ch' = ch) as -> by congruence. rewrite Hcl' by done. by rewrite Hmem.
      * rewrite Hsame'.
        -- eapply Hcl; [done..|]. by intros [->|?]%elem_of_cons.
        -- apply eq_None_not_Some. intros Hc. apply Hne.
           by apply (registry_ok_unique s c n ch' k ch).
    + intros c Hc. rewrite Hsame'.
      * apply Hsame. intros n ch' Hch' Hc'. right. by eapply Hc.
      * apply eq_None_not_Some. intros Hc'. by apply Hk, (Hc k ch).
  - repeat split; simpl; try done.
    + apply NoDup_fst_map_to_list.
    + intros n Hn. by apply elem_of_map_keys.
    + intros n Hn. rewrite elem_of_map_keys in Hn.
      apply eq_None_not_Some in Hn. by rewrite Hn.
    + intros c n ch Hch Hc Hn. rewrite elem_of_map_keys in Hn. destruct Hn. by eexists.
  - destruct HP as (_ & _ & Hctl & _ & Hout & Hcl & Hsame).
    exists s'. repeat split; try done.
    + apply map_eq. intros n. rewrite lookup_fmap. apply Hout, not_elem_of_nil.
    + intros c (n & ch & Hch & Hc). eapply Hcl; [done..|apply not_elem_of_nil].
    + intros c Hc. apply Hsame. intros n ch Hch Hc'. destruct Hc. by exists n, ch.
Qed.

(** *** The HTTP handler *)

Lemma SetAll_frame canon l w :
  Http.status (Http.SetAll canon l w).2 = Http.status w ∧
  Http.body (Http.SetAll canon l w).2 = Http.body w ∧
  Http.flusher (Http.SetAll canon l w).2 = Http.flusher w ∧
  (Http.SetAll canon l w).1 = Go.Ok tt.
Proof.
  revert w. induction l as [|[k v] l IH]; intros w; [done|].
  simpl. unfold Http.Header_Set. go_unfold. simpl.
  match goal with |- context [Http.SetAll canon l ?w1] => destruct (IH w1) as (-> & -> & -> & ->) end.
  done.
Qed.

Lemma SetAll_header canon l w k v :
  Http.header (Http.SetAll canon l w).2 !! k = Some v →
  Http.header w !! k = Some v ∨ ∃ k0, (k0, v) ∈ l ∧ k = canon k0.
Proof.
  revert w. induction l as [|[k1 v1] l IH]; intros w; [by left|].
  simpl. unfold Http.Header_Set. go_unfold. simpl. intros Hk.
  apply IH in Hk as [Hk|(k0 & Hin & ->)]; simpl in *.
  - destruct (decide (canon k1 = k)) as [<-|Hne].
    + rewrite lookup_insert_eq in Hk. simplify_eq. right. exists k1. split; [left|done].
    + rewrite lookup_insert_ne in Hk by done. by left.
  - right. exists k0. split; [by right|done].
Qed.

Lemma SetAll_lookup_ne canon l w key :
  (∀ k, k ∈ l.*1 → canon k ≠ key) →
  Http.header (Http.SetAll canon l w).2 !! key = Http.header w !! key.
Proof.
  revert w. induction l as [|[k v] l IH]; intros w Hl; [done|].
  simpl. unfold Http.Header_Set. go_unfold. simpl. rewrite IH.
  - simpl. apply lookup_insert_ne. apply Hl. left.
  - intros k' Hk'. apply Hl. by right.
Qed.

Lemma SetAll_lookup canon l w k0 v :
  NoDup l.*1 → (k0, v) ∈ l → (∀ k, k ∈ l.*1 → canon k = canon k0 → k = k0) →
  Http.header (Http.SetAll canon l w).2 !! canon k0 = Some v.
Proof.
  revert w. induction l as [|[k1 v1] l IH]; intros w Hnd Hin Hinj.
  { by apply not_elem_of_nil in Hin. }
  rewrite fmap_cons in Hnd. apply NoDup_cons in Hnd as [Hk1 Hnd]. simpl in Hk1.
  simpl. unfold Http.Header_Set. go_unfold. simpl.
  apply elem_of_cons in Hin as [[= <- <-]|Hin].
  - rewrite SetAll_lookup_ne; [simpl; apply lookup_insert_eq|].
    intros k Hk Heq. apply Hk1. rewrite <- (Hinj k); [done| by right |done].
  - apply IH; [done..|]. intros k Hk. apply Hinj. by right.
Qed.

Lemma with_headers_frame hasHeaders canon s w :
  Http.status (with_headers hasHeaders canon s w) = Http.status w ∧
  Http.body (with_headers hasHeaders canon s w) = Http.body w ∧
  Http.flusher (with_headers hasHeaders canon s w) = Http.flusher w.
Proof.
  unfold with_headers. destruct (hasHeaders _); [|done].
  by destruct (SetAll_frame canon (map_to_list (Headers (Server.options s))) w) as (? & ? & ? & _).
Qed.

Lemma with_headers_header hasHeaders canon s w k v :
  Http.header (with_headers hasHeaders canon s w) !! k = Some v →
  Http.header w !! k = Some v ∨
  ∃ k0, Headers (Server.options s) !! k0 = Some v ∧ k = canon k0.
Proof.
  unfold with_headers. destruct (hasHeaders _); [|by left].
  intros [Hk|(k0 & Hin & ->)]%SetAll_header; [by left|].
  right. exists k0. split; [|done]. by apply elem_of_map_to_list.
Qed.

(** The handler up to the test of the method. *)
Lemma ServeHTTP_started hasHeaders canon pick r s w :
  Server.isStarted s = true → Http.flusher w = true →
  Server.ServeHTTP hasHeaders canon pick r (s, w) =
  let st := (s, with_headers hasHeaders canon s w) in
  if bool_decide (Http.Method r = "GET") then
    (Server.on_w (Http.Header_Set canon "Content-Type" "text/event-stream") ;;
     Server.on_w (Http.Header_Set canon "Cache-Control" "no-cache") ;;
     Server.on_w (Http.Header_Set canon "Connection" "keep-alive") ;;
     Server.on_w (Http.Header_Set canon "X-Accel-Buffering" "no") ;;
     c ← Server.on_srv (Server.on_mem
            (alloc (Client.newClient (Http.LastEventID r) (topic_of s r)))) ;
     sent ← Server.on_srv (Server.selectAdd pick (Http.cancelled r) c) ;
     if negb sent then mret tt
     else
       Go.defer (Server.on_srv (Server.deferredRemove c))
         (Server.on_w (Http.WriteHeader Http.StatusOK) ;;
          Server.on_w Http.Flush ;;
          n ← Go.gets (λ st, Server.outboxLen c st.1) ;
          Server.streamLoop (S n) (Http.cancelled r) c)) st
  else if negb (bool_decide (Http.Method r = "OPTIONS")) then
    Server.on_w (Http.WriteHeader Http.StatusMethodNotAllowed) st
  else (Go.Ok tt, st).
Proof.
  intros Hs Hf. unfold Server.ServeHTTP, with_headers, topic_of, Server.on_w.
  go_unfold. simpl. rewrite Hs. simpl. rewrite Hf. simpl.
  destruct (hasHeaders (Server.options s)); simpl.
  - destruct (SetAll_frame canon (map_to_list (Headers (Server.options s))) w) as (_ & _ & _ & Hok).
    destruct (Http.SetAll canon _ w) as [r0 w1]. simpl in *. subst r0.
    by repeat case_bool_decide.
  - by repeat case_bool_decide.
Qed.

(** A live [GET] request is admitted and its handler parks on the empty
    outbox: the stream is open. *)
Lemma ServeHTTP_GET hasHeaders canon pick r s w :
  Server.isStarted s = true → Http.flusher w = true →
  Http.Method r = "GET" → Http.cancelled r = false →
  Go.closed (Server.addClient s) = false → Go.full (Server.addClient s) = false →
  let c := fresh (dom (Server.mem s)) in
  ∃ st, Server.ServeHTTP hasHeaders canon pick r (s, w) = (Go.Block, st) ∧
        Server.mem st.1 = <[c := Client.newClient (Http.LastEventID r) (topic_of s r)]> (Server.mem s) ∧
        Go.buf (Server.addClient st.1) = Go.buf (Server.addClient s) ++ [c] ∧
        Server.channels st.1 = Server.channels s ∧
        Http.status st.2 = Some (default Http.StatusOK (Http.status w)) ∧
        Http.header st.2 =
          <[canon "X-Accel-Buffering" := "no"]>
            (<[canon "Connection" := "keep-alive"]>
               (<[canon "Cache-Control" := "no-cache"]>
                  (<[canon "Content-Type" := "text/event-stream"]>
                     (Http.header (with_headers hasHeaders canon s w))))).
Proof.
  intros Hs Hf Hm Hc Hopen Hroom c.
  rewrite ServeHTTP_started by done. rewrite Hm, Hc. simpl.
  unfold Server.on_w, Server.on_srv, Server.on_mem, alloc, Server.selectAdd, Http.Header_Set,
    Http.WriteHeader, Http.Flush, Http.WriteHeader, Go.defer, Server.outboxLen, deref, Go.send, Go.recv.
  go_unfold. simpl. rewrite Hopen, Hroom. simpl.
  rewrite lookup_insert_eq. simpl.
  eexists. split; [done|]. simpl. rewrite insert_insert_eq.
  destruct (with_headers_frame hasHeaders canon s w) as (-> & _ & _). by repeat split.
Qed.

(** Any other method leaves the server as it was and returns. *)
Lemma ServeHTTP_other hasHeaders canon pick r s w :
  Server.isStarted s = true → Http.flusher w = true → Http.Method r ≠ "GET" →
  Server.ServeHTTP hasHeaders canon pick r (s, w) =
  (Go.Ok tt,
   (s, if bool_decide (Http.Method r = "OPTIONS") then with_headers hasHeaders canon s w
       else (Http.WriteHeader Http.StatusMethodNotAllowed (with_headers hasHeaders canon s w)).2)).
Proof.
  intros Hs Hf Hm. rewrite ServeHTTP_started by done.
  rewrite bool_decide_eq_false_2 by done. simpl. by case_bool_decide.
Qed.

(** On a server stopped by [Shutdown] the handler passes the started
    test and a live [GET] request ends in the panic of a send on the
    closed admission queue: no connection can be admitted any more. *)
Lemma ServeHTTP_stopped hasHeaders canon pick r s w :
  stopped s → Http.flusher w = true →
  Http.Method r = "GET" → Http.cancelled r = false →
  (Server.ServeHTTP hasHeaders canon pick r (s, w)).1 = Go.Panic "send on closed channel".
Proof.
  intros (Hs & _ & Ha & _) Hf Hm Hc.
  rewrite ServeHTTP_started by done. rewrite Hm, Hc. simpl.
  unfold Server.on_w, Server.on_srv, Server.on_mem, alloc, Server.selectAdd, Http.Header_Set,
    Go.send.
  go_unfold. simpl. by rewrite Ha.
Qed.

(** *** The checks are sound *)

Lemma members_okb_sound h ch : members_okb h ch = true → members_ok h ch.
Proof.
  unfold members_okb. intros Hb%bool_decide_eq_true c b Hc.
  specialize (Hb c b Hc). simpl in Hb. unfold member_okb in Hb.
  apply andb_true_iff in Hb as [-> Hb]. split; [done|].
  unfold live. destruct (h !! c) as [cl|]; [|done]. exists cl. split; [done|].
  by apply negb_true_iff.
Qed.

Lemma registry_okb_sound s : registry_okb s = true → registry_ok s.
Proof.
  unfold registry_okb. intros Hb%bool_decide_eq_true name ch Hch.
  destruct (Hb name ch Hch) as [Hname Hm]. split; [done|]. intros c b Hc.
  specialize (Hm c b Hc). simpl in Hm. apply andb_true_iff in Hm as [Hm Ht].
  unfold member_okb in Hm. unfold topic_okb in Ht.
  apply andb_true_iff in Hm as [-> Hm]. split; [done|].
  destruct (Server.mem s !! c) as [cl|]; [|done]. exists cl.
  apply negb_true_iff in Hm. apply bool_decide_eq_true in Ht. done.
Qed.

(** *** The registry invariant is kept *)

Lemma registry_ok_NewServer o : registry_ok (Server.NewServer o).
Proof.
  intros name ch Hch. unfold Server.NewServer in Hch. simpl in Hch.
  destruct (negb _); simpl in Hch; by rewrite lookup_empty in Hch.
Qed.

Lemma registry_ok_addClient s c cl s' :
  registry_ok s → Server.mem s !! c = Some cl → Go.closed (Client.send cl) = false →
  Server.dispatch_addClient c s = (Go.Ok tt, s') → registry_ok s'.
Proof.
  intros Hok Hc Hopen Hrun.
  destruct (dispatch_addClient_ok s c cl Hc) as (s1 & Hrun' & _ & Hmem & Hch).
  simpl in *. rewrite Hrun in Hrun'. injection Hrun' as <-.
  intros name ch Hname. rewrite Hch in Hname.
  destruct (decide (name = Client.channel cl)) as [->|Hne].
  - rewrite lookup_insert_eq in Hname. injection Hname as <-. simpl.
    destruct (Server.channels s !! Client.channel cl) as [ch0|] eqn:Hch0; simpl.
    + destruct (Hok _ _ Hch0) as [Hn Hm]. split; [done|]. intros c' b Hb.
      rewrite Hmem. destruct (decide (c' = c)) as [->|Hne].
      * rewrite lookup_insert_eq in Hb. injection Hb as <-. split; [done|]. by exists cl.
      * rewrite lookup_insert_ne in Hb by done. by apply Hm.
    + split; [done|]. intros c' b Hb. rewrite Hmem.
      apply lookup_insert_Some in Hb as [[<- <-]|[_ Hb]]; [|by rewrite lookup_empty in Hb].
      split; [done|]. by exists cl.
  - rewrite lookup_insert_ne in Hname by done. rewrite Hmem. by apply Hok.
Qed.

Lemma registry_ok_removeClient s c cl ch s' :
  registry_ok s →
  Server.mem s !! c = Some cl → Server.channels s !! Client.channel cl = Some ch →
  is_Some (Channel.clients ch !! c) →
  Server.dispatch_removeClient c s = (Go.Ok tt, s') → registry_ok s'.
Proof.
  intros Hok Hc Hch Hin Hrun.
  destruct (dispatch_removeClient_ok s c cl ch Hok Hc Hch Hin) as (s1 & Hrun' & _ & Hmem & Hchs).
  simpl in *. rewrite Hrun in Hrun'. injection Hrun' as <-.
  assert (Hother : ∀ name ch' c' b, Server.channels s !! name = Some ch' →
            Channel.clients ch' !! c' = Some b → c' ≠ c →
            b = true ∧ ∃ cl', Server.mem s' !! c' = Some cl' ∧
                              Go.closed (Client.send cl') = false ∧ Client.channel cl' = name).
  { intros name ch' c' b Hn Hb Hne. destruct (Hok _ _ Hn) as [_ Hm].
    rewrite Hmem, lookup_insert_ne by done. by apply Hm. }
  intros name ch' Hname. rewrite Hchs in Hname. case_decide as He.
  - apply lookup_delete_Some in Hname as [Hne Hname].
    destruct (Hok _ _ Hname) as [Hn _]. split; [done|]. intros c' b Hb.
    apply (Hother name ch'); [done..|]. intros ->. apply Hne.
    by apply (registry_ok_unique s c _ ch name ch').
  - destruct (decide (name = Client.channel cl)) as [->|Hne].
    + rewrite lookup_insert_eq in Hname. injection Hname as <-. simpl.
      destruct (Hok _ _ Hch) as [Hn _]. split; [done|]. intros c' b Hb.
      apply lookup_delete_Some in Hb as [Hne Hb]. apply (Hother _ ch); done.
    + rewrite lookup_insert_ne in Hname by done.
      destruct (Hok _ _ Hname) as [Hn _]. split; [done|]. intros c' b Hb.
      apply (Hother name ch'); [done..|]. intros ->. apply Hne. symmetry.
      by apply (registry_ok_unique s c _ ch name ch').
Qed.

Lemma registry_ok_SendMessage env message s s' :
  running s → registry_ok s →
  Server.SendMessage env "" message s = (Go.Ok None, s') → registry_ok s'.
Proof.
  intros (Hs & _) Hok Hrun.
  destruct (SendMessage_all_ok env message s Hok) as (s1 & Hall & _ & Hch & Hin & _).
  unfold Server.SendMessage, Server.hasStarted in Hrun. go_unfold. simpl in Hrun.
  rewrite Hs in Hrun. simpl in Hrun. go_unfold. rewrite Hall in Hrun. injection Hrun as <-.
  intros name ch Hname. rewrite Hch, lookup_fmap in Hname.
  destruct (Server.channels s !! name) as [ch0|] eqn:Hch0; [|done].
  injection Hname as <-. destruct (Hok _ _ Hch0) as [Hn Hm]. split; [done|].
  intros c b Hb. simpl in Hb. destruct (Hm c b Hb) as (-> & cl & Hcl & Hopen & Ht).
  split; [done|]. exists (offer env message c cl).
  rewrite Hin by (exists name, ch0; split; [done|by eexists]). rewrite Hcl.
  destruct (offer_open env message c cl Hopen) as [? ?]. repeat split; congruence.
Qed.

(** The turn of the loop that takes [c] off the removal queue runs the
    removal case on it. *)
Lemma dispatch_RemoveClient s c q :
  Go.buf (Server.removeClient s) = c :: q →
  Server.dispatch Server.RemoveClient s =
  Server.dispatch_removeClient c
    (Server.set_removeClient
       (Go.Chan q (Go.cap (Server.removeClient s)) (Go.closed (Server.removeClient s))) s).
Proof.
  intros Hq. unfold Server.dispatch, Go.recv. go_unfold. by rewrite Hq.
Qed.

Lemma dispatch_AddClient s c q :
  Go.buf (Server.addClient s) = c :: q →
  Server.dispatch Server.AddClient s =
  Server.dispatch_addClient c
    (Server.set_addClient
       (Go.Chan q (Go.cap (Server.addClient s)) (Go.closed (Server.addClient s))) s).
Proof.
  intros Hq. unfold Server.dispatch, Go.recv. go_unfold. by rewrite Hq.
Qed.

(** A removal that reaches the loop after the connection's channel was
    closed and a channel of the same name created anew closes the outbox
    a second time. *)
Lemma dispatch_removeClient_stale s c cl ch :
  Server.mem s !! c = Some cl → Server.channels s !! Client.channel cl = Some ch →
  Go.closed (Client.send cl) = true →
  (Server.dispatch_removeClient c s).1 = Go.Panic "close of closed channel".
Proof.
  intros Hc Hch Hcl. unfold Server.dispatch_removeClient, Server.on_mem, deref, Server.getChannel.
  go_unfold. simpl. rewrite Hc. simpl. rewrite insert_id by done. rewrite Hch.
  unfold Server.on_channel at 1. simpl. rewrite Hch.
  unfold Channel.removeClient, Channel.on_self, Channel.on_heap, deref, Go.close.
  go_unfold. simpl. by rewrite Hc, Hcl.
Qed.

(** *** The tests of server_test.go, run on the model *)

Example TestServer_counts_ten : (TestServer running0).1 = Go.Ok 10.
Proof. vm_compute. reflexivity. Qed.

(** [TestServerDontStartServer], up to the call of [Start]. *)
Example TestServerDontStartServer_errors :
  (Server.SendMessage never "test-channel" hello unstarted0).1 = Go.Ok (Some ErrServerNotStarted) ∧
  (Server.Restart unstarted0).1 = Go.Ok (Some ErrServerNotStarted) ∧
  (Server.Shutdown unstarted0).1 = Go.Ok (Some ErrServerNotStarted) ∧
  Http.status (Server.ServeHTTP (λ _, false) (λ k, k) false (Http.Build_Request "GET" "" "" false)
                 (unstarted0, Http.Build_ResponseWriter ∅ None [] true)).2.2
    = Some Http.StatusInternalServerError ∧
  (Server.Start unstarted0).1 = Go.Ok None.
Proof. vm_compute. repeat split. Qed.

(** *** Further lemmas for the claims *)

Lemma streamLoop_closed s c cl w :
  Server.mem s !! c = Some cl → Go.closed (Client.send cl) = true →
  ∃ st, Server.streamLoop (S (Server.outboxLen c s)) false c (s, w) = (Go.Ok tt, st) ∧
        Http.body st.2 =
          Http.body w ++ ((λ m, Http.Event m (RetryInterval (Server.options s)))
                            <$> Go.buf (Client.send cl)).
Proof.
  intros Hc Hcl. unfold Server.outboxLen. rewrite Hc.
  destruct (streamLoop_drains (S (length (Go.buf (Client.send cl)))) c s w cl Hc)
    as (st & Hrun & Hbody); [lia|].
  rewrite Hcl in Hrun. by exists st.
Qed.

Lemma SendMessage_no_channels env name message s :
  Server.isStarted s = true → Server.channels s = ∅ →
  Server.SendMessage env name message s = (Go.Ok None, s).
Proof.
  intros Hs Hch. unfold Server.SendMessage, Server.hasStarted, Server.getChannel.
  go_unfold. simpl. rewrite Hs. simpl. case_bool_decide.
  - rewrite Hch, map_to_list_empty. done.
  - by rewrite Hch, lookup_empty.
Qed.

Lemma Shutdown_ok s :
  running s → registry_ok s →
  ∃ s', Server.Shutdown s = (Go.Ok None, s') ∧ stopped s' ∧ Server.channels s' = ∅ ∧
        (∀ c, member s c → Server.mem s' !! c = closed_outbox <$> Server.mem s !! c) ∧
        (∀ c, ¬ member s c → Server.mem s' !! c = Server.mem s !! c).
Proof.
  intros Hrun Hok. rewrite Shutdown_running by done.
  destruct (close_ok s Hok) as (s1 & -> & Hctl & Hch & Hin & Hout).
  exists (shut_down s1). split; [done|]. destruct Hrun as (Hs & _).
  unfold ctl in Hctl. injection Hctl as _ _ _ _ _ Hs1 _.
  split; [apply shut_down_stopped; congruence|]. done.
Qed.

Lemma ctl_running s s' : ctl s' = ctl s → running s → running s'.
Proof.
  unfold ctl, running, ctl_open. intros [= Ho Ha Hr Hsd Hcc Hs Hd]. by rewrite Ha, Hr, Hsd, Hcc, Hs, Hd.
Qed.

Lemma offer_room env message c cl :
  Go.closed (Client.send cl) = false → Go.full (Client.send cl) = false →
  offer env message c cl = enqueued message cl ∧ wait env message c cl = 0%Z.
Proof.
  intros Hopen Hroom. unfold offer, wait, enqueued.
  destruct (selectSend_open (env c) message _ Hopen) as (d & q' & -> & _ & _ & Hq).
  destruct (Hq Hroom) as [-> ->]. done.
Qed.

Lemma offer_saturated env message c cl :
  Go.closed (Client.send cl) = false → Go.full (Client.send cl) = true → unresponsive env c →
  offer env message c cl = cl ∧ wait env message c cl = sendMessageToClientTimeout.
Proof.
  intros Hopen Hfull Hun. unfold offer, wait, unresponsive in *.
  rewrite selectSend_timeout by done. simpl. by rewrite set_send_id.
Qed.


Lemma on_channel_SendMessage_state env message s name ch :
  Server.channels s !! name = Some ch → members_ok (Server.mem s) ch →
  ∃ d s', Server.on_channel name (Channel.SendMessage env message) s = (Go.Ok d, s') ∧
          ctl s' = ctl s ∧
          Server.channels s' =
            <[name := Channel.set_lastEventID (Message.id message) ch]> (Server.channels s) ∧
          (∀ c, is_Some (Channel.clients ch !! c) →
                Server.mem s' !! c = offer env message c <$> Server.mem s !! c) ∧
          (∀ c, Channel.clients ch !! c = None → Server.mem s' !! c = Server.mem s !! c).
Proof.
  intros Hch Hm.
  destruct (on_channel_SendMessage env message s name ch Hch Hm) as (d & h' & Hrun & Hin & Hout).
  eexists d, _. split; [exact Hrun|]. by repeat split.
Qed.

(** The removal case on a member of the channel of its topic. *)
Lemma removal_case_ok s c cl ch :
  registry_ok s →
  Server.mem s !! c = Some cl → Server.channels s !! Client.channel cl = Some ch →
  is_Some (Channel.clients ch !! c) →
  ∃ s', Server.dispatch_removeClient c s = (Go.Ok tt, s') ∧ ctl s' = ctl s ∧
        ¬ member s' c ∧
        Server.mem s' !! c = Some (closed_outbox cl) ∧
        (∀ w, ∃ st, Server.streamLoop (S (Server.outboxLen c s')) false c (s', w)
                    = (Go.Ok tt, st)) ∧
        (delete c (Channel.clients ch) = ∅ →
           Server.channels s' = delete (Client.channel cl) (Server.channels s) ∧
           Server.HasChannel (Client.channel cl) s' = false ∧
           Client.channel cl ∉ Server.Channels s') ∧
        (delete c (Channel.clients ch) ≠ ∅ →
           Server.channels s' =
             <[Client.channel cl := Channel.set_clients (delete c (Channel.clients ch)) ch]>
               (Server.channels s)).
Proof.
  intros Hok Hc Hch Hin.
  destruct (dispatch_removeClient_ok s c cl ch Hok Hc Hch Hin) as (s' & Hrun & Hctl & Hmem & Hchs).
  simpl in *. exists s'. do 2 (split; [done|]).
  assert (Hc' : Server.mem s' !! c = Some (closed_outbox cl)).
  { by rewrite Hmem, lookup_insert_eq. }
  repeat split; try done.
  - intros (n & ch' & Hch' & Hc''). rewrite Hchs in Hch'. case_decide as He.
    + apply lookup_delete_Some in Hch' as [Hne Hch'].
      apply Hne. symmetry. by apply (registry_ok_unique s c n ch' _ ch).
    + destruct (decide (n = Client.channel cl)) as [->|Hne].
      * rewrite lookup_insert_eq in Hch'. simplify_eq. simpl in Hc''.
        rewrite lookup_delete_eq in Hc''. by destruct Hc''.
      * rewrite lookup_insert_ne in Hch' by done.
        apply Hne. by apply (registry_ok_unique s c n ch' _ ch).
  - intros w. destruct (streamLoop_closed s' c _ w Hc') as (st & Hst & _); [done|]. by exists st.
  - by rewrite Hchs, decide_True.
  - unfold Server.HasChannel. rewrite Hchs, decide_True by done.
    apply bool_decide_eq_false_2. rewrite lookup_delete_eq. by intros [].
  - unfold Server.Channels. rewrite elem_of_map_keys, Hchs, decide_True by done.
    rewrite lookup_delete_eq. by intros [].
  - intros He. by rewrite Hchs, decide_False.
Qed.

(** *** A member with a closed outbox *)

Lemma sendTo_closed env message c h cl :
  h !! c = Some cl → Go.closed (Client.send cl) = true →
  (Channel.sendTo env message c true h).1 = Go.Panic "send on closed channel".
Proof.
  intros Hc Hcl. unfold Channel.sendTo, deref, Channel.selectSend, Go.send. go_unfold.
  rewrite Hc. simpl. by rewrite Hcl.
Qed.

Lemma fanOut_closed env message l h c cl :
  (∀ c' b, (c', b) ∈ l → b = true ∧ is_Some (h !! c')) →
  c ∈ l.*1 → h !! c = Some cl → Go.closed (Client.send cl) = true →
  (Channel.fanOut env message l h).1 = Go.Panic "send on closed channel".
Proof.
  revert h. induction l as [|[c' b] l IH]; intros h Hl Hin Hc Hcl.
  { by apply not_elem_of_nil in Hin. }
  destruct (Hl c' b) as (-> & cl' & Hc'); [left|].
  cbn [Channel.fanOut]. go_unfold.
  destruct (Go.closed (Client.send cl')) eqn:Hopen.
  - pose proof (sendTo_closed env message c' h cl' Hc' Hopen) as Hp.
    destruct (Channel.sendTo env message c' true h) as [r h']. simpl in Hp. by rewrite Hp.
  - destruct (sendTo_live env message c' h cl' Hc' Hopen) as (-> & _).
    assert (Hne : c ≠ c') by (intros ->; congruence).
    rewrite fmap_cons in Hin. apply elem_of_cons in Hin as [?|Hin]; [done|].
    specialize (IH (<[c' := offer env message c' cl']> h)).
    destruct (Channel.fanOut env message l _) as [r h']. simpl in IH. rewrite IH; [done|..].
    + intros c'' b Hb. destruct (Hl c'' b) as [-> Hsome]; [by right|]. split; [done|].
      destruct (decide (c'' = c')) as [->|?].
      * rewrite lookup_insert_eq. by eexists.
      * by rewrite lookup_insert_ne.
    + done.
    + by rewrite lookup_insert_ne.
    + done.
Qed.

Lemma SendMessage_closed_member env name message s ch c cl :
  Server.isStarted s = true → name ≠ "" → Server.channels s !! name = Some ch →
  (∀ c' b, Channel.clients ch !! c' = Some b → b = true ∧ is_Some (Server.mem s !! c')) →
  is_Some (Channel.clients ch !! c) →
  Server.mem s !! c = Some cl → Go.closed (Client.send cl) = true →
  (Server.SendMessage env name message s).1 = Go.Panic "send on closed channel".
Proof.
  intros Hs Hne Hch Hm Hin Hc Hcl.
  pose proof (fanOut_closed env message (map_to_list (Channel.clients ch)) (Server.mem s) c cl)
    as Hp.
  unfold Server.SendMessage, Server.hasStarted, Server.getChannel.
  go_unfold. simpl. rewrite Hs. simpl. rewrite bool_decide_eq_false_2 by by destruct name.
  rewrite Hch. go_unfold. unfold Server.on_channel. rewrite Hch.
  unfold Channel.SendMessage, Channel.on_self, Channel.on_heap. go_unfold. simpl.
  destruct (Channel.fanOut env message _ _) as [r h']. simpl in *. rewrite Hp; [done|..].
  - intros c' b Hb%elem_of_map_to_list. by apply Hm.
  - by apply elem_of_map_keys.
  - done.
  - done.
Qed.

(** A fan-out over entries that point to objects returns or panics with
    a send on a closed channel; it keeps every object, and leaves the
    closed ones as they are. *)
Lemma fanOut_total env message l h :
  (∀ c b, (c, b) ∈ l → b = true ∧ is_Some (h !! c)) →
  ((Channel.fanOut env message l h).1 = Go.Panic "send on closed channel" ∨
   ∃ d, (Channel.fanOut env message l h).1 = Go.Ok d) ∧
  (∀ c, is_Some (h !! c) → is_Some ((Channel.fanOut env message l h).2 !! c)) ∧
  (∀ c cl, h !! c = Some cl → Go.closed (Client.send cl) = true →
           (Channel.fanOut env message l h).2 !! c = Some cl).
Proof.
  revert h. induction l as [|[c b] l IH]; intros h Hl.
  { simpl. split; [right; by eexists|done]. }
  destruct (Hl c b) as (-> & cl & Hc); [left|].
  cbn [Channel.fanOut]. go_unfold.
  destruct (Go.closed (Client.send cl)) eqn:Hopen.
  - unfold Channel.sendTo, deref, Channel.selectSend, Go.send. go_unfold.
    rewrite Hc. simpl. rewrite Hopen. simpl. rewrite set_send_id.
    rewrite insert_id by done. split; [by left|]. done.
  - destruct (sendTo_live env message c h cl Hc Hopen) as (-> & _).
    destruct (IH (<[c := offer env message c cl]> h)) as (Hres & Hdom & Hcl).
    { intros c' b' Hin. destruct (Hl c' b') as [-> Hsome]; [by right|]. split; [done|].
      destruct (decide (c' = c)) as [->|?].
      - rewrite lookup_insert_eq. by eexists.
      - by rewrite lookup_insert_ne. }
    destruct (Channel.fanOut env message l _) as [r h'] eqn:Hrest. simpl in *.
    split; [|split].
    + destruct Hres as [->|[d ->]]; [by left|right; by eexists].
    + intros c' Hsome. assert (is_Some (h' !! c')); [|by destruct r].
      apply Hdom. destruct (decide (c' = c)) as [->|?].
      * rewrite lookup_insert_eq. by eexists.
      * by rewrite lookup_insert_ne.
    + intros c' cl' Hc' Hcl'. assert (h' !! c' = Some cl'); [|by destruct r].
      apply Hcl; [|done]. rewrite lookup_insert_ne; [done|]. intros ->. congruence.
Qed.

(** The broadcast to all channels, from any point of its loop on: with a
    member whose outbox is closed in a channel still to come, it
    panics. *)
Lemma rangeMap_SendMessage_closed env message l s name ch c cl :
  members_present s → name ∈ l →
  Server.channels s !! name = Some ch → is_Some (Channel.clients ch !! c) →
  Server.mem s !! c = Some cl → Go.closed (Client.send cl) = true →
  (rangeMap Server.channels l
     (λ name (_ : Channel.t),
        Server.on_channel name (Channel.SendMessage env message) ;; mret tt) s).1
  = Go.Panic "send on closed channel".
Proof.
  revert s ch. induction l as [|k l IH]; intros s ch Hp Hin Hch Hmem Hc Hcl.
  { by apply not_elem_of_nil in Hin. }
  cbn [rangeMap]. go_unfold.
  destruct (Server.channels s !! k) as [chk|] eqn:Hk.
  2:{ apply elem_of_cons in Hin as [->|Hin]; [congruence|]. by apply (IH s ch). }
  unfold Server.on_channel at 1. rewrite Hk.
  unfold Channel.SendMessage, Channel.on_self, Channel.on_heap. go_unfold. simpl.
  destruct (fanOut_total env message (map_to_list (Channel.clients chk)) (Server.mem s))
    as (Hres & Hdom & Hkeep).
  { intros c' b Hb%elem_of_map_to_list. by apply (Hp k chk). }
  destruct (decide (k = name)) as [->|Hne].
  - rewrite Hch in Hk. injection Hk as <-.
    pose proof (fanOut_closed env message (map_to_list (Channel.clients ch)) (Server.mem s) c cl)
      as Hpanic.
    destruct (Channel.fanOut env message _ _) as [r h']. simpl in *. rewrite Hpanic; [done|..].
    + intros c' b Hb%elem_of_map_to_list. by apply (Hp name ch).
    + by apply elem_of_map_keys.
    + done.
    + done.
  - apply elem_of_cons in Hin as [->|Hin]; [done|].
    destruct (Channel.fanOut env message _ _) as [r h'] eqn:Hrun. simpl in *.
    destruct Hres as [->|[d ->]]; [done|].
    apply (IH _ ch); simpl.
    + intros n chn c' b Hn Hb. simpl in Hn. apply lookup_insert_Some in Hn as [[<- <-]|[_ Hn]].
      * simpl in Hb. destruct (Hp k chk c' b Hk Hb) as [-> Hsome]. split; [done|by apply Hdom].
      * destruct (Hp n chn c' b Hn Hb) as [-> Hsome]. split; [done|by apply Hdom].
    + done.
    + by rewrite lookup_insert_ne.
    + done.
    + by apply Hkeep.
    + done.
Qed.

Lemma SendMessage_all_closed_member env message s name ch c cl :
  Server.isStarted s = true → members_present s →
  Server.channels s !! name = Some ch → is_Some (Channel.clients ch !! c) →
  Server.mem s !! c = Some cl → Go.closed (Client.send cl) = true →
  (Server.SendMessage env "" message s).1 = Go.Panic "send on closed channel".
Proof.
  intros Hs Hp Hch Hin Hc Hcl.
  pose proof (rangeMap_SendMessage_closed env message (map_to_list (Server.channels s)).*1
                s name ch c cl Hp) as Hpanic.
  unfold Server.SendMessage, Server.hasStarted. go_unfold. simpl. rewrite Hs. simpl.
  go_unfold.
  destruct (rangeMap _ _ _ s) as [r s']. simpl in *. rewrite Hpanic; [done|..]; try done.
  apply elem_of_map_keys. by eexists.
Qed.

Lemma members_presentb_sound s : members_presentb s = true → members_present s.
Proof.
  intros H%bool_decide_eq_true_1 name ch c b Hn Hb. by apply (H name ch Hn c b).
Qed.

(** Each step on the way to [gone_early] and to [raced] returns, but
    the handler of the live request, which stays streaming. *)
Lemma raced_steps :
  let serve r s := Server.ServeHTTP (λ _, false) (λ k, k) false r (s, w0) in
  let live := Http.Build_Request "GET" "/a" "" false in
  let gone := Http.Build_Request "GET" "/a" "" true in
  (serve gone running0).1 = Go.Ok tt ∧
  (serve live running0).1 = Go.Block ∧
  let s1 := (serve live running0).2.1 in
  (Server.dispatch Server.AddClient s1).1 = Go.Ok tt ∧
  let s2 := (Server.dispatch Server.AddClient s1).2 in
  (serve gone s2).1 = Go.Ok tt ∧
  let s3 := (serve gone s2).2.1 in
  (Server.dispatch Server.RemoveClient s3).1 = Go.Ok tt ∧
  let s4 := (Server.dispatch Server.RemoveClient s3).2 in
  (Server.dispatch Server.AddClient s4).1 = Go.Ok tt ∧
  (Server.dispatch Server.AddClient s4).2 = raced.
Proof. vm_compute. repeat split. Qed.

(** ** The claims *)

(** C1.  What broadcast and start answer in each state of the life cycle:
    before [Start], [SendMessage] fails with [ErrServerNotStarted]; a
    second [Start] fails with [ErrServerStarted]; but after a [Shutdown]
    that the control loop has carried out, [SendMessage] returns no error
    for any topic, because the started flag is still set. *)
Theorem C1_broadcast_after_shutdown_returns_no_error env name message s :
  (unstarted s →
     Server.SendMessage env name message s = (Go.Ok (Some ErrServerNotStarted), s) ∧
     ∃ s1, Server.Start s = (Go.Ok None, s1) ∧
           Server.Start s1 = (Go.Ok (Some ErrServerStarted), s1)) ∧
  (running s → registry_ok s →
     ∃ s', Server.Shutdown s = (Go.Ok None, s') ∧ stopped s' ∧
           Server.SendMessage env name message s' = (Go.Ok None, s')).
Proof.
  split.
  - intros Hun. pose proof Hun as (Hs & _). split; [by apply SendMessage_not_started|].
    destruct (Start_unstarted s Hun) as (s1 & Hstart & (Hs1 & _) & _).
    exists s1. split; [done|]. by apply Start_started.
  - intros Hrun Hok. destruct (Shutdown_ok s Hrun Hok) as (s' & Hsd & Hst & Hch & _).
    exists s'. split; [done|]. split; [done|].
    apply SendMessage_no_channels; [|done]. by destruct Hst.
Qed.

Lemma C1_witness :
  (Server.SendMessage never "CH-1" msg1 unstarted0 =
     (Go.Ok (Some ErrServerNotStarted), unstarted0) ∧
   ∃ s1, Server.Start unstarted0 = (Go.Ok None, s1) ∧
         Server.Start s1 = (Go.Ok (Some ErrServerStarted), s1)) ∧
  ∃ s', Server.Shutdown demo = (Go.Ok None, s') ∧ stopped s' ∧
        Server.SendMessage never "CH-1" msg1 s' = (Go.Ok None, s').
Proof.
  split.
  - apply (C1_broadcast_after_shutdown_returns_no_error never "CH-1" msg1 unstarted0).
    by repeat split.
  - apply (C1_broadcast_after_shutdown_returns_no_error never "CH-1" msg1 demo).
    + by repeat split.
    + apply registry_okb_sound. vm_compute. reflexivity.
Defined.




(** C3 at its failing inputs.  In the fan-out of a publish a connection
    with room in its outbox is handed the message, and its [lastEventID]
    stays what it was.  And [Client.SendMessage] on a full outbox that
    nobody reads does not return: the message is not enqueued, yet the
    identifier is recorded. *)
Lemma C3_failing_input :
  (∃ cl', (Channel.SendMessage never msg2
             ({[ 1 := tiny "x" [] ]}, Channel.Build "" "x" {[ 1 := true ]})).2.1 !! 1 = Some cl' ∧
          Go.buf (Client.send cl') = [msg2] ∧
          Client.LastEventID cl' ≠ Message.id msg2) ∧
  ∃ cl', Client.SendMessage false msg2 (tiny "x" [msg1]) = (Go.Block, cl') ∧
         Go.buf (Client.send cl') = [msg1] ∧
         Client.LastEventID cl' = Message.id msg2.
Proof.
  split.
  - exists (tiny "x" [msg2]). split; [by vm_compute|]. split; [done|]. by vm_compute.
  - eexists. split; [by vm_compute|]. done.
Qed.

(** C3.  Where the code assigns a connection's [lastEventID].
    [Client.SendMessage] records the message's identifier first and
    whatever the send then does, and the send is a blocking one: with an
    open outbox that has room the message is enqueued, and with a full
    outbox that nobody reads the caller stays parked, the identifier
    already recorded.  The fan-out of a channel does not go through
    [Client.SendMessage]: it sends on the outbox directly, and no
    connection's [lastEventID] changes, whether the message was delivered
    to it or not; [Client.LastEventID] then does not return the identifier
    of the last message sent. *)
Theorem C3_lastEventID_recorded_before_blocking_send rcv env message :
  (∀ cl, Client.LastEventID (Client.SendMessage rcv message cl).2 = Message.id message) ∧
  (∀ cl, Go.closed (Client.send cl) = false → Go.full (Client.send cl) = false →
         Client.SendMessage rcv message cl =
           (Go.Ok tt, Client.set_lastEventID (Message.id message) (enqueued message cl))) ∧
  (∀ cl, Go.closed (Client.send cl) = false → Go.full (Client.send cl) = true →
         Client.SendMessage false message cl =
           (Go.Block, Client.set_lastEventID (Message.id message) cl)) ∧
  (∀ h ch c, Client.LastEventID <$> (Channel.SendMessage env message (h, ch)).2.1 !! c =
             Client.LastEventID <$> h !! c).
Proof.
  repeat split.
  - intros cl. unfold Client.SendMessage. go_unfold. simpl.
    by destruct (Go.send rcv message (Client.send cl)) as [[] q].
  - intros cl Hopen Hroom. unfold Client.SendMessage, Go.send. go_unfold. simpl.
    by rewrite Hopen, Hroom.
  - intros cl Hopen Hfull. unfold Client.SendMessage, Go.send. go_unfold. simpl.
    rewrite Hopen, Hfull. simpl. by destruct cl.
  - intros h ch c. unfold Channel.SendMessage, Channel.on_self, Channel.on_heap. go_unfold.
    simpl. pose proof (fanOut_lastEventID env message (map_to_list (Channel.clients ch)) h c) as Hl.
    by destruct (Channel.fanOut env message _ h) as [r h'].
Qed.

Lemma C3_witness :
  Client.SendMessage true msg2 (tiny "x" []) = (Go.Ok tt, Client.Build "2" "x" (Go.Chan [msg2] 1 false)) ∧
  Client.SendMessage false msg2 (tiny "x" [msg1]) =
    (Go.Block, Client.Build "2" "x" (Go.Chan [msg1] 1 false)).
Proof.
  split.
  - apply (proj1 (proj2 (C3_lastEventID_recorded_before_blocking_send true never msg2))
             (tiny "x" [])); reflexivity.
  - apply (proj1 (proj2 (proj2 (C3_lastEventID_recorded_before_blocking_send true never msg2)))
             (tiny "x" [msg1])); reflexivity.
Defined.

(** C4.  On a running server a broadcast does what the claim says as
    long as the registry is in order: it returns no error whatever the
    topic; with the empty topic every member of every channel is offered
    the message exactly once (one [select] on its outbox: a member with
    room has the message appended once), the other connections are
    untouched, and no channel is created or removed; with a topic that has
    no channel nothing changes at all.  But the registry of a running
    server can hold a member whose outbox is closed (the control loop
    registers one when it takes a connection's removal before its
    admission); a broadcast to all channels, or to the channel of that
    member, then does not return: it panics with a send on a closed
    channel. *)
Theorem C4_broadcast_all_reaches_every_member_once env message s :
  running s →
  (registry_ok s →
     (∃ s', Server.SendMessage env "" message s = (Go.Ok None, s') ∧
            (∀ c, member s c → Server.mem s' !! c = offer env message c <$> Server.mem s !! c) ∧
            (∀ c cl, member s c → Server.mem s !! c = Some cl →
                     Go.full (Client.send cl) = false →
                     Server.mem s' !! c = Some (enqueued message cl)) ∧
            (∀ c, ¬ member s c → Server.mem s' !! c = Server.mem s !! c) ∧
            Server.channels s' =
              Channel.set_lastEventID (Message.id message) <$> Server.channels s) ∧
     (∀ name, name ≠ "" → Server.channels s !! name = None →
              Server.SendMessage env name message s = (Go.Ok None, s)) ∧
     (∀ name, (Server.SendMessage env name message s).1 = Go.Ok None)) ∧
  (members_present s →
     ∀ name ch c cl, Server.channels s !! name = Some ch → is_Some (Channel.clients ch !! c) →
       Server.mem s !! c = Some cl → Go.closed (Client.send cl) = true →
       (Server.SendMessage env "" message s).1 = Go.Panic "send on closed channel" ∧
       (name ≠ "" →
          (Server.SendMessage env name message s).1 = Go.Panic "send on closed channel")).
Proof.
  intros (Hs & _). split.
  - intros Hok.
    destruct (SendMessage_all_ok env message s Hok) as (s' & Hall & Hctl & Hch & Hin & Hout).
    assert (Hempty : Server.SendMessage env "" message s = (Go.Ok None, s')).
    { unfold Server.SendMessage, Server.hasStarted. go_unfold. simpl. rewrite Hs. simpl.
      go_unfold. by rewrite Hall. }
    assert (Habsent : ∀ name, name ≠ "" → Server.channels s !! name = None →
                              Server.SendMessage env name message s = (Go.Ok None, s)).
    { intros name Hne Hnone. unfold Server.SendMessage, Server.hasStarted, Server.getChannel.
      go_unfold. simpl. rewrite Hs. simpl. rewrite bool_decide_eq_false_2.
      - by rewrite Hnone.
      - by destruct name. }
    split; [|split; [done|]].
    + exists s'. split; [done|]. repeat split; try done.
      intros c cl Hm Hcl Hroom. rewrite Hin, Hcl by done. simpl.
      destruct Hm as (n & ch & Hn & [b Hb]). destruct (Hok n ch Hn) as [_ Hmem].
      destruct (Hmem c b Hb) as (_ & cl' & Hcl' & Hopen & _). simplify_eq.
      by destruct (offer_room env message c cl Hopen Hroom) as [-> _].
    + intros name. destruct (decide (name = "")) as [->|Hne]; [by rewrite Hempty|].
      destruct (Server.channels s !! name) as [ch|] eqn:Hn; [|by rewrite Habsent].
      destruct (on_channel_SendMessage_state env message s name ch Hn) as (d & s1 & Hrun & _).
      { by eapply registry_ok_members. }
      unfold Server.SendMessage, Server.hasStarted, Server.getChannel.
      go_unfold. simpl. rewrite Hs. simpl. rewrite bool_decide_eq_false_2 by by destruct name.
      rewrite Hn. go_unfold. by rewrite Hrun.
  - intros Hp name ch c cl Hch Hin Hc Hcl. split.
    + by apply (SendMessage_all_closed_member env message s name ch c cl).
    + intros Hne. apply (SendMessage_closed_member env name message s ch c cl); try done.
      intros c' b Hb. by apply (Hp name ch).
Qed.

Lemma C4_witness :
  (∃ s', Server.SendMessage never "" msg2 demo = (Go.Ok None, s') ∧
         Server.mem s' !! 0 = Some (tiny "CH-1" [msg1]) ∧
         Server.mem s' !! 1 = Some (tiny "CH-1" [msg2]) ∧
         Server.mem s' !! 2 = Some (tiny "CH-2" [msg2]) ∧
         Server.SendMessage never "CH-3" msg2 demo = (Go.Ok None, demo)) ∧
  running raced ∧
  (Server.SendMessage never "" msg2 raced).1 = Go.Panic "send on closed channel" ∧
  (Server.SendMessage never "/a" msg2 raced).1 = Go.Panic "send on closed channel".
Proof.
  split.
  - destruct (C4_broadcast_all_reaches_every_member_once never msg2 demo)
      as [Hin _]; [by repeat split|].
    destruct Hin as ((s' & Hrun & Hall & Hroom & _) & Habsent & _).
    { apply registry_okb_sound. vm_compute. reflexivity. }
    exists s'. split; [exact Hrun|]. split; [|split; [|split]].
    + rewrite Hall; [reflexivity|].
      exists "CH-1", (Channel.Build "" "CH-1" {[ 0 := true; 1 := true ]}).
      split; [reflexivity|exists true; reflexivity].
    + apply (Hroom 1 (tiny "CH-1" [])); [|reflexivity..].
      exists "CH-1", (Channel.Build "" "CH-1" {[ 0 := true; 1 := true ]}).
      split; [reflexivity|exists true; reflexivity].
    + apply (Hroom 2 (tiny "CH-2" [])); [|reflexivity..].
      exists "CH-2", (Channel.Build "" "CH-2" {[ 2 := true ]}).
      split; [reflexivity|exists true; reflexivity].
    + apply Habsent; [discriminate|reflexivity].
  - assert (Hrun : running raced) by (vm_compute; repeat split).
    split; [exact Hrun|].
    destruct (C4_broadcast_all_reaches_every_member_once never msg2 raced Hrun) as [_ Hbad].
    destruct (Hbad (members_presentb_sound raced eq_refl) "/a"
                (Channel.Build "" "/a" {[ 0 := true; 1 := true ]}) 1
                (Client.Build "" "/a" (Go.Chan [] 1024 true)))
      as [Hall Hnamed].
    + vm_compute. reflexivity.
    + exists true. vm_compute. reflexivity.
    + vm_compute. reflexivity.
    + reflexivity.
    + exact (conj Hall (Hnamed ltac:(discriminate))).
Defined.

(** C5.  A publish first writes the message's identifier into the
    channel's [lastEventID] and only then starts the fan-out: in the run
    of its steps the second state has the identifier written and the heap
    untouched, every later state still has it, and so in every state in
    which some connection's object differs from what it was before the
    publish, [LastEventID] already returns the identifier of the message.
    The run ends in the state [SendMessage] leaves. *)
Theorem C5_channel_identifier_written_before_fan_out env message h ch :
  let tr := trace (SendMessage_steps env message (map_to_list (Channel.clients ch))) (h, ch) in
  (∃ rest, tr = (h, ch) :: (h, Channel.set_lastEventID (Message.id message) ch) :: rest ∧
           Forall (λ st, Channel.LastEventID st.2 = Message.id message) rest) ∧
  (∀ st, st ∈ tr → st.1 ≠ h → Channel.LastEventID st.2 = Message.id message) ∧
  last tr = Some (Channel.SendMessage env message (h, ch)).2.
Proof.
  intros tr.
  assert (Htr : ∃ rest,
    tr = (h, ch) :: (h, Channel.set_lastEventID (Message.id message) ch) :: rest ∧
    Forall (λ st, Channel.LastEventID st.2 = Message.id message) rest).
  { subst tr. unfold SendMessage_steps. cbn [trace]. unfold Channel.on_self. go_unfold. simpl.
    pose proof (fanOut_trace_lastEventID env message (map_to_list (Channel.clients ch))
                  (h, Channel.set_lastEventID (Message.id message) ch)) as Hall.
    destruct (trace_head
      (map (λ e, Channel.on_heap (Channel.sendTo env message e.1 e.2))
         (map_to_list (Channel.clients ch)))
      (h, Channel.set_lastEventID (Message.id message) ch)) as [rest Hrest].
    rewrite Hrest in Hall. apply Forall_cons in Hall as [_ Hall].
    exists rest. split; [|done].
    pose proof Hrest as Hhd. unfold trace in Hhd.
    destruct (map _ _); injection Hhd as <-; by rewrite Hrest. }
  split; [done|]. split; [|apply SendMessage_trace].
  destruct Htr as (rest & -> & Hall). intros st Hst Hne.
  apply elem_of_cons in Hst as [->|Hst]; [done|].
  apply elem_of_cons in Hst as [->|Hst]; [done|].
  by apply (proj1 (Forall_forall _ _) Hall).
Qed.

(** C6.  What a turn of the control loop does with a connection it takes
    off the removal queue.  When the connection is a member of the channel
    registered under its topic (and the registry is in order), the claim
    holds: the connection is detached, its outbox is closed (so the loop
    draining it returns), and the channel is removed from the map and from
    the list of channel names if it is left without members, and stays
    with its other members otherwise.  When the topic has no channel (the
    removal was taken before the admission), the turn does nothing: the
    outbox is not closed, and the admission that follows registers the
    connection, with nothing left queued to remove it.  When the topic has
    a channel and the outbox is already closed (the channel was closed and
    the topic joined again), the turn panics with a close of a closed
    channel. *)
Theorem C6_removal_detaches_closes_and_drops_empty_channel s c q cl :
  Go.buf (Server.removeClient s) = c :: q → Server.mem s !! c = Some cl →
  (registry_ok s →
   ∀ ch, Server.channels s !! Client.channel cl = Some ch → is_Some (Channel.clients ch !! c) →
     ∃ s', Server.dispatch Server.RemoveClient s = (Go.Ok tt, s') ∧
           Go.buf (Server.removeClient s') = q ∧
           ¬ member s' c ∧
           Server.mem s' !! c = Some (closed_outbox cl) ∧
           (∀ w, ∃ st, Server.streamLoop (S (Server.outboxLen c s')) false c (s', w)
                       = (Go.Ok tt, st)) ∧
           (delete c (Channel.clients ch) = ∅ →
              Server.channels s' = delete (Client.channel cl) (Server.channels s) ∧
              Server.HasChannel (Client.channel cl) s' = false ∧
              Client.channel cl ∉ Server.Channels s') ∧
           (delete c (Channel.clients ch) ≠ ∅ →
              Server.channels s' =
                <[Client.channel cl := Channel.set_clients (delete c (Channel.clients ch)) ch]>
                  (Server.channels s))) ∧
  (Server.channels s !! Client.channel cl = None →
     ∃ s1, Server.dispatch Server.RemoveClient s = (Go.Ok tt, s1) ∧
           Server.mem s1 !! c = Some cl ∧ Server.channels s1 = Server.channels s ∧
           Go.buf (Server.removeClient s1) = q ∧
           ∀ qa, Go.buf (Server.addClient s) = c :: qa →
             ∃ s2, Server.dispatch Server.AddClient s1 = (Go.Ok tt, s2) ∧
                   member s2 c ∧ Server.mem s2 !! c = Some cl ∧
                   Go.buf (Server.removeClient s2) = q) ∧
  (∀ ch, Server.channels s !! Client.channel cl = Some ch →
         Go.closed (Client.send cl) = true →
         (Server.dispatch Server.RemoveClient s).1 = Go.Panic "close of closed channel").
Proof.
  intros Hq Hc. rewrite (dispatch_RemoveClient s c q Hq).
  set (s0 := Server.set_removeClient _ s). split; [|split].
  - intros Hok ch Hch Hin.
    destruct (removal_case_ok s0 c cl ch) as (s' & Hrun & Hctl & Hrest); try done.
    exists s'. split; [done|]. split; [|done].
    unfold ctl in Hctl. injection Hctl as _ _ Hr _ _ _ _. by rewrite Hr.
  - intros Hch. rewrite (dispatch_removeClient_absent s0 c cl Hc Hch).
    exists s0. do 4 (split; [done|]). intros qa Hqa.
    assert (Hqa0 : Go.buf (Server.addClient s0) = c :: qa) by done.
    rewrite (dispatch_AddClient s0 c qa Hqa0).
    set (s0' := Server.set_addClient _ s0).
    destruct (dispatch_addClient_ok s0' c cl Hc) as (s2 & Hadd & Hctl & Hmem & Hchs).
    simpl in Hchs. exists s2. split; [done|]. split; [|split].
    + exists (Client.channel cl). eexists. rewrite Hchs, lookup_insert_eq. split; [done|].
      simpl. rewrite lookup_insert_eq. by eexists.
    + by rewrite Hmem.
    + unfold ctl in Hctl. injection Hctl as _ _ Hr _ _ _ _. by rewrite Hr.
  - intros ch Hch Hcl. by apply (dispatch_removeClient_stale s0 c cl ch).
Qed.

Lemma C6_witness :
  (∃ s', Server.dispatch Server.RemoveClient demo_leaving = (Go.Ok tt, s') ∧
         ¬ member s' 2 ∧
         Server.mem s' !! 2 = Some (closed_outbox (tiny "CH-2" [])) ∧
         Server.HasChannel "CH-2" s' = false) ∧
  ∃ s1 s2, Server.dispatch Server.RemoveClient gone_early = (Go.Ok tt, s1) ∧
           Server.mem s1 !! 0 = Some (Client.newClient "" "/a") ∧
           Server.dispatch Server.AddClient s1 = (Go.Ok tt, s2) ∧
           member s2 0 ∧ Go.buf (Server.removeClient s2) = [].
Proof.
  split.
  - destruct (C6_removal_detaches_closes_and_drops_empty_channel demo_leaving 2 []
                (tiny "CH-2" []) eq_refl eq_refl) as (Hin & _).
    destruct (Hin (registry_okb_sound demo_leaving eq_refl)
                (Channel.Build "" "CH-2" {[ 2 := true ]}) eq_refl)
      as (s' & Hrun & _ & Hdet & Hmem & _ & Hempty & _).
    + exists true. reflexivity.
    + exists s'. refine (conj Hrun (conj Hdet (conj Hmem _))).
      apply Hempty. vm_compute. reflexivity.
  - destruct (C6_removal_detaches_closes_and_drops_empty_channel gone_early 0 []
                (Client.newClient "" "/a") eq_refl eq_refl) as (_ & Habsent & _).
    destruct (Habsent eq_refl) as (s1 & Hrm & Hopen & _ & _ & Hnext).
    destruct (Hnext [] eq_refl) as (s2 & Hadd & Hm & _ & Hq).
    exists s1, s2. exact (conj Hrm (conj Hopen (conj Hadd (conj Hm Hq)))).
Defined.

(** C7.  [Restart] in each state of the life cycle.  On a running server
    it returns no error, closes every channel and the outbox of every
    member (so each loop draining one returns), and leaves the server
    running: the control loop attaches the next connection to a fresh
    channel.  On a server that was never started it fails with
    [ErrServerNotStarted].  On a server stopped by [Shutdown] the flag is
    still set, and [Restart] returns no error. *)
Theorem C7_restart_closes_all_and_keeps_running s :
  (running s → registry_ok s →
     ∃ s', Server.Restart s = (Go.Ok None, s') ∧ running s' ∧ Server.channels s' = ∅ ∧
           (∀ c cl, member s c → Server.mem s !! c = Some cl →
              Server.mem s' !! c = Some (closed_outbox cl) ∧
              ∀ w, ∃ st, Server.streamLoop (S (Server.outboxLen c s')) false c (s', w)
                         = (Go.Ok tt, st)) ∧
           (∀ c cl, Server.mem s' !! c = Some cl →
              ∃ s'', Server.dispatch_addClient c s' = (Go.Ok tt, s'') ∧ running s'' ∧
                     Server.channels s'' =
                       {[ Client.channel cl :=
                            Channel.Build "" (Client.channel cl) {[ c := true ]} ]})) ∧
  (unstarted s → Server.Restart s = (Go.Ok (Some ErrServerNotStarted), s)) ∧
  (stopped s → registry_ok s → ∃ s', Server.Restart s = (Go.Ok None, s') ∧ stopped s').
Proof.
  split; [|split].
  - intros Hrun Hok. pose proof Hrun as (Hs & _).
    rewrite Restart_started by done.
    destruct (close_ok s Hok) as (s' & -> & Hctl & Hch & Hin & Hout).
    assert (Hrun' : running s') by by apply (ctl_running s).
    exists s'. do 3 (split; [done|]). split; [intros c cl Hmem Hcl; split|].
    + rewrite Hin by done. by rewrite Hcl.
    + intros w. assert (Hc : Server.mem s' !! c = Some (closed_outbox cl)).
      { rewrite Hin by done. by rewrite Hcl. }
      destruct (streamLoop_closed s' c _ w Hc) as (st & Hst & _); [done|]. by exists st.
    + intros c cl Hc. destruct (dispatch_addClient_ok s' c cl Hc) as (s'' & Hadd & Hctl' & _ & Hch').
      simpl in *. exists s''. split; [done|]. split; [by apply (ctl_running s')|].
      rewrite Hch', Hch, lookup_empty. simpl. by rewrite insert_empty.
  - intros (Hs & _). by apply Restart_not_started.
  - intros Hst Hok. pose proof Hst as (Hs & Hd & Hc). rewrite Restart_started by done.
    destruct (close_ok s Hok) as (s' & -> & Hctl & _). exists s'. split; [done|].
    unfold ctl in Hctl. injection Hctl as Ho Ha Hr Hsd Hcc Hs' Hd'.
    unfold stopped, ctl_closed in *. by rewrite Ha, Hr, Hsd, Hcc, Hs', Hd'.
Qed.

Lemma C7_witness :
  (∃ s', Server.Restart demo = (Go.Ok None, s') ∧ running s' ∧ Server.channels s' = ∅) ∧
  Server.Restart unstarted0 = (Go.Ok (Some ErrServerNotStarted), unstarted0) ∧
  ∃ s', Server.Restart (shut_down running0) = (Go.Ok None, s') ∧ stopped s'.
Proof.
  split; [|split].
  - destruct (proj1 (C7_restart_closes_all_and_keeps_running demo))
      as (s' & Hrun & Hrunning & Hch & _).
    + by repeat split.
    + apply registry_okb_sound. vm_compute. reflexivity.
    + exists s'. exact (conj Hrun (conj Hrunning Hch)).
  - apply (proj1 (proj2 (C7_restart_closes_all_and_keeps_running unstarted0))).
    by repeat split.
  - apply (proj2 (proj2 (C7_restart_closes_all_and_keeps_running (shut_down running0)))).
    + by repeat split.
    + apply registry_okb_sound. vm_compute. reflexivity.
Defined.

(** C8 at its failing input: on a server that was never started
    [CloseChannel] does not come back to its caller at all. *)
Lemma C8_failing_input :
  Server.isStarted unstarted0 = false ∧
  ¬ ∃ r s', Server.CloseChannel "chan_x" unstarted0 = (Go.Ok r, s').
Proof. split; [done|]. intros (r & s' & Hrun). vm_compute in Hrun. discriminate. Qed.

(** C8.  On a server that has not been started [SendMessage], [Restart]
    and [Shutdown] check [hasStarted] and return [ErrServerNotStarted],
    the state unchanged.  [CloseChannel] alone makes no such check: its
    send on the unbuffered [closeChannel] channel finds no receiver, the
    caller stays parked, and the server state is unchanged. *)
Theorem C8_closeChannel_unstarted_parks name s :
  unstarted s →
  Server.CloseChannel name s = (Go.Block, s) ∧
  (∀ env topic message,
     Server.SendMessage env topic message s = (Go.Ok (Some ErrServerNotStarted), s)) ∧
  Server.Restart s = (Go.Ok (Some ErrServerNotStarted), s) ∧
  Server.Shutdown s = (Go.Ok (Some ErrServerNotStarted), s).
Proof.
  intros Hun. split; [by apply CloseChannel_unstarted|]. destruct Hun as (Hs & _).
  split; [intros; by apply SendMessage_not_started|].
  split; [by apply Restart_not_started|].
  unfold Server.Shutdown, Server.hasStarted. go_unfold. simpl. by rewrite Hs.
Qed.

Lemma C8_witness :
  Server.CloseChannel "chan_x" unstarted0 = (Go.Block, unstarted0) ∧
  Server.Shutdown unstarted0 = (Go.Ok (Some ErrServerNotStarted), unstarted0).
Proof.
  destruct (C8_closeChannel_unstarted_parks "chan_x" unstarted0) as (Hclose & _ & _ & Hsd).
  - by repeat split.
  - exact (conj Hclose Hsd).
Defined.



(** C9.  On a started server, with a response writer that can stream:
    a request whose method is neither GET nor OPTIONS is answered 405 and
    the server state is unchanged (no connection is admitted); an OPTIONS
    request gets the configured headers and nothing else, no status is
    written and the server state is unchanged; whenever the handler
    changes the server state or does not return, the method is GET; and a
    live GET request whose admission can be queued is admitted, answered
    200 and left streaming.  The configured headers, [w1] below, are
    these: when the options have headers, every configured header whose
    canonical key is shared with no other configured key is in the
    response with its configured value; a key that is the canonical form
    of no configured key keeps the value the writer had; when the options
    have no headers the writer is untouched; and whatever is in the
    response was in the writer or is configured. *)
Theorem C9_only_GET_opens_a_stream hasHeaders canon pick r s w :
  Server.isStarted s = true → Http.flusher w = true →
  let w1 := with_headers hasHeaders canon s w in
  (∀ k v, Http.header w1 !! k = Some v →
          Http.header w !! k = Some v ∨
          ∃ k0, Headers (Server.options s) !! k0 = Some v ∧ k = canon k0) ∧
  (hasHeaders (Server.options s) = true →
     ∀ k0 v, Headers (Server.options s) !! k0 = Some v →
       (∀ k, is_Some (Headers (Server.options s) !! k) → canon k = canon k0 → k = k0) →
       Http.header w1 !! canon k0 = Some v) ∧
  (hasHeaders (Server.options s) = true →
     ∀ k, (∀ k0, is_Some (Headers (Server.options s) !! k0) → canon k0 ≠ k) →
       Http.header w1 !! k = Http.header w !! k) ∧
  (hasHeaders (Server.options s) = false → w1 = w) ∧
  Http.status w1 = Http.status w ∧ Http.body w1 = Http.body w ∧
  (Http.Method r ≠ "GET" → Http.Method r ≠ "OPTIONS" →
     ∃ w', Server.ServeHTTP hasHeaders canon pick r (s, w) = (Go.Ok tt, (s, w')) ∧
           Http.status w' = Some (default Http.StatusMethodNotAllowed (Http.status w)) ∧
           Http.header w' = Http.header w1 ∧ Http.body w' = Http.body w) ∧
  (Http.Method r = "OPTIONS" →
     Server.ServeHTTP hasHeaders canon pick r (s, w) = (Go.Ok tt, (s, w1))) ∧
  (∀ res s' w', Server.ServeHTTP hasHeaders canon pick r (s, w) = (res, (s', w')) →
                s' ≠ s ∨ res ≠ Go.Ok tt → Http.Method r = "GET") ∧
  (Http.Method r = "GET" → Http.cancelled r = false →
   Go.closed (Server.addClient s) = false → Go.full (Server.addClient s) = false →
     ∃ st, Server.ServeHTTP hasHeaders canon pick r (s, w) = (Go.Block, st) ∧
           Server.mem st.1 =
             <[fresh (dom (Server.mem s)) :=
                 Client.newClient (Http.LastEventID r) (topic_of s r)]> (Server.mem s) ∧
           Go.buf (Server.addClient st.1) =
             Go.buf (Server.addClient s) ++ [fresh (dom (Server.mem s))] ∧
           Http.status st.2 = Some (default Http.StatusOK (Http.status w))).
Proof.
  intros Hs Hf w1. subst w1.
  destruct (with_headers_frame hasHeaders canon s w) as (Hst & Hbody & _).
  split; [apply with_headers_header|].
  split.
  { intros Hhas k0 v Hk0 Hinj. unfold with_headers. rewrite Hhas. apply SetAll_lookup.
    - apply NoDup_fst_map_to_list.
    - by apply elem_of_map_to_list.
    - intros k Hk. apply Hinj. by apply elem_of_map_keys in Hk. }
  split.
  { intros Hhas k Hk. unfold with_headers. rewrite Hhas. apply SetAll_lookup_ne.
    intros k0 Hk0. apply Hk. by apply elem_of_map_keys in Hk0. }
  split; [by unfold with_headers; intros ->|].
  do 2 (split; [done|]).
  split; [|split; [|split]].
  - intros Hget Hopt. rewrite ServeHTTP_other by done.
    rewrite bool_decide_eq_false_2 by done. eexists. split; [done|].
    unfold Http.WriteHeader. go_unfold. simpl. by rewrite Hst.
  - intros Hopt. rewrite ServeHTTP_other; [|done|done|by rewrite Hopt].
    by rewrite bool_decide_eq_true_2.
  - intros res s' w' Hrun Hch. destruct (decide (Http.Method r = "GET")) as [|Hne]; [done|].
    rewrite ServeHTTP_other in Hrun by done. injection Hrun as <- <- _.
    by destruct Hch.
  - intros Hget Hc Hopen Hroom.
    destruct (ServeHTTP_GET hasHeaders canon pick r s w Hs Hf Hget Hc Hopen Hroom)
      as (st & Hrun & Hmem & Hq & _ & Hstat & _).
    by exists st.
Qed.

Lemma C9_witness :
  (∃ w', Server.ServeHTTP (λ _, true) (λ k, k) false (Http.Build_Request "POST" "/a" "" false)
           (running0, Http.Build_ResponseWriter ∅ None [] true) = (Go.Ok tt, (running0, w')) ∧
         Http.status w' = Some Http.StatusMethodNotAllowed) ∧
  (∃ st, Server.ServeHTTP (λ _, true) (λ k, k) false (Http.Build_Request "GET" "/a" "" false)
           (running0, Http.Build_ResponseWriter ∅ None [] true) = (Go.Block, st) ∧
         Http.status st.2 = Some Http.StatusOK) ∧
  ∃ w', Server.ServeHTTP (λ o, bool_decide (Headers o ≠ ∅)) (λ k, k) false
          (Http.Build_Request "OPTIONS" "/a" "" false)
          (with_cors, Http.Build_ResponseWriter ∅ None [] true) = (Go.Ok tt, (with_cors, w')) ∧
        Http.header w' !! "Access-Control-Allow-Origin" = Some "*" ∧
        Http.header w' !! "Content-Type" = None ∧
        Http.status w' = None.
Proof.
  split; [|split].
  - destruct (C9_only_GET_opens_a_stream (λ _, true) (λ k, k) false
                (Http.Build_Request "POST" "/a" "" false) running0
                (Http.Build_ResponseWriter ∅ None [] true) eq_refl eq_refl)
      as (_ & _ & _ & _ & _ & _ & Hother & _).
    destruct Hother as (w' & Hrun & Hst & _); [discriminate..|].
    exists w'. exact (conj Hrun Hst).
  - destruct (C9_only_GET_opens_a_stream (λ _, true) (λ k, k) false
                (Http.Build_Request "GET" "/a" "" false) running0
                (Http.Build_ResponseWriter ∅ None [] true) eq_refl eq_refl)
      as (_ & _ & _ & _ & _ & _ & _ & _ & _ & Hget).
    destruct Hget as (st & Hrun & _ & _ & Hst); [reflexivity..|].
    exists st. exact (conj Hrun Hst).
  - destruct (C9_only_GET_opens_a_stream (λ o, bool_decide (Headers o ≠ ∅)) (λ k, k) false
                (Http.Build_Request "OPTIONS" "/a" "" false) with_cors
                (Http.Build_ResponseWriter ∅ None [] true) eq_refl eq_refl)
      as (_ & Hin & Hout & _ & Hst & _ & _ & Hopt & _).
    eexists. split; [exact (Hopt eq_refl)|]. split; [|split].
    + apply (Hin eq_refl "Access-Control-Allow-Origin" "*"); [reflexivity|].
      intros k _ Heq. exact Heq.
    + refine (eq_trans (Hout eq_refl "Content-Type" _) eq_refl).
      intros k0 [v Hk0] Heq. simpl in Heq. subst k0. vm_compute in Hk0. discriminate.
    + exact Hst.
Defined.

(** C10.  [Shutdown] never resets the started flag: after a successful
    [Shutdown] the server still reports itself as started and the four
    control channels are closed, so a further [Shutdown] or [CloseChannel]
    sends on a closed channel (a panic) instead of returning an error. *)
Theorem C10_shutdown_keeps_flag_and_closes_control_channels s s' :
  running s → Server.Shutdown s = (Go.Ok None, s') →
  Server.hasStarted s' = (Go.Ok true, s') ∧
  Go.closed (Server.addClient s') = true ∧ Go.closed (Server.removeClient s') = true ∧
  Go.closed (Server.closeChannel s') = true ∧ Go.closed (Server.shutdown s') = true ∧
  Server.Shutdown s' = (Go.Panic "send on closed channel", s') ∧
  ∀ name, Server.CloseChannel name s' = (Go.Panic "send on closed channel", s').
Proof.
  intros Hrun Hsd. rewrite Shutdown_running in Hsd by done.
  pose proof (close_ctl s) as Hctl.
  destruct (Server.close s) as [[] s1]; [|done..]. injection Hsd as <-. simpl in Hctl.
  destruct Hrun as (Hs & _). unfold ctl in Hctl. injection Hctl as _ _ _ _ _ Hs1 _.
  assert (Hst : stopped (shut_down s1)) by (apply shut_down_stopped; congruence).
  pose proof Hst as (Hs' & _ & Ha & Hr & Hsd & Hcc).
  unfold Server.hasStarted, Go.gets. rewrite Hs'.
  repeat split; auto using Shutdown_stopped, CloseChannel_stopped.
Qed.

Lemma C10_witness :
  Server.hasStarted (shut_down running0) = (Go.Ok true, shut_down running0) ∧
  Go.closed (Server.addClient (shut_down running0)) = true ∧
  Go.closed (Server.removeClient (shut_down running0)) = true ∧
  Go.closed (Server.closeChannel (shut_down running0)) = true ∧
  Go.closed (Server.shutdown (shut_down running0)) = true ∧
  Server.Shutdown (shut_down running0) =
    (Go.Panic "send on closed channel", shut_down running0) ∧
  ∀ name, Server.CloseChannel name (shut_down running0) =
            (Go.Panic "send on closed channel", shut_down running0).
Proof.
  apply (C10_shutdown_keeps_flag_and_closes_control_channels running0 (shut_down running0)).
  - by repeat split.
  - vm_compute. reflexivity.
Defined.

(** ** Further properties of the code *)

(** X1.  [Channel.Close] on a channel whose members are live returns,
    leaves the channel without members, closes the outbox of every member
    (its buffered messages stay readable) and touches no other
    connection. *)
Theorem X1_Close_closes_every_member_only h ch :
  members_ok h ch →
  ∃ h', Channel.Close (h, ch) = (Go.Ok tt, (h', Channel.set_clients ∅ ch)) ∧
        (∀ c cl, is_Some (Channel.clients ch !! c) → h !! c = Some cl →
                 h' !! c = Some (closed_outbox cl) ∧
                 Go.buf (Client.send (closed_outbox cl)) = Go.buf (Client.send cl)) ∧
        (∀ c, Channel.clients ch !! c = None → h' !! c = h !! c).
Proof.
  intros Hm. destruct (Close_ok h ch Hm) as (h' & Hrun & Hin & Hout).
  exists h'. split; [done|]. split; [|done].
  intros c cl Hc Hcl. rewrite Hin, Hcl by done. done.
Qed.

Lemma X1_witness :
  ∃ h', Channel.Close ({[ 0 := tiny "x" [msg1]; 1 := tiny "x" []; 5 := tiny "y" [] ]},
                       Channel.Build "7" "x" {[ 0 := true; 1 := true ]})
        = (Go.Ok tt, (h', Channel.Build "7" "x" ∅)) ∧
        h' !! 0 = Some (Client.Build "" "x" (Go.Chan [msg1] 1 true)) ∧
        h' !! 5 = Some (tiny "y" []).
Proof.
  destruct (X1_Close_closes_every_member_only
              {[ 0 := tiny "x" [msg1]; 1 := tiny "x" []; 5 := tiny "y" [] ]}
              (Channel.Build "7" "x" {[ 0 := true; 1 := true ]}))
    as (h' & Hrun & Hin & Hout).
  - apply members_okb_sound. vm_compute. reflexivity.
  - exists h'. split; [exact Hrun|]. split.
    + apply (Hin 0 (tiny "x" [msg1])); [exists true; reflexivity | reflexivity].
    + rewrite Hout; reflexivity.
Defined.

Lemma CloseChannel_running name s :
  running s → Server.CloseChannel name s = Server.dispatch_closeChannel name s.
Proof.
  intros (Hs & Hd & Ha & Hr & Hsd & Hcc).
  unfold Server.CloseChannel. go_unfold. simpl. rewrite Hd, Hcc. simpl.
  by rewrite <- Hcc, set_closeChannel_id.
Qed.

Lemma registry_ok_delete s name h' :
  registry_ok s →
  (∀ c, (∀ ch, Server.channels s !! name = Some ch → Channel.clients ch !! c = None) →
        h' !! c = Server.mem s !! c) →
  registry_ok (Server.set_mem h' (Server.set_channels (delete name (Server.channels s)) s)).
Proof.
  intros Hok Hsame n ch Hn. simpl in *. apply lookup_delete_Some in Hn as [Hne Hn].
  destruct (Hok _ _ Hn) as [Hname Hm]. split; [done|]. intros c b Hb.
  destruct (Hm c b Hb) as (-> & cl & Hcl & Hopen & Ht). split; [done|]. exists cl.
  rewrite Hsame; [done|]. intros ch' Hch'. apply eq_None_not_Some. intros Hc.
  apply Hne. by apply (registry_ok_unique s c name ch' n ch); [| | | |eexists].
Qed.

(** X2.  [CloseChannel] on a running server: if the channel exists, it
    is removed from the registry, the outbox of each of its members is
    closed, and every other channel and connection is left as it was; if
    it does not exist, nothing changes.  The server stays running and the
    registry stays in order. *)
Theorem X2_CloseChannel_closes_that_channel_only name s :
  running s → registry_ok s →
  ∃ s', Server.CloseChannel name s = (Go.Ok tt, s') ∧ running s' ∧ registry_ok s' ∧
        Server.channels s' = delete name (Server.channels s) ∧
        (∀ ch c cl, Server.channels s !! name = Some ch →
                    is_Some (Channel.clients ch !! c) → Server.mem s !! c = Some cl →
                    Server.mem s' !! c = Some (closed_outbox cl)) ∧
        (∀ c, (∀ ch, Server.channels s !! name = Some ch → Channel.clients ch !! c = None) →
              Server.mem s' !! c = Server.mem s !! c) ∧
        (Server.channels s !! name = None → s' = s).
Proof.
  intros Hrun Hok. rewrite CloseChannel_running by done.
  unfold Server.dispatch_closeChannel, Server.getChannel. go_unfold.
  destruct (Server.channels s !! name) as [ch|] eqn:Hch.
  - destruct (removeChannel_ok s ch) as (h' & Hrm & Hin & Hout).
    { by eapply registry_ok_members. }
    destruct (Hok _ _ Hch) as [Hname _]. rewrite Hname in Hrm.
    eexists. split; [exact Hrm|]. split; [by apply (ctl_running s)|].
    split; [|split; [done|split; [|split; [|done]]]].
    + apply registry_ok_delete; [done|]. intros c Hc. apply Hout. by apply Hc.
    + intros ch' c cl [= <-] Hc Hcl. simpl. by rewrite Hin, Hcl.
    + intros c Hc. simpl. apply Hout. by apply Hc.
  - exists s. split; [done|]. split; [done|]. split; [done|].
    split; [by rewrite delete_id|]. by repeat split.
Qed.

Lemma X2_witness :
  ∃ s', Server.CloseChannel "CH-1" demo = (Go.Ok tt, s') ∧
        Server.Channels s' = ["CH-2"] ∧
        Server.mem s' !! 2 = Some (tiny "CH-2" []).
Proof.
  destruct (X2_CloseChannel_closes_that_channel_only "CH-1" demo)
    as (s' & Hrun & _ & _ & Hch & _ & Hout & _).
  - by repeat split.
  - apply registry_okb_sound. vm_compute. reflexivity.
  - exists s'. split; [exact Hrun|]. split.
    + unfold Server.Channels. rewrite Hch. vm_compute. reflexivity.
    + rewrite Hout; [reflexivity|]. intros ch Hc.
      vm_compute in Hc. injection Hc as <-. reflexivity.
Defined.

(** A broadcast to a named channel that exists is that channel's
    [SendMessage]. *)
Lemma SendMessage_named env name message s ch d s' :
  Server.isStarted s = true → name ≠ "" → Server.channels s !! name = Some ch →
  Server.on_channel name (Channel.SendMessage env message) s = (Go.Ok d, s') →
  Server.SendMessage env name message s = (Go.Ok None, s').
Proof.
  intros Hs Hne Hch Hrun.
  unfold Server.SendMessage, Server.hasStarted, Server.getChannel.
  go_unfold. simpl. rewrite Hs. simpl. rewrite bool_decide_eq_false_2 by by destruct name.
  rewrite Hch. go_unfold. by rewrite Hrun.
Qed.

(** X3.  A broadcast to a named topic that has a channel, on a running
    server: it returns no error, every member of that channel is offered
    the message once (a member with room has it appended), only that
    channel's [lastEventID] becomes the message's identifier, and the
    members of the other channels and all other connections are left as
    they were. *)
Theorem X3_named_broadcast_reaches_that_channel_only env name message s ch :
  running s → registry_ok s → name ≠ "" → Server.channels s !! name = Some ch →
  ∃ s', Server.SendMessage env name message s = (Go.Ok None, s') ∧
        Server.channels s' =
          <[name := Channel.set_lastEventID (Message.id message) ch]> (Server.channels s) ∧
        (∀ c, is_Some (Channel.clients ch !! c) →
              Server.mem s' !! c = offer env message c <$> Server.mem s !! c) ∧
        (∀ c cl, is_Some (Channel.clients ch !! c) → Server.mem s !! c = Some cl →
                 Go.full (Client.send cl) = false →
                 Server.mem s' !! c = Some (enqueued message cl)) ∧
        (∀ c, Channel.clients ch !! c = None → Server.mem s' !! c = Server.mem s !! c) ∧
        registry_ok s'.
Proof.
  intros (Hs & _) Hok Hne Hch.
  destruct (on_channel_SendMessage_state env message s name ch Hch)
    as (d & s' & Hrun & Hctl & Hchs & Hin & Hout).
  { by eapply registry_ok_members. }
  exists s'. split.
  { by eapply SendMessage_named. }
  do 2 (split; [done|]). split; [|split; [done|]].
  - intros c cl [b Hb] Hcl Hroom. rewrite Hin, Hcl by by eexists. simpl.
    destruct (Hok _ _ Hch) as [_ Hm]. destruct (Hm c b Hb) as (_ & cl' & Hcl' & Hopen & _).
    simplify_eq. by destruct (offer_room env message c cl Hopen Hroom) as [-> _].
  - intros n ch' Hn. rewrite Hchs in Hn.
    assert (Hkeep : ∀ n0 ch0 c b, Server.channels s !! n0 = Some ch0 →
              Channel.clients ch0 !! c = Some b →
              b = true ∧ ∃ cl, Server.mem s' !! c = Some cl ∧
                               Go.closed (Client.send cl) = false ∧ Client.channel cl = n0).
    { intros n0 ch0 c b Hn0 Hb. destruct (Hok _ _ Hn0) as [_ Hm].
      destruct (Hm c b Hb) as (-> & cl & Hcl & Hopen & Ht). split; [done|].
      destruct (Channel.clients ch !! c) as [b'|] eqn:Hc.
      - exists (offer env message c cl). rewrite Hin, Hcl by by eexists.
        destruct (offer_open env message c cl Hopen) as [? ?]. repeat split; congruence.
      - exists cl. by rewrite Hout. }
    destruct (decide (n = name)) as [->|Hn'].
    + rewrite lookup_insert_eq in Hn. injection Hn as <-. simpl.
      destruct (Hok _ _ Hch) as [Hname _]. split; [done|]. intros c b Hb.
      by apply (Hkeep name ch).
    + rewrite lookup_insert_ne in Hn by done. destruct (Hok _ _ Hn) as [Hname _].
      split; [done|]. intros c b Hb. by apply (Hkeep n ch').
Qed.

Lemma X3_witness :
  ∃ s', Server.SendMessage never "CH-1" msg2 demo = (Go.Ok None, s') ∧
        Server.mem s' !! 1 = Some (tiny "CH-1" [msg2]) ∧
        Server.mem s' !! 2 = Some (tiny "CH-2" []).
Proof.
  destruct (X3_named_broadcast_reaches_that_channel_only never "CH-1" msg2 demo
              (Channel.Build "" "CH-1" {[ 0 := true; 1 := true ]}))
    as (s' & Hrun & _ & _ & Hroom & Hout & _).
  - by repeat split.
  - apply registry_okb_sound. vm_compute. reflexivity.
  - discriminate.
  - reflexivity.
  - exists s'. split; [exact Hrun|]. split.
    + apply (Hroom 1 (tiny "CH-1" [])); [exists true; reflexivity | reflexivity..].
    + rewrite Hout; reflexivity.
Defined.

(** X4.  [Shutdown] on a running server whose registry is in order
    returns no error and, once the control loop has run its shutdown
    case, no channel is left, the outbox of every connection that was a
    member of a channel is closed, so the loop streaming it returns, and
    the connections that were in no channel are untouched. *)
Theorem X4_Shutdown_closes_every_member s :
  running s → registry_ok s →
  ∃ s', Server.Shutdown s = (Go.Ok None, s') ∧ stopped s' ∧
        Server.Channels s' = [] ∧
        (∀ c cl, member s c → Server.mem s !! c = Some cl →
           Server.mem s' !! c = Some (closed_outbox cl) ∧
           ∀ w, ∃ st, Server.streamLoop (S (Server.outboxLen c s')) false c (s', w)
                      = (Go.Ok tt, st)) ∧
        (∀ c, ¬ member s c → Server.mem s' !! c = Server.mem s !! c).
Proof.
  intros Hrun Hok. destruct (Shutdown_ok s Hrun Hok) as (s' & Hsd & Hst & Hch & Hin & Hout).
  exists s'. do 2 (split; [done|]). split; [|split; [|done]].
  - unfold Server.Channels. by rewrite Hch, map_to_list_empty.
  - intros c cl Hm Hcl.
    assert (Hc : Server.mem s' !! c = Some (closed_outbox cl)) by by rewrite Hin, Hcl.
    split; [done|]. intros w.
    destruct (streamLoop_closed s' c _ w Hc) as (st & Hrun' & _); [done|]. by exists st.
Qed.

Lemma X4_witness :
  ∃ s', Server.Shutdown demo = (Go.Ok None, s') ∧ stopped s' ∧ Server.Channels s' = [] ∧
        Server.mem s' !! 0 = Some (Client.Build "" "CH-1" (Go.Chan [msg1] 1 true)).
Proof.
  destruct (X4_Shutdown_closes_every_member demo) as (s' & Hrun & Hst & Hch & Hin & _).
  - by repeat split.
  - apply registry_okb_sound. vm_compute. reflexivity.
  - exists s'. split; [exact Hrun|]. split; [exact Hst|]. split; [exact Hch|].
    apply (Hin 0 (tiny "CH-1" [msg1])); [|reflexivity].
    exists "CH-1", (Channel.Build "" "CH-1" {[ 0 := true; 1 := true ]}).
    split; [reflexivity|exists true; reflexivity].
Defined.

(** X5.  [ServeHTTP] refuses every request, whatever its method, when the
    server is not started or when the response writer cannot stream: it
    answers 500 with the error text followed by a line feed, returns, and
    leaves the server state untouched (no connection is created or
    queued). *)
Theorem X5_ServeHTTP_refuses_with_500 hasHeaders canon pick r s w :
  Server.isStarted s = false ∨ Http.flusher w = false →
  ∃ w', Server.ServeHTTP hasHeaders canon pick r (s, w) = (Go.Ok tt, (s, w')) ∧
        Http.status w' = Some (default Http.StatusInternalServerError (Http.status w)) ∧
        Http.body w' =
          Http.body w ++ [Http.Text ((if Server.isStarted s then "Streaming unsupported."
                                      else "Server is not started") ++ Http.LF)] ∧
        Http.header w' !! canon "X-Content-Type-Options" = Some "nosniff".
Proof.
  intros Hcase. unfold Server.ServeHTTP, Server.on_w, Http.Error, Http.Write, Http.WriteHeader,
    Http.Header_Set. go_unfold. simpl.
  destruct (Server.isStarted s) eqn:Hs; simpl.
  - destruct Hcase as [|Hf]; [done|]. rewrite Hf. simpl.
    eexists. split; [reflexivity|]. simpl. by rewrite lookup_insert_eq.
  - eexists. split; [reflexivity|]. simpl. by rewrite lookup_insert_eq.
Qed.

Lemma X5_witness :
  ∃ w', Server.ServeHTTP (λ _, false) (λ k, k) false (Http.Build_Request "GET" "/a" "" false)
          (unstarted0, Http.Build_ResponseWriter ∅ None [] true) = (Go.Ok tt, (unstarted0, w')) ∧
        Http.status w' = Some 500%Z ∧
        Http.body w' = [Http.Text ("Server is not started" ++ Http.LF)].
Proof.
  destruct (X5_ServeHTTP_refuses_with_500 (λ _, false) (λ k, k) false
              (Http.Build_Request "GET" "/a" "" false) unstarted0
              (Http.Build_ResponseWriter ∅ None [] true))
    as (w' & Hrun & Hst & Hbody & _).
  - left. reflexivity.
  - exists w'. exact (conj Hrun (conj Hst Hbody)).
Defined.

(** X6.  A [GET] request whose context is already done, when the select
    takes the cancellation (it is the only ready case, or the one
    picked): the handler returns without writing a status or a body, the
    new connection is sent to neither queue, and the channels are as they
    were. *)
Theorem X6_cancelled_request_is_not_admitted hasHeaders canon pick r s w :
  Server.isStarted s = true → Http.flusher w = true →
  Http.Method r = "GET" → Http.cancelled r = true →
  pick = true ∨ (Go.closed (Server.addClient s) = false ∧
                 Go.full (Server.addClient s) = true ∧ Server.dispatching s = false) →
  ∃ st, Server.ServeHTTP hasHeaders canon pick r (s, w) = (Go.Ok tt, st) ∧
        ctl st.1 = ctl s ∧ Server.channels st.1 = Server.channels s ∧
        Http.status st.2 = Http.status w ∧ Http.body st.2 = Http.body w.
Proof.
  intros Hs Hf Hm Hc Hpick. rewrite ServeHTTP_started by done. rewrite Hm, Hc. simpl.
  destruct (with_headers_frame hasHeaders canon s w) as (Hst & Hbody & _).
  unfold Server.on_w, Server.on_srv, Server.on_mem, alloc, Server.selectAdd, Http.Header_Set.
  go_unfold. simpl.
  assert (Htake : negb (Go.closed (Server.addClient s) || negb (Go.full (Server.addClient s))
                        || Server.dispatching s) || pick = true).
  { destruct Hpick as [->|(-> & -> & ->)]; [by rewrite orb_true_r|done]. }
  rewrite Htake. simpl. eexists. split; [reflexivity|]. by repeat split.
Qed.

Lemma X6_witness :
  ∃ st, Server.ServeHTTP (λ _, false) (λ k, k) true (Http.Build_Request "GET" "/a" "" true)
          (running0, Http.Build_ResponseWriter ∅ None [] true) = (Go.Ok tt, st) ∧
        Server.channels st.1 = Server.channels running0 ∧ Http.status st.2 = None.
Proof.
  destruct (X6_cancelled_request_is_not_admitted (λ _, false) (λ k, k) true
              (Http.Build_Request "GET" "/a" "" true) running0
              (Http.Build_ResponseWriter ∅ None [] true))
    as (st & Hrun & _ & Hch & Hst & _); [reflexivity..| |].
  - left. reflexivity.
  - exists st. exact (conj Hrun (conj Hch Hst)).
Defined.

(** The [retry] fields after the messages [ms] were streamed. *)
Lemma streamed_lookup (x : Z) (ms : list Message) (r : gmap nat Z) :
  (∀ m, m ∈ ms →
        foldl (λ r m, <[Message.addr m := x]> r) r ms !! Message.addr m = Some x) ∧
  (∀ a, a ∉ Message.addr <$> ms →
        foldl (λ r m, <[Message.addr m := x]> r) r ms !! a = r !! a).
Proof.
  revert r. induction ms as [|m ms IH]; intros r; simpl.
  { split; [by intros m Hm%not_elem_of_nil|done]. }
  destruct (IH (<[Message.addr m := x]> r)) as [Hin Hout]. split.
  - intros m' [->|Hm']%elem_of_cons; [|by apply Hin].
    destruct (decide (Message.addr m ∈ Message.addr <$> ms)) as [Hm|Hm].
    + apply list_elem_of_fmap in Hm as (m' & Heq & Hm').
      pose proof (Hin m' Hm') as H. by rewrite <- Heq in H.
    + rewrite Hout by done. apply lookup_insert_eq.
  - intros a [Hne Ha]%not_elem_of_cons. rewrite Hout by done. by apply lookup_insert_ne.
Qed.

Lemma streamLoop_spec n c s w cl :
  Server.mem s !! c = Some cl → length (Go.buf (Client.send cl)) < n →
  ∃ st, Server.streamLoop n false c (s, w) =
          (if Go.closed (Client.send cl) then Go.Ok tt else Go.Block, st) ∧
        Http.body st.2 =
          Http.body w ++ ((λ m, Http.Event m (RetryInterval (Server.options s)))
                            <$> Go.buf (Client.send cl)) ∧
        Http.header st.2 = Http.header w ∧
        ctl st.1 = ctl s ∧ Server.channels st.1 = Server.channels s ∧
        Server.mem st.1 =
          <[c := Client.set_send
                   (Go.Chan [] (Go.cap (Client.send cl)) (Go.closed (Client.send cl))) cl]>
            (Server.mem s) ∧
        Server.retries st.1 =
          foldl (λ r m, <[Message.addr m := RetryInterval (Server.options s)]> r)
                (Server.retries s) (Go.buf (Client.send cl)).
Proof.
  revert s w cl. induction n as [|n IH]; intros s w cl Hc Hlen; [lia|].
  simpl. unfold Server.on_srv, Server.on_mem, Server.on_w, deref. go_unfold. simpl.
  rewrite Hc. unfold Go.recv. destruct cl as [l t [q k cls]]. simpl in *.
  destruct q as [|x q]; simpl.
  - destruct cls; eexists; (split; [done|]); simpl; by rewrite app_nil_r.
  - rewrite lookup_insert_eq. simpl.
    edestruct (IH (Server.set_retries
                     (<[Message.addr x := RetryInterval (Server.options s)]> (Server.retries s))
                     (Server.set_mem
                        (<[c := Client.set_send (Go.Chan q k cls)
                                  (Client.Build l t (Go.Chan (x :: q) k cls))]>
                           (Server.mem s)) s)))
      as (st & Hrun & Hbody & Hhdr & Hctl & Hch & Hmem & Hret);
      [apply lookup_insert_eq | simpl in *; lia |].
    simpl in Hrun. unfold Http.Flush, Http.Write, Http.WriteHeader. go_unfold. simpl.
    exists st. split; [exact Hrun|]. rewrite Hbody, Hhdr, Hctl, Hch, Hmem, Hret. simpl.
    rewrite insert_insert_eq. by rewrite <- app_assoc.
Qed.

(** X7.  The streaming loop of [ServeHTTP] on a connection nobody sends
    to any more: it takes the buffered messages in the order of the
    outbox, sets the [retry] field of each to the configured
    [RetryInterval] through the pointer and writes it to the response
    with that value, empties the outbox, and then returns if the outbox
    is closed and stays parked if it is open.  The channels, the control
    state and the outboxes of the other connections are as they were;
    but the message objects are shared, so the [retry] field of every
    streamed message is [RetryInterval] from then on for every holder of
    the pointer (another outbox, the publisher).  The field of no other
    message is assigned. *)
Theorem X7_stream_writes_outbox_in_order c s w cl :
  Server.mem s !! c = Some cl →
  ∃ st, Server.streamLoop (S (Server.outboxLen c s)) false c (s, w) =
          (if Go.closed (Client.send cl) then Go.Ok tt else Go.Block, st) ∧
        Http.body st.2 =
          Http.body w ++
          ((λ m, Http.Event m (RetryInterval (Server.options s))) <$> Go.buf (Client.send cl)) ∧
        Server.outboxLen c st.1 = 0 ∧
        ctl st.1 = ctl s ∧ Server.channels st.1 = Server.channels s ∧
        (∀ c', c' ≠ c → Server.mem st.1 !! c' = Server.mem s !! c') ∧
        (∀ m, m ∈ Go.buf (Client.send cl) →
              Server.retries st.1 !! Message.addr m = Some (RetryInterval (Server.options s))) ∧
        (∀ a, a ∉ Message.addr <$> Go.buf (Client.send cl) →
              Server.retries st.1 !! a = Server.retries s !! a).
Proof.
  intros Hc. unfold Server.outboxLen at 1. rewrite Hc.
  destruct (streamLoop_spec (S (length (Go.buf (Client.send cl)))) c s w cl Hc)
    as (st & Hrun & Hbody & _ & Hctl & Hch & Hmem & Hret); [lia|].
  destruct (streamed_lookup (RetryInterval (Server.options s)) (Go.buf (Client.send cl))
              (Server.retries s)) as [Hin Hout].
  exists st. split; [done|]. split; [done|]. split.
  { unfold Server.outboxLen. by rewrite Hmem, lookup_insert_eq. }
  do 2 (split; [done|]). split; [|split].
  - intros c' Hne. by rewrite Hmem, lookup_insert_ne.
  - intros m Hm. rewrite Hret. by apply Hin.
  - intros a Ha. rewrite Hret. by apply Hout.
Qed.

Lemma X7_witness :
  ∃ st, Server.streamLoop (S (Server.outboxLen 0 shared)) false 0
          (shared, Http.Build_ResponseWriter ∅ None [] true) = (Go.Block, st) ∧
        Http.body st.2 = [Http.Event msg1 3000] ∧
        Server.mem st.1 !! 1 = Some (tiny "CH-1" [msg1]) ∧
        Server.retries shared !! Message.addr msg1 = None ∧
        Server.retries st.1 !! Message.addr msg1 = Some 3000%Z.
Proof.
  destruct (X7_stream_writes_outbox_in_order 0 shared (Http.Build_ResponseWriter ∅ None [] true)
              (tiny "CH-1" [msg1])) as (st & Hrun & Hbody & _ & _ & _ & Hmem & Hret & _).
  - reflexivity.
  - exists st. refine (conj Hrun (conj Hbody (conj _ (conj eq_refl _)))).
    + rewrite Hmem by discriminate. reflexivity.
    + apply (Hret msg1). left.
Defined.

Lemma publishAll_ok env ms h ch :
  members_ok h ch →
  ∃ d h' ch', publishAll env ms (h, ch) = (Go.Ok d, (h', ch')) ∧
    Channel.clients ch' = Channel.clients ch ∧ Channel.name ch' = Channel.name ch ∧
    Channel.lastEventID ch' = default (Channel.lastEventID ch) (Message.id <$> last ms) ∧
    (∀ c, is_Some (Channel.clients ch !! c) →
          h' !! c = (λ cl, foldl (λ cl m, offer env m c cl) cl ms) <$> h !! c) ∧
    (∀ c, Channel.clients ch !! c = None → h' !! c = h !! c).
Proof.
  revert h ch. induction ms as [|m ms IH]; intros h ch Hm.
  - exists 0%Z, h, ch. split; [done|]. repeat split; try done.
    intros c _. by destruct (h !! c).
  - destruct (SendMessage_ok env m h ch Hm) as (d & h1 & Hrun & Hin & Hout & _).
    destruct (IH h1 (Channel.set_lastEventID (Message.id m) ch))
      as (ds & h' & ch' & Hrest & Hcl & Hn & Hl & Hin' & Hout').
    { intros c b Hb. simpl in Hb. destruct (Hm c b Hb) as (-> & cl & Hcl & Hopen).
      split; [done|]. exists (offer env m c cl). rewrite Hin by (by exists true).
      rewrite Hcl. split; [done|]. by destruct (offer_open env m c cl Hopen). }
    cbn [publishAll]. go_unfold. rewrite Hrun, Hrest. eexists _, h', ch'. split; [done|].
    do 2 (split; [done|]). split; [|split].
    + rewrite Hl. destruct ms as [|m' ms]; [done|]. rewrite last_cons_cons.
      destruct (last (m' :: ms)) eqn:E; [done|]. by apply last_None in E.
    + intros c Hc. rewrite Hin', Hin by done. by destruct (h !! c).
    + intros c Hc. by rewrite Hout', Hout.
Qed.

Lemma take_take_app {A} (n : nat) (l k : list A) :
  take n (take n l ++ k) = take n (l ++ k).
Proof.
  destruct (decide (length l ≤ n)) as [Hle|Hgt].
  - by rewrite (take_ge l n).
  - rewrite (take_app_le l k n) by lia.
    rewrite take_app_le by (rewrite length_take; lia).
    rewrite take_take. f_equal. lia.
Qed.

Lemma offer_unread env message c cl :
  Go.closed (Client.send cl) = false → unresponsive env c →
  length (Go.buf (Client.send cl)) ≤ Go.cap (Client.send cl) →
  offer env message c cl =
  Client.set_send (Go.Chan (take (Go.cap (Client.send cl)) (Go.buf (Client.send cl) ++ [message]))
                           (Go.cap (Client.send cl)) false) cl.
Proof.
  intros Hopen Hun Hlen. destruct (Go.full (Client.send cl)) eqn:Hfull.
  - destruct (offer_saturated env message c cl Hopen Hfull Hun) as [-> _].
    unfold Go.full in Hfull. apply negb_true_iff, Nat.ltb_ge in Hfull.
    rewrite take_app_le, take_ge by lia. destruct cl as [? ? [? ? ?]]. simpl in *. by subst.
  - destruct (offer_room env message c cl Hopen Hfull) as [-> _].
    unfold Go.full in Hfull. apply negb_false_iff, Nat.ltb_lt in Hfull.
    rewrite take_ge; [done|]. rewrite length_app. simpl. lia.
Qed.

Lemma foldl_offer_unread env ms c cl :
  Go.closed (Client.send cl) = false → unresponsive env c →
  length (Go.buf (Client.send cl)) ≤ Go.cap (Client.send cl) →
  foldl (λ cl m, offer env m c cl) cl ms =
  Client.set_send (Go.Chan (take (Go.cap (Client.send cl)) (Go.buf (Client.send cl) ++ ms))
                           (Go.cap (Client.send cl)) false) cl.
Proof.
  revert cl. induction ms as [|m ms IH]; intros cl Hopen Hun Hlen.
  - simpl. rewrite app_nil_r, take_ge by done. destruct cl as [? ? [? ? ?]]. simpl in *. by subst.
  - simpl. rewrite (offer_unread env m c cl) by done. rewrite IH; simpl; try done.
    + rewrite take_take_app. by rewrite <- app_assoc.
    + rewrite length_take. lia.
Qed.

Lemma foldl_offer_room env ms c cl :
  Go.closed (Client.send cl) = false →
  length (Go.buf (Client.send cl)) + length ms ≤ Go.cap (Client.send cl) →
  foldl (λ cl m, offer env m c cl) cl ms =
  Client.set_send (Go.Chan (Go.buf (Client.send cl) ++ ms) (Go.cap (Client.send cl)) false) cl.
Proof.
  revert cl. induction ms as [|m ms IH]; intros cl Hopen Hroom.
  - simpl. rewrite app_nil_r. destruct cl as [? ? [? ? ?]]. simpl in *. by subst.
  - simpl in *. assert (Hfull : Go.full (Client.send cl) = false).
    { unfold Go.full. apply negb_false_iff, Nat.ltb_lt. lia. }
    destruct (offer_room env m c cl Hopen Hfull) as [-> _]. rewrite IH; simpl; try done.
    + by rewrite <- app_assoc.
    + rewrite length_app. simpl. lia.
Qed.

(** X8.  Publishing a list of messages, one after the other, to a channel
    whose members are live always returns; the channel's [LastEventID]
    ends as the identifier of the last message.  A member whose outbox
    has room for all of them holds them after what it held, in the order
    of publication.  A member whose reader takes nothing holds the first
    messages up to the capacity of its outbox, in order, and the later
    ones are dropped for it. *)
Theorem X8_publishes_arrive_in_order_up_to_capacity env ms h ch :
  members_ok h ch →
  ∃ d h' ch', publishAll env ms (h, ch) = (Go.Ok d, (h', ch')) ∧
    Channel.clients ch' = Channel.clients ch ∧
    Channel.LastEventID ch' = default (Channel.LastEventID ch) (Message.id <$> last ms) ∧
    (∀ c cl, is_Some (Channel.clients ch !! c) → h !! c = Some cl →
       length (Go.buf (Client.send cl)) + length ms ≤ Go.cap (Client.send cl) →
       h' !! c = Some (Client.set_send
                         (Go.Chan (Go.buf (Client.send cl) ++ ms) (Go.cap (Client.send cl)) false)
                         cl)) ∧
    (∀ c cl, is_Some (Channel.clients ch !! c) → h !! c = Some cl → unresponsive env c →
       length (Go.buf (Client.send cl)) ≤ Go.cap (Client.send cl) →
       h' !! c = Some (Client.set_send
                         (Go.Chan (take (Go.cap (Client.send cl)) (Go.buf (Client.send cl) ++ ms))
                                  (Go.cap (Client.send cl)) false)
                         cl)) ∧
    (∀ c, Channel.clients ch !! c = None → h' !! c = h !! c).
Proof.
  intros Hm. destruct (publishAll_ok env ms h ch Hm)
    as (d & h' & ch' & Hrun & Hcl & _ & Hl & Hin & Hout).
  exists d, h', ch'. do 3 (split; [done|]). split; [|split; [|done]].
  - intros c cl [b Hb] Hc Hroom. rewrite Hin, Hc by by eexists. simpl. f_equal.
    destruct (Hm c b Hb) as (_ & cl' & Hc' & Hopen). simplify_eq.
    by apply foldl_offer_room.
  - intros c cl [b Hb] Hc Hun Hlen. rewrite Hin, Hc by by eexists. simpl. f_equal.
    destruct (Hm c b Hb) as (_ & cl' & Hc' & Hopen). simplify_eq.
    by apply foldl_offer_unread.
Qed.

Lemma X8_witness :
  ∃ d h' ch', publishAll never [msg1; msg2]
                ({[ 0 := tiny "x" []; 1 := Client.newClient "" "x" ]},
                 Channel.Build "" "x" {[ 0 := true; 1 := true ]}) = (Go.Ok d, (h', ch')) ∧
    Channel.LastEventID ch' = "2" ∧
    h' !! 0 = Some (tiny "x" [msg1]) ∧
    h' !! 1 = Some (Client.Build "" "x" (Go.Chan [msg1; msg2] 1024 false)).
Proof.
  destruct (X8_publishes_arrive_in_order_up_to_capacity never [msg1; msg2]
              {[ 0 := tiny "x" []; 1 := Client.newClient "" "x" ]}
              (Channel.Build "" "x" {[ 0 := true; 1 := true ]}))
    as (d & h' & ch' & Hrun & _ & Hl & Hroom & Hun & _).
  - apply members_okb_sound. vm_compute. reflexivity.
  - exists d, h', ch'. split; [exact Hrun|]. split; [exact Hl|]. split.
    + apply (Hun 0 (tiny "x" [])); [exists true; reflexivity | reflexivity | exact I |].
      simpl. lia.
    + apply (Hroom 1 (Client.newClient "" "x")); [exists true; reflexivity | reflexivity |].
      simpl. lia.
Defined.

Lemma Client_SendMessage_room rcv message cl :
  Go.closed (Client.send cl) = false → Go.full (Client.send cl) = false →
  Client.SendMessage rcv message cl =
    (Go.Ok tt, Client.set_lastEventID (Message.id message) (enqueued message cl)).
Proof.
  intros Hopen Hroom. unfold Client.SendMessage, Go.send. go_unfold. simpl.
  by rewrite Hopen, Hroom.
Qed.

Lemma Client_SendMessage_full message cl :
  Go.closed (Client.send cl) = false → Go.full (Client.send cl) = true →
  Client.SendMessage false message cl =
    (Go.Block, Client.set_lastEventID (Message.id message) cl).
Proof.
  intros Hopen Hfull. unfold Client.SendMessage, Go.send. go_unfold. simpl.
  rewrite Hopen, Hfull. simpl. by destruct cl.
Qed.

Lemma sendAll_room rcv ms cl :
  Go.closed (Client.send cl) = false →
  length (Go.buf (Client.send cl)) + length ms ≤ Go.cap (Client.send cl) →
  sendAll rcv ms cl =
  (Go.Ok tt, Client.Build (default (Client.lastEventID cl) (Message.id <$> last ms))
               (Client.channel cl)
               (Go.Chan (Go.buf (Client.send cl) ++ ms) (Go.cap (Client.send cl)) false)).
Proof.
  revert cl. induction ms as [|m ms IH]; intros cl Hopen Hroom.
  - simpl. rewrite app_nil_r. destruct cl as [? ? [? ? ?]]. simpl in *. by subst.
  - cbn [sendAll]. go_unfold. simpl in Hroom.
    assert (Hfull : Go.full (Client.send cl) = false).
    { unfold Go.full. apply negb_false_iff, Nat.ltb_lt. lia. }
    rewrite Client_SendMessage_room by done. rewrite IH; simpl; try done.
    + rewrite <- app_assoc. simpl. do 2 f_equal.
      destruct ms as [|m' ms]; [done|]. rewrite last_cons_cons.
      destruct (last (m' :: ms)) eqn:E; [done|]. by apply last_None in E.
    + rewrite length_app. simpl. lia.
Qed.

(** X9.  A new client takes 1024 messages through [Client.SendMessage]
    with nobody reading: each call returns, the outbox holds the messages
    in the order of the calls and [LastEventID] is the identifier of the
    last one.  With 1024 messages in the outbox the next call does not
    return: the sender stays parked, the outbox is unchanged and
    [LastEventID] already is the new identifier. *)
Theorem X9_new_client_buffers_1024_messages lastEventID channel ms :
  length ms ≤ 1024 →
  sendAll false ms (Client.newClient lastEventID channel) =
    (Go.Ok tt, Client.Build (default lastEventID (Message.id <$> last ms)) channel
                 (Go.Chan ms 1024 false)) ∧
  (length ms = 1024 →
   ∀ m, sendAll false (ms ++ [m]) (Client.newClient lastEventID channel) =
          (Go.Block, Client.Build (Message.id m) channel (Go.Chan ms 1024 false))).
Proof.
  intros Hlen.
  assert (Hall : sendAll false ms (Client.newClient lastEventID channel) =
    (Go.Ok tt, Client.Build (default lastEventID (Message.id <$> last ms)) channel
                 (Go.Chan ms 1024 false))).
  { rewrite sendAll_room; [done|done|]. simpl. lia. }
  split; [done|]. intros Hfull m.
  assert (Happ : ∀ k cl, sendAll false (k ++ [m]) cl =
                         (sendAll false k ;; Client.SendMessage false m) cl).
  { induction k as [|x k IH]; intros cl.
    - simpl. go_unfold. by destruct (Client.SendMessage false m cl) as [[[]| |] ?].
    - cbn [app sendAll]. go_unfold.
      destruct (Client.SendMessage false x cl) as [[] cl1]; done. }
  rewrite Happ. go_unfold. rewrite Hall. rewrite Client_SendMessage_full; [done|done|].
  unfold Go.full. simpl. apply negb_true_iff, Nat.ltb_ge. lia.
Qed.

Lemma X9_witness :
  sendAll false [msg1; msg2] (Client.newClient "0" "x") =
    (Go.Ok tt, Client.Build "2" "x" (Go.Chan [msg1; msg2] 1024 false)).
Proof.
  apply (proj1 (X9_new_client_buffers_1024_messages "0" "x" [msg1; msg2]
                  ltac:(simpl; lia))).
Defined.

(** X10.  From broadcast to the wire: after a broadcast to a named topic
    on a running server whose registry is in order, the streaming loop of
    a member that had room writes what its outbox held and then the
    broadcast message, each with the configured retry interval, and stays
    parked for the next message. *)
Theorem X10_broadcast_message_reaches_the_stream env name message s ch c cl w :
  running s → registry_ok s → name ≠ "" → Server.channels s !! name = Some ch →
  is_Some (Channel.clients ch !! c) → Server.mem s !! c = Some cl →
  Go.full (Client.send cl) = false →
  ∃ s' st, Server.SendMessage env name message s = (Go.Ok None, s') ∧
           Server.streamLoop (S (Server.outboxLen c s')) false c (s', w) = (Go.Block, st) ∧
           Http.body st.2 =
             Http.body w ++
             ((λ m, Http.Event m (RetryInterval (Server.options s)))
                <$> (Go.buf (Client.send cl) ++ [message])).
Proof.
  intros (Hs & _) Hok Hne Hch [b Hb] Hcl Hroom.
  destruct (on_channel_SendMessage_state env message s name ch Hch)
    as (d & s' & Hrun & Hctl & _ & Hin & _).
  { by eapply registry_ok_members. }
  assert (Hopt : Server.options s' = Server.options s).
  { unfold ctl in Hctl. by injection Hctl. }
  destruct (registry_ok_members _ _ _ Hok Hch c b Hb) as (_ & cl' & Hcl' & Hopen).
  rewrite Hcl in Hcl'. injection Hcl' as <-.
  assert (Hc : Server.mem s' !! c = Some (enqueued message cl)).
  { rewrite Hin, Hcl by by eexists. simpl.
    by destruct (offer_room env message c cl Hopen Hroom) as [-> _]. }
  destruct (streamLoop_spec (S (Server.outboxLen c s')) c s' w _ Hc) as (st & Hst & Hbody & _).
  { unfold Server.outboxLen. rewrite Hc. lia. }
  exists s', st. split; [|split].
  - by eapply SendMessage_named.
  - exact Hst.
  - rewrite Hbody, Hopt. reflexivity.
Qed.

Lemma X10_witness :
  ∃ s' st, Server.SendMessage never "CH-2" msg2 demo = (Go.Ok None, s') ∧
           Server.streamLoop (S (Server.outboxLen 2 s')) false 2
             (s', Http.Build_ResponseWriter ∅ None [] true) = (Go.Block, st) ∧
           Http.body st.2 = [Http.Event msg2 0].
Proof.
  destruct (X10_broadcast_message_reaches_the_stream never "CH-2" msg2 demo
              (Channel.Build "" "CH-2" {[ 2 := true ]}) 2 (tiny "CH-2" [])
              (Http.Build_ResponseWriter ∅ None [] true))
    as (s' & st & Hrun & Hst & Hbody).
  - by repeat split.
  - apply registry_okb_sound. vm_compute. reflexivity.
  - discriminate.
  - reflexivity.
  - exists true. reflexivity.
  - reflexivity.
  - reflexivity.
  - exists s', st. exact (conj Hrun (conj Hst Hbody)).
Defined.

Lemma set_clients_id ch : Channel.set_clients (Channel.clients ch) ch = ch.
Proof. by destruct ch. Qed.

(** Under the registry invariant a member sits in the channel of its
    own topic. *)
Lemma member_topic s c cl :
  registry_ok s → Server.mem s !! c = Some cl → member s c →
  ∃ ch, Server.channels s !! Client.channel cl = Some ch ∧ is_Some (Channel.clients ch !! c).
Proof.
  intros Hok Hc (n & ch & Hn & [b Hb]).
  destruct (Hok _ _ Hn) as [_ Hm]. destruct (Hm _ _ Hb) as (_ & cl' & Hc' & _ & <-).
  rewrite Hc in Hc'. injection Hc' as <-. exists ch. split; [done|by exists b].
Qed.

(** X11.  Admission and removal undo each other.  When the control loop
    admits a live connection that is in no channel, and the topic has no
    channel or one with members, then the topic has a channel with the
    connection in it; and when the loop then removes the connection, the
    channel map is exactly what it was before the admission, and the
    connection's outbox is closed. *)
Theorem X11_admission_then_removal_restores_the_registry s c cl :
  registry_ok s → Server.mem s !! c = Some cl → Go.closed (Client.send cl) = false →
  ¬ member s c →
  (∀ ch, Server.channels s !! Client.channel cl = Some ch → Channel.clients ch ≠ ∅) →
  ∃ s1 s2, Server.dispatch_addClient c s = (Go.Ok tt, s1) ∧
           Server.HasChannel (Client.channel cl) s1 = true ∧ member s1 c ∧
           Server.dispatch_removeClient c s1 = (Go.Ok tt, s2) ∧
           Server.channels s2 = Server.channels s ∧
           Server.mem s2 = <[c := closed_outbox cl]> (Server.mem s) ∧
           ctl s2 = ctl s.
Proof.
  intros Hok Hc Hopen Hnm Hne.
  destruct (dispatch_addClient_ok s c cl Hc) as (s1 & Hadd & Hctl1 & Hmem1 & Hch1). simpl in *.
  set (ch0 := default (Channel.newChannel (Client.channel cl))
                (Server.channels s !! Client.channel cl)) in *.
  set (ch1 := Channel.set_clients (<[c:=true]> (Channel.clients ch0)) ch0) in *.
  assert (Hok1 : registry_ok s1) by by eapply registry_ok_addClient.
  assert (Hl1 : Server.channels s1 !! Client.channel cl = Some ch1).
  { by rewrite Hch1, lookup_insert_eq. }
  assert (Hc1 : Server.mem s1 !! c = Some cl) by by rewrite Hmem1.
  assert (Hin1 : is_Some (Channel.clients ch1 !! c)).
  { simpl. rewrite lookup_insert_eq. by eexists. }
  destruct (dispatch_removeClient_ok s1 c cl ch1 Hok1 Hc1 Hl1 Hin1)
    as (s2 & Hrm & Hctl2 & Hmem2 & Hch2). simpl in *.
  assert (Hnot : Channel.clients ch0 !! c = None).
  { subst ch0. destruct (Server.channels s !! Client.channel cl) as [ch|] eqn:Hch; simpl.
    - apply eq_None_not_Some. intros Hin. apply Hnm. by exists (Client.channel cl), ch.
    - apply lookup_empty. }
  assert (Hrest : delete c (<[c:=true]> (Channel.clients ch0)) = Channel.clients ch0).
  { rewrite delete_insert_eq. by apply delete_id. }
  rewrite Hrest in Hch2.
  exists s1, s2. split; [done|]. split.
  { unfold Server.HasChannel. rewrite Hl1. by apply bool_decide_eq_true_2. }
  split; [by exists (Client.channel cl), ch1|]. split; [done|].
  split; [|split; [by rewrite Hmem2, Hmem1 | by rewrite Hctl2]].
  rewrite Hch2, Hch1. subst ch0.
  destruct (Server.channels s !! Client.channel cl) as [ch|] eqn:Hch; simpl in *.
  - rewrite decide_False by by apply Hne. rewrite insert_insert_eq.
    subst ch1. unfold Channel.set_clients. simpl.
    destruct ch as [l n cs]. simpl. by apply insert_id.
  - rewrite decide_True by done. rewrite delete_insert_eq. by apply delete_id.
Qed.

Lemma X11_witness :
  ∃ s1 s2, Server.dispatch_addClient 7
             (Server.set_mem (<[7 := Client.newClient "" "CH-3"]> (Server.mem demo)) demo)
           = (Go.Ok tt, s1) ∧
           Server.HasChannel "CH-3" s1 = true ∧
           Server.dispatch_removeClient 7 s1 = (Go.Ok tt, s2) ∧
           Server.channels s2 = Server.channels demo.
Proof.
  destruct (X11_admission_then_removal_restores_the_registry
              (Server.set_mem (<[7 := Client.newClient "" "CH-3"]> (Server.mem demo)) demo)
              7 (Client.newClient "" "CH-3"))
    as (s1 & s2 & Hadd & Hhas & _ & Hrm & Hch & _).
  - apply registry_okb_sound. vm_compute. reflexivity.
  - reflexivity.
  - reflexivity.
  - intros Hm. apply (member_topic _ 7 (Client.newClient "" "CH-3")) in Hm as (ch & Hn & _).
    + vm_compute in Hn. discriminate.
    + apply registry_okb_sound. vm_compute. reflexivity.
    + reflexivity.
  - intros ch Hn. vm_compute in Hn. discriminate.
  - exists s1, s2. exact (conj Hadd (conj Hhas (conj Hrm Hch))).
Defined.

(** The count of [Server.ClientCount] as a sum over the channel map. *)
Lemma ClientCount_sum s :
  Server.ClientCount s =
  sum_list_with (λ e, size (Channel.clients e.2)) (map_to_list (Server.channels s)).
Proof.
  unfold Server.ClientCount, Channel.ClientCount.
  induction (map_to_list (Server.channels s)) as [|e l IH]; [done|].
  cbn [fmap list_fmap foldr sum_list_with]. rewrite IH. lia.
Qed.

Lemma ClientCount_insert_None s s' k v :
  Server.channels s !! k = None → Server.channels s' = <[k := v]> (Server.channels s) →
  Server.ClientCount s' = size (Channel.clients v) + Server.ClientCount s.
Proof.
  intros Hk Hs'. rewrite !ClientCount_sum, Hs'.
  by rewrite (sum_list_with_Permutation_proper _ _ _ (map_to_list_insert _ _ _ Hk)).
Qed.

Lemma ClientCount_delete s s' k v :
  Server.channels s !! k = Some v → Server.channels s' = delete k (Server.channels s) →
  Server.ClientCount s = size (Channel.clients v) + Server.ClientCount s'.
Proof.
  intros Hk Hs'. rewrite !ClientCount_sum, Hs'.
  by rewrite <- (sum_list_with_Permutation_proper _ _ _ (map_to_list_delete _ _ _ Hk)).
Qed.

Lemma ClientCount_insert_Some s s' k v0 v :
  Server.channels s !! k = Some v0 → Server.channels s' = <[k := v]> (Server.channels s) →
  Server.ClientCount s' + size (Channel.clients v0) =
  size (Channel.clients v) + Server.ClientCount s.
Proof.
  intros Hk Hs'.
  set (s0 := Server.set_channels (delete k (Server.channels s)) s).
  rewrite (ClientCount_delete s s0 k v0 Hk eq_refl).
  rewrite (ClientCount_insert_None s0 s' k v).
  - lia.
  - apply lookup_delete_eq.
  - simpl. by rewrite insert_delete_eq.
Qed.

(** Admitting a connection that is in no channel adds one to the count. *)
Lemma ClientCount_admitted s c cl :
  Server.mem s !! c = Some cl → ¬ member s c →
  ∃ s1, Server.dispatch_addClient c s = (Go.Ok tt, s1) ∧
        Server.ClientCount s1 = S (Server.ClientCount s).
Proof.
  intros Hc Hnm.
  destruct (dispatch_addClient_ok s c cl Hc) as (s1 & Hadd & _ & _ & Hch1). simpl in Hch1.
  exists s1. split; [done|].
  destruct (Server.channels s !! Client.channel cl) as [ch|] eqn:Hch; simpl in Hch1.
  - assert (Hnot : Channel.clients ch !! c = None).
    { apply eq_None_not_Some. intros Hin. apply Hnm. by exists (Client.channel cl), ch. }
    pose proof (ClientCount_insert_Some s s1 _ ch _ Hch Hch1) as Hcount. simpl in Hcount.
    rewrite map_size_insert_None in Hcount by done. lia.
  - pose proof (ClientCount_insert_None s s1 _ _ Hch Hch1) as Hcount. simpl in Hcount.
    rewrite insert_empty, map_size_singleton in Hcount. lia.
Qed.

(** X12.  [ClientCount] follows the control loop: admitting a connection
    that is in no channel adds one to the count; admitting one that is
    already a member leaves the count as it is; removing a member takes
    one off. *)
Theorem X12_ClientCount_follows_admission_and_removal s c cl :
  registry_ok s → Server.mem s !! c = Some cl →
  (¬ member s c →
     ∃ s1, Server.dispatch_addClient c s = (Go.Ok tt, s1) ∧
           Server.ClientCount s1 = S (Server.ClientCount s)) ∧
  (member s c →
     ∃ s1 s2, Server.dispatch_addClient c s = (Go.Ok tt, s1) ∧
              Server.ClientCount s1 = Server.ClientCount s ∧
              Server.dispatch_removeClient c s = (Go.Ok tt, s2) ∧
              S (Server.ClientCount s2) = Server.ClientCount s).
Proof.
  intros Hok Hc.
  destruct (dispatch_addClient_ok s c cl Hc) as (s1 & Hadd & _ & _ & Hch1). simpl in Hch1.
  split.
  - intros Hnm. by apply (ClientCount_admitted s c cl).
  - intros Hm. destruct (member_topic s c cl Hok Hc Hm) as (ch & Hch & [b Hb]).
    destruct (dispatch_removeClient_ok s c cl ch Hok Hc Hch) as (s2 & Hrm & _ & _ & Hch2).
    { by exists b. }
    simpl in Hch2. exists s1, s2. rewrite Hch in Hch1. simpl in Hch1.
    split; [done|]. split; [|split; [done|]].
    + pose proof (ClientCount_insert_Some s s1 _ ch _ Hch Hch1) as Hcount. simpl in Hcount.
      rewrite map_size_insert_Some in Hcount by by exists b. lia.
    + assert (Hsize : size (Channel.clients ch) = S (size (delete c (Channel.clients ch)))).
      { rewrite map_size_delete, Hb.
        assert (size (Channel.clients ch) ≠ 0); [|lia].
        apply (map_size_ne_0_lookup_2 _ c). by exists b. }
      case_decide as He.
      * pose proof (ClientCount_delete s s2 _ ch Hch Hch2) as Hcount.
        rewrite He, map_size_empty in Hsize. lia.
      * pose proof (ClientCount_insert_Some s s2 _ ch _ Hch Hch2) as Hcount. simpl in Hcount.
        lia.
Qed.

Lemma X12_witness :
  ∃ s1 s2, Server.dispatch_addClient 2 demo = (Go.Ok tt, s1) ∧
           Server.ClientCount s1 = 3 ∧
           Server.dispatch_removeClient 2 demo = (Go.Ok tt, s2) ∧
           Server.ClientCount s2 = 2.
Proof.
  destruct (X12_ClientCount_follows_admission_and_removal demo 2 (tiny "CH-2" []))
    as [_ Hin].
  - apply registry_okb_sound. vm_compute. reflexivity.
  - reflexivity.
  - destruct Hin as (s1 & s2 & Hadd & Hn1 & Hrm & Hn2).
    + exists "CH-2", (Channel.Build "" "CH-2" {[ 2 := true ]}).
      split; [reflexivity|]. exists true. reflexivity.
    + exists s1, s2. refine (conj Hadd (conj _ (conj Hrm _))).
      * rewrite Hn1. vm_compute. reflexivity.
      * apply eq_add_S. rewrite Hn2. vm_compute. reflexivity.
Defined.

(** The removal case on any connection with an open outbox whose topic
    has a channel, member of it or not. *)
Lemma dispatch_removeClient_open s c cl ch :
  Server.mem s !! c = Some cl → Go.closed (Client.send cl) = false →
  Server.channels s !! Client.channel cl = Some ch → Channel.name ch = Client.channel cl →
  let topic := Client.channel cl in
  let rest := delete c (Channel.clients ch) in
  ∃ s', Server.dispatch_removeClient c s = (Go.Ok tt, s') ∧ ctl s' = ctl s ∧
        Server.mem s' = <[c := closed_outbox cl]> (Server.mem s) ∧
        Server.channels s' =
          if decide (rest = ∅) then delete topic (Server.channels s)
          else <[topic := Channel.set_clients rest ch]> (Server.channels s).
Proof.
  intros Hc Hopen Hch Hname topic rest.
  unfold Server.dispatch_removeClient, Server.on_mem, deref, Server.getChannel.
  go_unfold. simpl. rewrite Hc. simpl. rewrite insert_id by done. rewrite Hch.
  unfold Server.on_channel at 1. simpl. rewrite Hch.
  rewrite (removeClient_live _ _ _ _ Hc Hopen).
  unfold Server.on_channel at 1. simpl. rewrite lookup_insert_eq. simpl.
  rewrite insert_insert_eq. fold topic rest.
  unfold Channel.ClientCount. simpl. fold rest.
  case_bool_decide as Hsize.
  - apply map_size_empty_iff in Hsize. rewrite decide_True by done.
    match goal with
    | |- context [Server.removeChannel ?ch1 ?s1] =>
        destruct (removeChannel_ok s1 ch1) as (h' & Hrun & _ & Hsame)
    end.
    { intros c' b'. simpl. rewrite Hsize, lookup_empty. done. }
    rewrite Hrun. eexists. split; [done|]. simpl. repeat split.
    + apply map_eq. intros c'. apply Hsame. simpl. by rewrite Hsize, lookup_empty.
    + rewrite Hname. fold topic. by rewrite delete_insert_eq.
  - rewrite decide_False by (by rewrite <- map_size_empty_iff).
    eexists. split; [done|]. by repeat split.
Qed.

(** The registry invariant after the outbox of [c] was closed and [c]
    taken out of the channel of its topic. *)
Lemma registry_ok_removed s s' c cl ch :
  registry_ok s → Server.mem s !! c = Some cl →
  Server.channels s !! Client.channel cl = Some ch →
  Server.mem s' = <[c := closed_outbox cl]> (Server.mem s) →
  Server.channels s' =
    (if decide (delete c (Channel.clients ch) = ∅)
     then delete (Client.channel cl) (Server.channels s)
     else <[Client.channel cl := Channel.set_clients (delete c (Channel.clients ch)) ch]>
            (Server.channels s)) →
  registry_ok s'.
Proof.
  intros Hok Hc Hch Hmem Hchs.
  assert (Hother : ∀ name ch' c' b, Server.channels s !! name = Some ch' →
            Channel.clients ch' !! c' = Some b → c' ≠ c →
            b = true ∧ ∃ cl', Server.mem s' !! c' = Some cl' ∧
                              Go.closed (Client.send cl') = false ∧ Client.channel cl' = name).
  { intros name ch' c' b Hn Hb Hne. destruct (Hok _ _ Hn) as [_ Hm].
    rewrite Hmem, lookup_insert_ne by done. by apply Hm. }
  assert (Htopic : ∀ name ch' b, Server.channels s !! name = Some ch' →
            Channel.clients ch' !! c = Some b → name = Client.channel cl).
  { intros name ch' b Hn Hb. destruct (Hok _ _ Hn) as [_ Hm].
    destruct (Hm _ _ Hb) as (_ & cl' & Hc' & _ & <-). congruence. }
  intros name ch' Hname. rewrite Hchs in Hname. case_decide as He.
  - apply lookup_delete_Some in Hname as [Hne Hname].
    destruct (Hok _ _ Hname) as [Hn _]. split; [done|]. intros c' b Hb.
    apply (Hother name ch'); [done..|]. intros ->. apply Hne. symmetry. by eapply Htopic.
  - destruct (decide (name = Client.channel cl)) as [->|Hne].
    + rewrite lookup_insert_eq in Hname. injection Hname as <-. simpl.
      destruct (Hok _ _ Hch) as [Hn _]. split; [done|]. intros c' b Hb.
      apply lookup_delete_Some in Hb as [Hne Hb]. apply (Hother _ ch); done.
    + rewrite lookup_insert_ne in Hname by done.
      destruct (Hok _ _ Hname) as [Hn _]. split; [done|]. intros c' b Hb.
      apply (Hother name ch'); [done..|]. intros ->. apply Hne. by eapply Htopic.
Qed.

(** The registry invariant does not read the control channels. *)
Lemma registry_ok_ctl s s' :
  Server.mem s' = Server.mem s → Server.channels s' = Server.channels s →
  registry_ok s → registry_ok s'.
Proof. unfold registry_ok. intros -> ->. done. Qed.

(** X13.  The registry invariant is kept by every turn of the control
    loop that returns: when each channel is stored under its name, its
    members have open outboxes and the channel's name as topic, and the
    connection waiting at the head of the admission queue has an open
    outbox, then the same holds of the registry after the turn. *)
Theorem X13_loop_turn_keeps_the_registry_invariant q s s' :
  registry_ok s →
  (∀ c, head (Go.buf (Server.addClient s)) = Some c → live (Server.mem s) c) →
  Server.dispatch q s = (Go.Ok tt, s') → registry_ok s'.
Proof.
  intros Hok Hlive Hrun. destruct q.
  - destruct (Go.buf (Server.addClient s)) as [|c qa] eqn:Hq.
    { revert Hrun. unfold Server.dispatch, Go.recv. go_unfold. simpl. rewrite Hq.
      by destruct (Go.closed (Server.addClient s)). }
    rewrite (dispatch_AddClient s c qa Hq) in Hrun.
    destruct (Hlive c eq_refl) as (cl & Hc & Hopen).
    set (s0 := Server.set_addClient _ s) in *.
    refine (registry_ok_addClient s0 c cl s' _ Hc Hopen Hrun).
    by apply (registry_ok_ctl s).
  - destruct (Go.buf (Server.removeClient s)) as [|c qr] eqn:Hq.
    { revert Hrun. unfold Server.dispatch, Go.recv. go_unfold. simpl. rewrite Hq.
      by destruct (Go.closed (Server.removeClient s)). }
    rewrite (dispatch_RemoveClient s c qr Hq) in Hrun.
    set (s0 := Server.set_removeClient _ s) in *.
    assert (Hok0 : registry_ok s0) by by apply (registry_ok_ctl s).
    destruct (Server.mem s !! c) as [cl|] eqn:Hc.
    2:{ revert Hrun. unfold Server.dispatch_removeClient, Server.on_mem, deref.
        go_unfold. simpl. by rewrite Hc. }
    destruct (Server.channels s !! Client.channel cl) as [ch|] eqn:Hch.
    2:{ rewrite (dispatch_removeClient_absent s0 c cl) in Hrun by done.
        by injection Hrun as <-. }
    destruct (Go.closed (Client.send cl)) eqn:Hopen.
    { pose proof (dispatch_removeClient_stale s0 c cl ch Hc Hch Hopen) as Hp.
      by rewrite Hrun in Hp. }
    destruct (Hok _ _ Hch) as [Hname _].
    destruct (dispatch_removeClient_open s0 c cl ch Hc Hopen Hch Hname)
      as (s1 & Hrun' & _ & Hmem & Hchs).
    simpl in *. rewrite Hrun in Hrun'. injection Hrun' as <-.
    by apply (registry_ok_removed s0 s' c cl ch).
Qed.

Lemma X13_witness :
  ∃ s', Server.dispatch Server.AddClient (demo_racing "CH-3") = (Go.Ok tt, s') ∧ registry_ok s'.
Proof.
  exists (Server.dispatch Server.AddClient (demo_racing "CH-3")).2.
  assert (Hrun : Server.dispatch Server.AddClient (demo_racing "CH-3") =
                 (Go.Ok tt, (Server.dispatch Server.AddClient (demo_racing "CH-3")).2)).
  { vm_compute. reflexivity. }
  split; [exact Hrun|].
  apply (X13_loop_turn_keeps_the_registry_invariant Server.AddClient (demo_racing "CH-3")).
  - apply registry_okb_sound. vm_compute. reflexivity.
  - intros c Hc. injection Hc as <-. exists (Client.newClient "" "CH-3").
    split; reflexivity.
  - exact Hrun.
Defined.

(** The flag and the other queue after a turn of the loop. *)
Lemma ctl_fields s s' :
  ctl s' = ctl s →
  Server.addClient s' = Server.addClient s ∧ Server.removeClient s' = Server.removeClient s ∧
  Server.isStarted s' = Server.isStarted s ∧ Server.options s' = Server.options s.
Proof. unfold ctl. intros H. by injection H. Qed.

(** X14.  The loop may take the removal of a connection before its
    admission (both queues are buffered, and [select] takes either).
    When the topic has no channel, the removal does nothing and the
    admission then registers the connection: it stays a member with an
    open outbox, counted by [ClientCount], and nothing is left queued
    that would remove it. *)
Theorem X14_removal_before_admission_leaves_the_connection_registered s c cl qa qr :
  registry_ok s → Server.mem s !! c = Some cl → Go.closed (Client.send cl) = false →
  Server.channels s !! Client.channel cl = None →
  Go.buf (Server.addClient s) = c :: qa → Go.buf (Server.removeClient s) = c :: qr →
  ∃ s1 s2, Server.dispatch Server.RemoveClient s = (Go.Ok tt, s1) ∧
           Server.dispatch Server.AddClient s1 = (Go.Ok tt, s2) ∧
           registry_ok s2 ∧ member s2 c ∧ Server.mem s2 = Server.mem s ∧
           Server.ClientCount s2 = S (Server.ClientCount s) ∧
           Go.buf (Server.addClient s2) = qa ∧ Go.buf (Server.removeClient s2) = qr.
Proof.
  intros Hok Hc Hopen Hch Hqa Hqr.
  rewrite (dispatch_RemoveClient s c qr Hqr).
  set (s1 := Server.set_removeClient _ s).
  rewrite (dispatch_removeClient_absent s1 c cl Hc Hch).
  assert (Hqa1 : Go.buf (Server.addClient s1) = c :: qa) by done.
  exists s1. rewrite (dispatch_AddClient s1 c qa Hqa1).
  set (s1' := Server.set_addClient _ s1).
  destruct (dispatch_addClient_ok s1' c cl Hc) as (s2 & Hadd & Hctl & Hmem & Hchs).
  simpl in Hchs. rewrite Hch in Hchs. simpl in Hchs.
  destruct (ctl_fields _ _ Hctl) as (Ha & Hr & _).
  assert (Hok1 : registry_ok s1') by by apply (registry_ok_ctl s).
  exists s2. split; [done|]. split; [done|]. split; [|split; [|split; [|split; [|split]]]].
  - by apply (registry_ok_addClient s1' c cl).
  - exists (Client.channel cl). eexists. rewrite Hchs, lookup_insert_eq. split; [done|].
    simpl. rewrite lookup_insert_eq. by eexists.
  - done.
  - rewrite (ClientCount_insert_None s s2 _ _ Hch Hchs). simpl.
    by rewrite insert_empty, map_size_singleton.
  - by rewrite Ha.
  - by rewrite Hr.
Qed.

(** X15.  When the topic has a channel, the removal taken before the
    admission closes the outbox of the connection although it is no
    member, and the admission then registers it with its outbox closed:
    the next broadcast to that topic panics with a send on a closed
    channel. *)
Theorem X15_removal_before_admission_crashes_the_next_broadcast
    env message s c cl ch qa qr :
  running s → registry_ok s →
  Server.mem s !! c = Some cl → Go.closed (Client.send cl) = false →
  Server.channels s !! Client.channel cl = Some ch → Channel.clients ch !! c = None →
  Client.channel cl ≠ "" →
  Go.buf (Server.addClient s) = c :: qa → Go.buf (Server.removeClient s) = c :: qr →
  ∃ s1 s2, Server.dispatch Server.RemoveClient s = (Go.Ok tt, s1) ∧
           Server.dispatch Server.AddClient s1 = (Go.Ok tt, s2) ∧
           member s2 c ∧ Server.mem s2 !! c = Some (closed_outbox cl) ∧
           (Server.SendMessage env (Client.channel cl) message s2).1 =
             Go.Panic "send on closed channel".
Proof.
  intros (Hs & _) Hok Hc Hopen Hch Hnot Hne Hqa Hqr.
  destruct (Hok _ _ Hch) as [Hname Hm].
  rewrite (dispatch_RemoveClient s c qr Hqr).
  set (s0 := Server.set_removeClient _ s).
  destruct (dispatch_removeClient_open s0 c cl ch Hc Hopen Hch Hname)
    as (s1 & Hrm & Hctl1 & Hmem1 & Hch1).
  simpl in Hmem1, Hch1. rewrite (delete_id _ _ Hnot) in Hch1.
  destruct (ctl_fields _ _ Hctl1) as (Ha1 & _ & Hs1 & _).
  assert (Hqa1 : Go.buf (Server.addClient s1) = c :: qa) by by rewrite Ha1.
  exists s1. rewrite (dispatch_AddClient s1 c qa Hqa1).
  set (s1' := Server.set_addClient _ s1).
  assert (Hc1 : Server.mem s1' !! c = Some (closed_outbox cl)).
  { simpl. by rewrite Hmem1, lookup_insert_eq. }
  destruct (dispatch_addClient_ok s1' c _ Hc1) as (s2 & Hadd & Hctl2 & Hmem2 & Hch2).
  simpl in Hmem2, Hch2.
  destruct (ctl_fields _ _ Hctl2) as (_ & _ & Hs2 & _).
  set (ch0 := default (Channel.newChannel (Client.channel cl))
                (Server.channels s1 !! Client.channel cl)) in *.
  assert (Hsub : ∀ c' b, Channel.clients ch0 !! c' = Some b → Channel.clients ch !! c' = Some b).
  { intros c' b. subst ch0. rewrite Hch1. case_decide as He.
    - rewrite lookup_delete_eq. simpl. by rewrite lookup_empty.
    - rewrite lookup_insert_eq. simpl. by destruct ch. }
  assert (Hl2 : Server.channels s2 !! Client.channel cl =
                Some (Channel.set_clients (<[c:=true]> (Channel.clients ch0)) ch0)).
  { by rewrite Hch2, lookup_insert_eq. }
  assert (Hin2 : is_Some (Channel.clients
                   (Channel.set_clients (<[c:=true]> (Channel.clients ch0)) ch0) !! c)).
  { simpl. rewrite lookup_insert_eq. by eexists. }
  assert (Hc2 : Server.mem s2 !! c = Some (closed_outbox cl)) by by rewrite Hmem2.
  exists s2. split; [done|]. split; [done|]. split; [|split; [done|]].
  { by eexists _, _. }
  eapply SendMessage_closed_member; [| exact Hne | exact Hl2 | | exact Hin2 | exact Hc2 | done].
  - rewrite Hs2. simpl. by rewrite Hs1.
  - intros c' b. simpl. intros [[<- <-]|[Hne' Hb]]%lookup_insert_Some.
    + split; [done|]. by rewrite Hc2.
    + apply Hsub in Hb. destruct (Hm _ _ Hb) as (-> & cl' & Hc' & _). split; [done|].
      rewrite Hmem2. simpl. rewrite Hmem1, lookup_insert_ne by done. simpl. by rewrite Hc'.
Qed.

Lemma X14_witness :
  ∃ s1 s2, Server.dispatch Server.RemoveClient (demo_racing "CH-3") = (Go.Ok tt, s1) ∧
           Server.dispatch Server.AddClient s1 = (Go.Ok tt, s2) ∧
           Server.ClientCount s2 = 4 ∧ Go.buf (Server.removeClient s2) = [].
Proof.
  destruct (X14_removal_before_admission_leaves_the_connection_registered
              (demo_racing "CH-3") 7 (Client.newClient "" "CH-3") [] [])
    as (s1 & s2 & Hrm & Hadd & _ & _ & _ & Hn & _ & Hq).
  - apply registry_okb_sound. vm_compute. reflexivity.
  - reflexivity.
  - reflexivity.
  - reflexivity.
  - reflexivity.
  - reflexivity.
  - exists s1, s2. exact (conj Hrm (conj Hadd (conj Hn Hq))).
Defined.

Lemma X15_witness :
  ∃ s1 s2, Server.dispatch Server.RemoveClient (demo_racing "CH-2") = (Go.Ok tt, s1) ∧
           Server.dispatch Server.AddClient s1 = (Go.Ok tt, s2) ∧
           (Server.SendMessage never "CH-2" msg1 s2).1 = Go.Panic "send on closed channel".
Proof.
  destruct (X15_removal_before_admission_crashes_the_next_broadcast never msg1
              (demo_racing "CH-2") 7 (Client.newClient "" "CH-2")
              (Channel.Build "" "CH-2" {[ 2 := true ]}) [] [])
    as (s1 & s2 & Hrm & Hadd & _ & _ & Hp).
  - by repeat split.
  - apply registry_okb_sound. vm_compute. reflexivity.
  - reflexivity.
  - reflexivity.
  - reflexivity.
  - reflexivity.
  - discriminate.
  - reflexivity.
  - reflexivity.
  - exists s1, s2. exact (conj Hrm (conj Hadd Hp)).
Defined.

(** The server after a [GET] request was queued for admission. *)
Lemma ServeHTTP_GET_queued hasHeaders canon pick r s w :
  Server.isStarted s = true → Http.flusher w = true →
  Http.Method r = "GET" → Http.cancelled r = false →
  Go.closed (Server.addClient s) = false → Go.full (Server.addClient s) = false →
  let c := fresh (dom (Server.mem s)) in
  ∃ st, Server.ServeHTTP hasHeaders canon pick r (s, w) = (Go.Block, st) ∧
        Server.mem st.1 =
          <[c := Client.newClient (Http.LastEventID r) (topic_of s r)]> (Server.mem s) ∧
        Go.buf (Server.addClient st.1) = Go.buf (Server.addClient s) ++ [c] ∧
        Server.channels st.1 = Server.channels s ∧
        Server.isStarted st.1 = true ∧
        Server.removeClient st.1 = Server.removeClient s ∧
        Http.status st.2 = Some (default Http.StatusOK (Http.status w)) ∧
        Http.body st.2 = Http.body w.
Proof.
  intros Hs Hf Hm Hc Hopen Hroom c.
  rewrite ServeHTTP_started by done. rewrite Hm, Hc. simpl.
  unfold Server.on_w, Server.on_srv, Server.on_mem, alloc, Server.selectAdd, Http.Header_Set,
    Http.WriteHeader, Http.Flush, Http.WriteHeader, Go.defer, Server.outboxLen, deref, Go.send, Go.recv.
  go_unfold. simpl. rewrite Hopen, Hroom. simpl.
  rewrite lookup_insert_eq. simpl.
  eexists. split; [done|]. simpl. rewrite insert_insert_eq.
  destruct (with_headers_frame hasHeaders canon s w) as (-> & -> & _). by repeat split.
Qed.

(** A connection that is not in the heap is in no channel. *)
Lemma fresh_not_member s c :
  registry_ok s → Server.mem s !! c = None → ¬ member s c.
Proof.
  intros Hok Hc (n & ch & Hn & [b Hb]). destruct (Hok _ _ Hn) as [_ Hm].
  destruct (Hm _ _ Hb) as (_ & cl & Hc' & _). congruence.
Qed.

Lemma registry_ok_alloc s s' c cl :
  registry_ok s → Server.mem s !! c = None →
  Server.mem s' = <[c := cl]> (Server.mem s) → Server.channels s' = Server.channels s →
  registry_ok s'.
Proof.
  intros Hok Hc Hmem Hch n ch Hn. rewrite Hch in Hn. destruct (Hok _ _ Hn) as [Hname Hm].
  split; [done|]. intros c' b Hb. destruct (Hm _ _ Hb) as (-> & cl' & Hc' & Hrest).
  split; [done|]. exists cl'. rewrite Hmem, lookup_insert_ne; [done|]. congruence.
Qed.

(** X16.  A [GET] request on a running server with an empty admission
    queue: the handler answers 200 and parks on the new connection's
    outbox, with the connection queued; the next turn of the control loop
    registers it in the channel of the request's topic, which exists from
    then on, and [ClientCount] has grown by one. *)
Theorem X16_GET_request_joins_its_topic hasHeaders canon pick r s w :
  running s → registry_ok s → Server.addClient s = Go.make 256 →
  Http.flusher w = true → Http.Method r = "GET" → Http.cancelled r = false →
  let c := fresh (dom (Server.mem s)) in
  ∃ st s', Server.ServeHTTP hasHeaders canon pick r (s, w) = (Go.Block, st) ∧
           Http.status st.2 = Some (default Http.StatusOK (Http.status w)) ∧
           Http.body st.2 = Http.body w ∧
           Server.dispatch Server.AddClient st.1 = (Go.Ok tt, s') ∧
           registry_ok s' ∧ member s' c ∧
           Server.HasChannel (topic_of s r) s' = true ∧
           Server.ClientCount s' = S (Server.ClientCount s) ∧
           Server.mem s' !! c = Some (Client.newClient (Http.LastEventID r) (topic_of s r)).
Proof.
  intros (Hs & _) Hok Hq Hf Hm Hc c.
  destruct (ServeHTTP_GET_queued hasHeaders canon pick r s w Hs Hf Hm Hc)
    as (st & Hrun & Hmem & Hbuf & Hch & Hs' & _ & Hst & Hbody); [by rewrite Hq..|].
  fold c in Hmem, Hbuf. rewrite Hq in Hbuf. simpl in Hbuf.
  assert (Hfresh : Server.mem s !! c = None).
  { apply not_elem_of_dom. apply is_fresh. }
  set (cl := Client.newClient (Http.LastEventID r) (topic_of s r)) in *.
  assert (Hok1 : registry_ok st.1) by by apply (registry_ok_alloc s _ c cl).
  assert (Hnm : ¬ member st.1 c).
  { intros (n & ch & Hn & Hin). apply (fresh_not_member s c Hok Hfresh).
    exists n, ch. by rewrite <- Hch. }
  pose proof (dispatch_AddClient st.1 c [] Hbuf) as Hturn.
  set (s1 := Server.set_addClient _ st.1) in *.
  assert (Hc1 : Server.mem s1 !! c = Some cl) by (simpl; by rewrite Hmem, lookup_insert_eq).
  assert (Hok1' : registry_ok s1) by by apply (registry_ok_ctl st.1).
  destruct (ClientCount_admitted s1 c cl Hc1) as (s' & Hadd & Hcount).
  { intros (n & ch & Hn & Hin). apply Hnm. by exists n, ch. }
  destruct (dispatch_addClient_ok s1 c cl Hc1) as (s'' & Hadd' & _ & Hmem' & Hch').
  rewrite Hadd in Hadd'. injection Hadd' as <-. simpl in Hch', Hmem'.
  exists st, s'. do 3 (split; [done|]). split; [by rewrite Hturn|].
  split; [|split; [|split; [|split]]].
  - by apply (registry_ok_addClient s1 c cl).
  - exists (topic_of s r). eexists. rewrite Hch'. split; [apply lookup_insert_eq|].
    simpl. rewrite lookup_insert_eq. by eexists.
  - unfold Server.HasChannel. apply bool_decide_eq_true_2. rewrite Hch'.
    rewrite lookup_insert_eq. by eexists.
  - rewrite Hcount. f_equal. rewrite !ClientCount_sum. simpl. by rewrite Hch.
  - by rewrite Hmem', Hmem, lookup_insert_eq.
Qed.

Lemma X16_witness :
  ∃ st s', Server.ServeHTTP (λ _, false) (λ k, k) false (Http.Build_Request "GET" "/news" "" false)
             (running0, Http.Build_ResponseWriter ∅ None [] true) = (Go.Block, st) ∧
           Http.status st.2 = Some Http.StatusOK ∧
           Server.dispatch Server.AddClient st.1 = (Go.Ok tt, s') ∧
           Server.HasChannel "/news" s' = true ∧ Server.ClientCount s' = 1.
Proof.
  destruct (X16_GET_request_joins_its_topic (λ _, false) (λ k, k) false
              (Http.Build_Request "GET" "/news" "" false) running0
              (Http.Build_ResponseWriter ∅ None [] true))
    as (st & s' & Hrun & Hst & _ & Hturn & _ & _ & Hhas & Hn & _).
  - by repeat split.
  - apply registry_okb_sound. vm_compute. reflexivity.
  - reflexivity.
  - reflexivity.
  - reflexivity.
  - reflexivity.
  - exists st, s'. exact (conj Hrun (conj Hst (conj Hturn (conj Hhas Hn)))).
Defined.

(** X17.  A connection whose channel was closed by [CloseChannel] keeps
    its closed outbox.  Once another connection of the same topic is
    admitted, the channel exists again, and the removal case that the
    closed connection's handler requests on its way out closes the
    outbox a second time: the control loop panics. *)
Theorem X17_removal_after_CloseChannel_and_rejoin_panics s c cl c2 cl2 :
  running s → registry_ok s →
  Server.mem s !! c = Some cl → member s c →
  Server.mem s !! c2 = Some cl2 → Go.closed (Client.send cl2) = false →
  Client.channel cl2 = Client.channel cl → ¬ member s c2 →
  ∃ s1 s2, Server.CloseChannel (Client.channel cl) s = (Go.Ok tt, s1) ∧
           Server.dispatch_addClient c2 s1 = (Go.Ok tt, s2) ∧
           Server.HasChannel (Client.channel cl) s2 = true ∧
           (Server.dispatch_removeClient c s2).1 = Go.Panic "close of closed channel".
Proof.
  intros Hrun Hok Hc Hm Hc2 Hopen2 Ht Hnm2.
  destruct (member_topic s c cl Hok Hc Hm) as (ch & Hch & Hin).
  rewrite CloseChannel_running by done.
  unfold Server.dispatch_closeChannel, Server.getChannel. go_unfold. rewrite Hch.
  destruct (removeChannel_ok s ch) as (h' & Hrm & Hcl & Hout).
  { by eapply registry_ok_members. }
  rewrite Hrm. eexists. 
  set (s1 := Server.set_mem h' _).
  assert (Hc2' : Server.mem s1 !! c2 = Some cl2).
  { simpl. rewrite Hout; [done|]. apply eq_None_not_Some. intros Hin2. apply Hnm2.
    exists (Client.channel cl), ch. by split. }
  destruct (dispatch_addClient_ok s1 c2 cl2 Hc2') as (s2 & Hadd & _ & Hmem2 & Hch2).
  simpl in Hmem2, Hch2. rewrite Ht in Hch2.
  exists s2. split; [done|]. split; [done|]. split.
  { unfold Server.HasChannel. apply bool_decide_eq_true_2.
    rewrite Hch2, lookup_insert_eq. by eexists. }
  eapply (dispatch_removeClient_stale s2 c (closed_outbox cl)).
  - rewrite Hmem2. by rewrite Hcl, Hc.
  - simpl. rewrite Hch2. apply lookup_insert_eq.
  - done.
Qed.

Lemma X17_witness :
  ∃ s1 s2, Server.CloseChannel "CH-1"
             (Server.set_mem (<[7 := Client.newClient "" "CH-1"]> (Server.mem demo)) demo)
           = (Go.Ok tt, s1) ∧
           Server.dispatch_addClient 7 s1 = (Go.Ok tt, s2) ∧
           (Server.dispatch_removeClient 1 s2).1 = Go.Panic "close of closed channel".
Proof.
  destruct (X17_removal_after_CloseChannel_and_rejoin_panics
              (Server.set_mem (<[7 := Client.newClient "" "CH-1"]> (Server.mem demo)) demo)
              1 (tiny "CH-1" []) 7 (Client.newClient "" "CH-1"))
    as (s1 & s2 & Hclose & Hadd & _ & Hp).
  - by repeat split.
  - apply registry_okb_sound. vm_compute. reflexivity.
  - reflexivity.
  - exists "CH-1", (Channel.Build "" "CH-1" {[ 0 := true; 1 := true ]}).
    split; [reflexivity|]. exists true. reflexivity.
  - reflexivity.
  - reflexivity.
  - reflexivity.
  - intros Hm. apply (member_topic _ 7 (Client.newClient "" "CH-1")) in Hm as (ch & Hn & [b Hb]).
    + vm_compute in Hn. injection Hn as <-. vm_compute in Hb. discriminate.
    + apply registry_okb_sound. vm_compute. reflexivity.
    + reflexivity.
  - exists s1, s2. exact (conj Hclose (conj Hadd Hp)).
Defined.

(** X18.  After [Shutdown] the handler does not answer 500: the started
    flag is still set, so a [GET] request that is not cancelled goes on
    to send its connection on the closed admission queue and panics.
    [Start] on the stopped server fails with [ErrServerStarted] and
    changes nothing, so there is no way back. *)
Theorem X18_GET_after_Shutdown_panics hasHeaders canon pick r s w :
  running s → registry_ok s →
  Http.flusher w = true → Http.Method r = "GET" → Http.cancelled r = false →
  ∃ s', Server.Shutdown s = (Go.Ok None, s') ∧
        Server.Start s' = (Go.Ok (Some ErrServerStarted), s') ∧
        (Server.ServeHTTP hasHeaders canon pick r (s', w)).1 =
          Go.Panic "send on closed channel".
Proof.
  intros Hrun Hok Hf Hm Hc.
  destruct (Shutdown_ok s Hrun Hok) as (s' & Hsd & Hstop & _).
  exists s'. split; [done|]. split.
  - apply Start_started. by destruct Hstop.
  - by apply ServeHTTP_stopped.
Qed.

Lemma X18_witness :
  ∃ s', Server.Shutdown demo = (Go.Ok None, s') ∧
        (Server.ServeHTTP (λ _, false) (λ k, k) false (Http.Build_Request "GET" "/a" "" false)
           (s', Http.Build_ResponseWriter ∅ None [] true)).1 =
          Go.Panic "send on closed channel".
Proof.
  destruct (X18_GET_after_Shutdown_panics (λ _, false) (λ k, k) false
              (Http.Build_Request "GET" "/a" "" false) demo
              (Http.Build_ResponseWriter ∅ None [] true))
    as (s' & Hsd & _ & Hp).
  - by repeat split.
  - apply registry_okb_sound. vm_compute. reflexivity.
  - reflexivity.
  - reflexivity.
  - reflexivity.
  - exists s'. exact (conj Hsd Hp).
Defined.

(** *** The response headers *)

(** X19.  The headers of the response to a [GET] request that is
    admitted: the four event-stream headers are set whatever was
    configured under the same keys, and a configured header whose
    canonical key is none of these four, and is shared with no other
    configured key, is there with its configured value. *)
Theorem X19_GET_response_headers hasHeaders canon pick r s w :
  Server.isStarted s = true → Http.flusher w = true →
  Http.Method r = "GET" → Http.cancelled r = false →
  Go.closed (Server.addClient s) = false → Go.full (Server.addClient s) = false →
  NoDup (canon <$> ["Content-Type"; "Cache-Control"; "Connection"; "X-Accel-Buffering"]) →
  ∃ st, Server.ServeHTTP hasHeaders canon pick r (s, w) = (Go.Block, st) ∧
        Http.header st.2 !! canon "Content-Type" = Some "text/event-stream" ∧
        Http.header st.2 !! canon "Cache-Control" = Some "no-cache" ∧
        Http.header st.2 !! canon "Connection" = Some "keep-alive" ∧
        Http.header st.2 !! canon "X-Accel-Buffering" = Some "no" ∧
        (∀ k0 v, hasHeaders (Server.options s) = true →
                 Headers (Server.options s) !! k0 = Some v →
                 (∀ k, is_Some (Headers (Server.options s) !! k) → canon k = canon k0 → k = k0) →
                 canon k0 ∉ canon <$> ["Content-Type"; "Cache-Control"; "Connection";
                                       "X-Accel-Buffering"] →
                 Http.header st.2 !! canon k0 = Some v).
Proof.
  intros Hs Hf Hm Hc Hopen Hroom Hnd.
  destruct (ServeHTTP_GET hasHeaders canon pick r s w Hs Hf Hm Hc Hopen Hroom)
    as (st & Hrun & _ & _ & _ & _ & Hh).
  exists st. split; [done|]. rewrite Hh. clear Hh Hrun.
  simpl in Hnd. apply NoDup_cons in Hnd as [H1 Hnd]. apply NoDup_cons in Hnd as [H2 Hnd].
  apply NoDup_cons in Hnd as [H3 _].
  rewrite !elem_of_cons in H1. rewrite !elem_of_cons in H2. rewrite !elem_of_cons in H3.
  split; [|split; [|split; [|split]]].
  - rewrite !lookup_insert_ne by (intros Heq; apply H1; rewrite Heq; tauto).
    apply lookup_insert_eq.
  - rewrite !lookup_insert_ne by (intros Heq; apply H2; rewrite Heq; tauto).
    apply lookup_insert_eq.
  - rewrite !lookup_insert_ne by (intros Heq; apply H3; rewrite Heq; tauto).
    apply lookup_insert_eq.
  - apply lookup_insert_eq.
  - intros k0 v Hhas Hk0 Hinj Hnot. simpl in Hnot. rewrite !elem_of_cons in Hnot.
    rewrite !lookup_insert_ne by (intros Heq; apply Hnot; rewrite Heq; tauto).
    unfold with_headers. rewrite Hhas. apply SetAll_lookup.
    + apply NoDup_fst_map_to_list.
    + by apply elem_of_map_to_list.
    + intros k Hk. apply Hinj. apply elem_of_map_keys in Hk. exact Hk.
Qed.

Lemma X19_witness :
  ∃ st, Server.ServeHTTP (λ o, bool_decide (Headers o ≠ ∅)) (λ k, k) false
          (Http.Build_Request "GET" "/a" "" false)
          (Server.NewServer
             (Some (Build_Options {[ "X-Test" := "1"; "Content-Type" := "text/plain" ]}
                                  0 None false)),
           Http.Build_ResponseWriter ∅ None [] true) = (Go.Block, st) ∧
        Http.header st.2 !! "Content-Type" = Some "text/event-stream" ∧
        Http.header st.2 !! "X-Test" = Some "1".
Proof.
  destruct (X19_GET_response_headers (λ o, bool_decide (Headers o ≠ ∅)) (λ k, k) false
              (Http.Build_Request "GET" "/a" "" false)
              (Server.NewServer
                 (Some (Build_Options {[ "X-Test" := "1"; "Content-Type" := "text/plain" ]}
                                      0 None false)))
              (Http.Build_ResponseWriter ∅ None [] true))
    as (st & Hrun & Hct & _ & _ & _ & Hconf).
  - reflexivity.
  - reflexivity.
  - reflexivity.
  - reflexivity.
  - reflexivity.
  - reflexivity.
  - apply (bool_decide_unpack _). vm_compute. reflexivity.
  - exists st. refine (conj Hrun (conj Hct _)).
    apply (Hconf "X-Test" "1").
    + vm_compute. reflexivity.
    + reflexivity.
    + intros k _ Heq. exact Heq.
    + apply (bool_decide_unpack _). vm_compute. reflexivity.
Defined.

(** X20.  A [GET] request whose context is done when the handler reaches
    the admission select, and whose connection the select nevertheless
    sends: the handler answers 200, leaves the streaming loop at once
    and its deferred function queues the removal.  The handler returns
    with the new connection waiting in both queues of the control loop,
    and in no channel yet. *)
Theorem X20_cancelled_request_waits_in_both_queues hasHeaders canon r s w :
  Server.isStarted s = true → Http.flusher w = true →
  Http.Method r = "GET" → Http.cancelled r = true →
  Go.closed (Server.addClient s) = false → Go.full (Server.addClient s) = false →
  Go.closed (Server.removeClient s) = false → Go.full (Server.removeClient s) = false →
  let c := fresh (dom (Server.mem s)) in
  ∃ st, Server.ServeHTTP hasHeaders canon false r (s, w) = (Go.Ok tt, st) ∧
        Go.buf (Server.addClient st.1) = Go.buf (Server.addClient s) ++ [c] ∧
        Go.buf (Server.removeClient st.1) = Go.buf (Server.removeClient s) ++ [c] ∧
        Server.mem st.1 =
          <[c := Client.newClient (Http.LastEventID r) (topic_of s r)]> (Server.mem s) ∧
        Server.channels st.1 = Server.channels s ∧
        Http.status st.2 = Some (default Http.StatusOK (Http.status w)) ∧
        Http.body st.2 = Http.body w.
Proof.
  intros Hs Hf Hm Hc Hopen Hroom Hopen' Hroom' c.
  rewrite ServeHTTP_started by done. rewrite Hm, Hc. simpl.
  unfold Server.on_w, Server.on_srv, Server.on_mem, alloc, Server.selectAdd,
    Server.deferredRemove, Http.Header_Set, Http.WriteHeader, Http.Flush, Go.defer,
    Server.outboxLen, deref, Go.send, Go.recv.
  go_unfold. simpl. rewrite Hopen, Hroom. simpl. rewrite Hopen, Hroom. simpl.
  rewrite Hopen', Hroom'. simpl.
  eexists. split; [done|]. simpl.
  destruct (with_headers_frame hasHeaders canon s w) as (-> & -> & _). by repeat split.
Qed.

Lemma X20_witness :
  ∃ st, Server.ServeHTTP (λ _, false) (λ k, k) false (Http.Build_Request "GET" "/a" "" true)
          (running0, Http.Build_ResponseWriter ∅ None [] true) = (Go.Ok tt, st) ∧
        Go.buf (Server.addClient st.1) = [0] ∧ Go.buf (Server.removeClient st.1) = [0].
Proof.
  destruct (X20_cancelled_request_waits_in_both_queues (λ _, false) (λ k, k)
              (Http.Build_Request "GET" "/a" "" true) running0
              (Http.Build_ResponseWriter ∅ None [] true))
    as (st & Hrun & Ha & Hr & _); [reflexivity..|].
  exists st. exact (conj Hrun (conj Ha Hr)).
Defined.

Lemma no_empty_channelb_sound s : no_empty_channelb s = true → no_empty_channel s.
Proof.
  intros H%bool_decide_eq_true_1 name ch Hn. by apply (H name ch).
Qed.

(** What a turn of the control loop that returns has done to the
    registry. *)
Lemma dispatch_turn q s s' :
  registry_ok s → Server.dispatch q s = (Go.Ok tt, s') →
  ∃ c cl, Server.mem s !! c = Some cl ∧
    match q with
    | Server.AddClient =>
        let ch := default (Channel.newChannel (Client.channel cl))
                    (Server.channels s !! Client.channel cl) in
        head (Go.buf (Server.addClient s)) = Some c ∧
        Server.mem s' = Server.mem s ∧
        Server.channels s' =
          <[Client.channel cl := Channel.set_clients (<[c := true]> (Channel.clients ch)) ch]>
            (Server.channels s)
    | Server.RemoveClient =>
        head (Go.buf (Server.removeClient s)) = Some c ∧
        match Server.channels s !! Client.channel cl with
        | None => Server.mem s' = Server.mem s ∧ Server.channels s' = Server.channels s
        | Some ch =>
            Go.closed (Client.send cl) = false ∧
            Server.mem s' = <[c := closed_outbox cl]> (Server.mem s) ∧
            Server.channels s' =
              if decide (delete c (Channel.clients ch) = ∅)
              then delete (Client.channel cl) (Server.channels s)
              else <[Client.channel cl := Channel.set_clients (delete c (Channel.clients ch)) ch]>
                     (Server.channels s)
        end
    end.
Proof.
  intros Hok Hrun. destruct q.
  - destruct (Go.buf (Server.addClient s)) as [|c qa] eqn:Hq.
    { revert Hrun. unfold Server.dispatch, Go.recv. go_unfold. simpl. rewrite Hq.
      by destruct (Go.closed (Server.addClient s)). }
    rewrite (dispatch_AddClient s c qa Hq) in Hrun.
    set (s0 := Server.set_addClient _ s) in *.
    destruct (Server.mem s !! c) as [cl|] eqn:Hc.
    2:{ revert Hrun. unfold Server.dispatch_addClient, Server.on_mem, deref.
        go_unfold. simpl. by rewrite Hc. }
    destruct (dispatch_addClient_ok s0 c cl Hc) as (s1 & Hrun' & _ & Hmem & Hchs).
    simpl in *. rewrite Hrun in Hrun'. injection Hrun' as <-.
    by exists c, cl.
  - destruct (Go.buf (Server.removeClient s)) as [|c qr] eqn:Hq.
    { revert Hrun. unfold Server.dispatch, Go.recv. go_unfold. simpl. rewrite Hq.
      by destruct (Go.closed (Server.removeClient s)). }
    rewrite (dispatch_RemoveClient s c qr Hq) in Hrun.
    set (s0 := Server.set_removeClient _ s) in *.
    destruct (Server.mem s !! c) as [cl|] eqn:Hc.
    2:{ revert Hrun. unfold Server.dispatch_removeClient, Server.on_mem, deref.
        go_unfold. simpl. by rewrite Hc. }
    exists c, cl. split; [done|]. split; [done|].
    destruct (Server.channels s !! Client.channel cl) as [ch|] eqn:Hch.
    2:{ rewrite (dispatch_removeClient_absent s0 c cl) in Hrun by done.
        by injection Hrun as <-. }
    destruct (Go.closed (Client.send cl)) eqn:Hopen.
    { pose proof (dispatch_removeClient_stale s0 c cl ch Hc Hch Hopen) as Hp.
      by rewrite Hrun in Hp. }
    destruct (Hok _ _ Hch) as [Hname _].
    destruct (dispatch_removeClient_open s0 c cl ch Hc Hopen Hch Hname)
      as (s1 & Hrun' & _ & Hmem & Hchs).
    simpl in *. rewrite Hrun in Hrun'. by injection Hrun' as <-.
Qed.

(** With no empty channel, a count of zero means no channel at all. *)
Lemma ClientCount_0 s :
  no_empty_channel s → Server.ClientCount s = 0 → Server.channels s = ∅.
Proof.
  intros Hne Hcount. destruct (decide (Server.channels s = ∅)) as [|Hch]; [done|].
  apply map_choose in Hch as (name & ch & Hch).
  pose proof (ClientCount_delete s (Server.set_channels (delete name (Server.channels s)) s)
                name ch Hch eq_refl) as Hsum.
  assert (size (Channel.clients ch) ≠ 0).
  { apply map_size_non_empty_iff. by eapply Hne. }
  lia.
Qed.

(** X21.  A channel exists only while it has members: when no channel
    of the registry is empty, none is after a turn of the control loop
    that returns, so that a [ClientCount] of zero then means that
    [Channels] lists nothing. *)
Theorem X21_no_empty_channel_after_a_loop_turn q s s' :
  registry_ok s → no_empty_channel s → Server.dispatch q s = (Go.Ok tt, s') →
  no_empty_channel s' ∧ (Server.ClientCount s' = 0 → Server.Channels s' = []).
Proof.
  intros Hok Hne Hrun.
  assert (Hne' : no_empty_channel s').
  { destruct (dispatch_turn q s s' Hok Hrun) as (c & cl & Hc & Hq). destruct q.
    - destruct Hq as (_ & _ & Hchs). intros name ch Hn. rewrite Hchs in Hn.
      apply lookup_insert_Some in Hn as [[_ <-]|[_ Hn]]; [|by eapply Hne].
      simpl. apply insert_non_empty.
    - destruct Hq as (_ & Hq).
      destruct (Server.channels s !! Client.channel cl) as [ch0|] eqn:Hch0.
      + destruct Hq as (_ & _ & Hchs). intros name ch Hn. rewrite Hchs in Hn.
        case_decide as He.
        * apply lookup_delete_Some in Hn as [_ Hn]. by eapply Hne.
        * apply lookup_insert_Some in Hn as [[_ <-]|[_ Hn]]; [done|by eapply Hne].
      + destruct Hq as (_ & Hchs). intros name ch Hn. rewrite Hchs in Hn. by eapply Hne. }
  split; [done|]. intros Hcount. unfold Server.Channels.
  rewrite (ClientCount_0 s' Hne' Hcount). by rewrite map_to_list_empty.
Qed.

Lemma X21_witness :
  ∃ s', Server.dispatch Server.RemoveClient demo_leaving = (Go.Ok tt, s') ∧
        no_empty_channel s' ∧ Server.Channels s' = ["CH-1"].
Proof.
  exists (Server.dispatch Server.RemoveClient demo_leaving).2.
  assert (Hrun : Server.dispatch Server.RemoveClient demo_leaving =
                 (Go.Ok tt, (Server.dispatch Server.RemoveClient demo_leaving).2)).
  { vm_compute. reflexivity. }
  assert (Hok : registry_ok demo_leaving).
  { apply registry_okb_sound. vm_compute. reflexivity. }
  assert (Hne : no_empty_channel demo_leaving).
  { apply no_empty_channelb_sound. vm_compute. reflexivity. }
  split; [exact Hrun|]. split; [|vm_compute; reflexivity].
  exact (proj1 (X21_no_empty_channel_after_a_loop_turn Server.RemoveClient demo_leaving _
                  Hok Hne Hrun)).
Defined.

(** X22.  A server made with [DontStartServer] refuses to work until it
    is started: [SendMessage], [Restart] and [Shutdown] fail with
    [ErrServerNotStarted] and change nothing, and the handler answers
    500.  [Start] then succeeds and gives a running server with the same
    options and an empty registry. *)
Theorem X22_DontStartServer_defers_the_start o :
  DontStartServer o = true →
  let s := Server.NewServer (Some o) in
  (∀ env name message,
     Server.SendMessage env name message s = (Go.Ok (Some ErrServerNotStarted), s)) ∧
  Server.Restart s = (Go.Ok (Some ErrServerNotStarted), s) ∧
  Server.Shutdown s = (Go.Ok (Some ErrServerNotStarted), s) ∧
  (∀ hasHeaders canon pick r w,
     ∃ w', Server.ServeHTTP hasHeaders canon pick r (s, w) = (Go.Ok tt, (s, w')) ∧
           Http.status w' = Some (default Http.StatusInternalServerError (Http.status w))) ∧
  ∃ s', Server.Start s = (Go.Ok None, s') ∧ running s' ∧ registry_ok s' ∧
        Server.options s' = o ∧ Server.ClientCount s' = 0 ∧ Server.Channels s' = [].
Proof.
  intros Hd s.
  assert (Hs : Server.isStarted s = false).
  { subst s. unfold Server.NewServer. simpl. by rewrite Hd. }
  split; [intros; by apply SendMessage_not_started|].
  split; [by apply Restart_not_started|].
  split. { unfold Server.Shutdown, Server.hasStarted. go_unfold. simpl. by rewrite Hs. }
  split.
  { intros hasHeaders canon pick r w. unfold Server.ServeHTTP. go_unfold. simpl. rewrite Hs.
    simpl. unfold Server.on_w, Http.Error, Http.Header_Set, Http.WriteHeader, Http.Write.
    go_unfold. simpl. eexists. split; [done|]. simpl. by destruct (Http.status w). }
  subst s. unfold Server.NewServer in *. simpl in *. rewrite Hd in *. simpl in *.
  unfold Server.Start, Server.hasStarted. go_unfold. simpl.
  eexists. split; [done|]. split; [by repeat split|]. split; [|by repeat split].
  intros name ch Hn. simpl in Hn. by rewrite lookup_empty in Hn.
Qed.

Lemma X22_witness :
  Server.Shutdown unstarted0 = (Go.Ok (Some ErrServerNotStarted), unstarted0) ∧
  ∃ s', Server.Start unstarted0 = (Go.Ok None, s') ∧ Server.ClientCount s' = 0.
Proof.
  destruct (X22_DontStartServer_defers_the_start (Build_Options ∅ 0 None true) eq_refl)
    as (_ & _ & Hsd & _ & s' & Hstart & _ & _ & _ & Hn & _).
  split; [exact Hsd|]. exists s'. exact (conj Hstart Hn).
Defined.
